(** * Ed-Fi student data loader: a shallow embedding of [load_students.py]

    The development follows the source file top to bottom: the
    [StudentRecord] dataclass, the [EdFiApiClient] class (endpoint
    discovery, OAuth authentication, the authenticated request) and the
    [StudentDataLoader] class (CSV reading, the two payload builders, the
    per-record and the whole-file load).

    A [StudentRecord] is a record as the dataclass declares it, its [str]
    fields strings.  The dataclass checks nothing when a record is built,
    and [read_csv_file] builds records from what [csv.DictReader] yields,
    [None] for the cells a short row lacks: a record as read is a
    [ReadRecord], any field of which may hold [None].  The payload builders
    and [load_student] are given for both; they agree on the records that
    are as declared.

    Python values that travel through JSON are values of [JSON]; a Python
    [dict] with string keys is an association list in insertion order;
    the instance attributes of the client, the remote side and everything
    the program emits (HTTP calls, log lines) live in an explicit [World]
    threaded through a state-and-exception monad. *)

From Stdlib Require Import String Ascii List ZArith Bool Lia PrimFloat.
Import ListNotations.
Set Warnings "-register-all".
Open Scope string_scope.
Open Scope list_scope.

(** ** Python values *)

Inductive JSON : Type :=
| JNull                                   (* None / null *)
| JBool (b : bool)
| JInt (n : Z)
| JFloat (f : float)                      (* a binary64, as Python's float *)
| JStr (s : string)
| JArr (l : list JSON)
| JObj (d : list (string * JSON)).

Definition Dict := list (string * JSON).

(** Python truthiness, as used by [if x:] and [not x]. *)
Definition truthy (v : JSON) : bool :=
  match v with
  | JNull => false
  | JBool b => b
  | JInt n => negb (n =? 0)%Z
  | JFloat f => negb (PrimFloat.eqb f 0%float)
  | JStr s => negb (s =? "")
  | JArr l => match l with [] => false | _ => true end
  | JObj d => match d with [] => false | _ => true end
  end.

(** Truthiness of an [Optional[str]]. *)
Definition truthy_opt (o : option string) : bool :=
  match o with
  | None => false
  | Some s => negb (s =? "")
  end.

(** [d[k]] read and [d[k] = v] write on a dict in insertion order. *)
Fixpoint dict_get {V : Type} (d : list (string * V)) (k : string) : option V :=
  match d with
  | [] => None
  | (k', v) :: rest => if k' =? k then Some v else dict_get rest k
  end.

Fixpoint dict_set {V : Type} (d : list (string * V)) (k : string) (v : V)
  : list (string * V) :=
  match d with
  | [] => [(k, v)]
  | (k', v') :: rest =>
      if k' =? k then (k', v) :: rest else (k', v') :: dict_set rest k v
  end.

Definition keys {V : Type} (d : list (string * V)) : list string :=
  map fst d.

(** ** The [StudentRecord] dataclass *)

Record StudentRecord : Type := mkStudentRecord {
  unique_id : string;
  birth_date : string;
  first_name : string;
  last_name : string;
  middle_name : option string;
  title : option string;
  preferred_first_name : option string;
  preferred_last_name : option string;
  enrollment_date : string;
  enrollment_grade_level : string;
  full_time : string
}.

(** A [StudentRecord] as it is at run time: nothing checks the declared
    types, and a field declared [str] holds [None] when the row it was read
    from was short. *)
Record ReadRecord : Type := mkReadRecord {
  read_unique_id : option string;
  read_birth_date : option string;
  read_first_name : option string;
  read_last_name : option string;
  read_middle_name : option string;
  read_title : option string;
  read_preferred_first_name : option string;
  read_preferred_last_name : option string;
  read_enrollment_date : option string;
  read_enrollment_grade_level : option string;
  read_full_time : option string
}.

(** A record that is as declared, among the records as read. *)
Definition as_read (student : StudentRecord) : ReadRecord :=
  mkReadRecord (Some (unique_id student)) (Some (birth_date student))
    (Some (first_name student)) (Some (last_name student))
    (middle_name student) (title student)
    (preferred_first_name student) (preferred_last_name student)
    (Some (enrollment_date student)) (Some (enrollment_grade_level student))
    (Some (full_time student)).

(** [f'{v}'] and the JSON value of a [str] or [None]. *)
Definition py_format (v : option string) : string :=
  match v with
  | Some s => s
  | None => "None"
  end.

Definition opt_json (v : option string) : JSON :=
  match v with
  | Some s => JStr s
  | None => JNull
  end.

(** ** Exceptions *)

Record Response : Type := mkResponse {
  status_code : Z;
  content : string;            (* the raw body; [response.text] for the log *)
  json_body : option JSON      (* what [response.json()] decodes, if it does *)
}.

(** The subclasses of [requests.RequestException] the program can meet. *)
Inductive RequestErrorKind : Type :=
| ConnectionError
| Timeout
| InvalidURL
| HTTPError
| JSONDecodeError.

Inductive exn : Type :=
| RequestException (kind : RequestErrorKind) (response : option Response)
| KeyError (key : string)
| TypeError
| ValueError
| DiscoverFailed (cause : exn)       (* Exception("Failed to discover API endpoints: {e}") *)
| AuthenticateFailed (cause : exn)   (* Exception("Failed to authenticate: {e}") *)
| CsvNotFound (filename : string)    (* Exception("CSV file not found: {filename}") *)
| CsvReadFailed (cause : exn).       (* Exception("Error reading CSV file: {e}") *)

Inductive Result (A : Type) : Type :=
| Ok (a : A)
| Raise (e : exn).
Arguments Ok {A} a.
Arguments Raise {A} e.

Definition is_request_exception (e : exn) : bool :=
  match e with
  | RequestException _ _ => true
  | _ => false
  end.

(** ** [StudentDataLoader.create_student_payload] *)

Definition set_if_truthy (payload : Dict) (key : string) (field : option string) : Dict :=
  match field with
  | Some s => if truthy_opt field then dict_set payload key (JStr s) else payload
  | None => payload
  end.

Definition create_student_payload (student : StudentRecord) : Dict :=
  let payload :=
    [ ("studentUniqueId", JStr (unique_id student));
      ("birthDate", JStr (birth_date student));
      ("firstName", JStr (first_name student));
      ("lastSurName", JStr (last_name student)) ] in
  let payload := set_if_truthy payload "middleName" (middle_name student) in
  let payload := set_if_truthy payload "personalTitlePrefix" (title student) in
  let payload := set_if_truthy payload "preferredFirstName" (preferred_first_name student) in
  let payload := set_if_truthy payload "preferredLastSurname" (preferred_last_name student) in
  payload.

(** The same on a record as read: a [str] field that holds [None] goes out
    as [null]. *)
Definition create_student_payload_read (student : ReadRecord) : Dict :=
  let payload :=
    [ ("studentUniqueId", opt_json (read_unique_id student));
      ("birthDate", opt_json (read_birth_date student));
      ("firstName", opt_json (read_first_name student));
      ("lastSurName", opt_json (read_last_name student)) ] in
  let payload := set_if_truthy payload "middleName" (read_middle_name student) in
  let payload := set_if_truthy payload "personalTitlePrefix" (read_title student) in
  let payload :=
    set_if_truthy payload "preferredFirstName" (read_preferred_first_name student) in
  let payload :=
    set_if_truthy payload "preferredLastSurname" (read_preferred_last_name student) in
  payload.

Definition required_keys : list string :=
  ["studentUniqueId"; "birthDate"; "firstName"; "lastSurName"].

Definition optional_keys : list string :=
  ["middleName"; "personalTitlePrefix"; "preferredFirstName"; "preferredLastSurname"].

(** ** The [EdFiApiClient] instance *)

Record EdFiApiClient : Type := mkClient {
  base_url : string;
  client_id : string;
  client_secret : string;
  school_id : string;
  timeout : Z;
  access_token : JSON;
  token_expiry : JSON;
  oauth_url : JSON;
  data_management_api_url : JSON
}.

(** [s.rstrip('/')] and [s.lstrip('/')]. *)
Fixpoint rstrip_slash (s : string) : string :=
  match s with
  | EmptyString => EmptyString
  | String c rest =>
      match rstrip_slash rest with
      | EmptyString => if Ascii.eqb c "/" then EmptyString else String c EmptyString
      | r => String c r
      end
  end.

Fixpoint lstrip_slash (s : string) : string :=
  match s with
  | String c rest => if Ascii.eqb c "/" then lstrip_slash rest else s
  | EmptyString => EmptyString
  end.

(** [EdFiApiClient.__init__] *)
Definition new_client (base_url client_id client_secret school_id : string)
    (timeout : Z) : EdFiApiClient :=
  mkClient (rstrip_slash base_url) client_id client_secret school_id timeout
    JNull JNull JNull JNull.

Definition set_access_token (c : EdFiApiClient) (v : JSON) : EdFiApiClient :=
  mkClient (base_url c) (client_id c) (client_secret c) (school_id c) (timeout c)
    v (token_expiry c) (oauth_url c) (data_management_api_url c).

Definition set_oauth_url (c : EdFiApiClient) (v : JSON) : EdFiApiClient :=
  mkClient (base_url c) (client_id c) (client_secret c) (school_id c) (timeout c)
    (access_token c) (token_expiry c) v (data_management_api_url c).

Definition set_data_management_api_url (c : EdFiApiClient) (v : JSON) : EdFiApiClient :=
  mkClient (base_url c) (client_id c) (client_secret c) (school_id c) (timeout c)
    (access_token c) (token_expiry c) (oauth_url c) v.

(** ** What the program emits: HTTP calls and log lines *)

Definition Headers := list (string * string).

(** One constructor per entry point of the [requests] library the source
    calls, with the arguments the source passes. *)
Inductive HttpCall : Type :=
| Get (url : string) (timeout : Z)
| Post (url : JSON) (data : list (string * string)) (headers : Headers) (timeout : Z)
| Request (method : string) (url : string) (headers : Headers)
          (json : option Dict) (timeout : Z).

Inductive NetResult : Type :=
| Responded (r : Response)
| Failed (kind : RequestErrorKind).

Inductive Level : Type := DEBUG | INFO | WARNING | ERROR.

(** The log lines of the source, with their interpolated values. *)
Inductive LogMsg : Type :=
| MsgDiscovering (base_url : string)
| MsgDiscovered
| MsgAuthenticating
| MsgAuthenticated
| MsgTokenExpired
| MsgRequestFailed (e : exn)
| MsgResponseStatus (code : Z)
| MsgResponseBody (text : string)
| MsgReadRecords (n : nat) (filename : string)
| MsgLoadingStudent (uid first last : string)
| MsgCreatingStudent
| MsgStudentCreated (uid : string)
| MsgCreatingAssociation
| MsgAssociationCreated (uid : string)
| MsgFailedToLoad (uid : string) (e : exn)
| MsgContinuing
| MsgLoadComplete (success_count error_count : nat)
| MsgStudentsFailed (error_count : nat).

Inductive Event : Type :=
| Http (call : HttpCall)
| Log (level : Level) (msg : LogMsg).

(** What [open] and [csv.reader] give for a file: its rows of cells in
    file order, the header row first and a blank line as the empty row.
    [open] can raise instead ([FileNotFoundError], or another exception),
    and the reader can raise after some rows. *)
Inductive CsvFile : Type :=
| FileNotFound
| Unreadable (e : exn)
| Rows (rows : list (list string))
| Broken (rows : list (list string)) (e : exn).

(** A row as [csv.DictReader] yields it: a cell for every name of the
    header, [None] where the row was short. *)
Definition DictRow : Type := list (string * option string).

(** The columns [read_csv_file] reads, in the order it reads them. *)
Definition csv_columns : list string :=
  [ "uniqueId"; "birthDate"; "firstName"; "lastName"; "middleName"; "title";
    "preferredFirstName"; "preferredLastName"; "enrollmentDate";
    "enrollmentGradeLevel"; "fullTime" ].

(** [v[k]] on a decoded JSON value. *)
Definition py_getitem (v : JSON) (k : string) : Result JSON :=
  match v with
  | JObj d =>
      match dict_get d k with
      | Some x => Ok x
      | None => Raise (KeyError k)
      end
  | _ => Raise TypeError
  end.

(** [v + '/'] *)
Definition py_add_slash (v : JSON) : Result string :=
  match v with
  | JStr s => Ok (s ++ "/")%string
  | _ => Raise TypeError
  end.

(** [response.json()]: an empty body never decodes. *)
Definition json_of (r : Response) : option JSON :=
  if content r =? "" then None else json_body r.

(** [data if data else None] *)
Definition json_arg (data : option Dict) : option Dict :=
  match data with
  | Some (_ :: _) => data
  | _ => None
  end.

(** Builtins and library functions the program calls and does not define,
    the remote side and the file system. *)
Class Platform : Type := {
  py_float : string -> option float;     (* float(s); None is ValueError *)
  py_int : string -> option Z;           (* int(s); None is ValueError *)
  py_repr : JSON -> string;              (* str(v) of a value that is no str *)
  urljoin : string -> string -> string;  (* urllib.parse.urljoin *)
  (* The requests library together with the remote side: each call is
     answered from, and advances, a state of the remote side. *)
  NetState : Type;
  net : HttpCall -> NetState -> NetResult * NetState;
  (* The file system as open and csv.reader see it. *)
  csv_open : string -> CsvFile
}.

Section Program.

Context {platform : Platform}.

(** [f'{v}'] *)
Definition py_str (v : JSON) : string :=
  match v with
  | JStr s => s
  | _ => py_repr v
  end.

(** *** [StudentDataLoader.create_student_school_association_payload] *)

Definition create_student_school_association_payload
    (api_client : EdFiApiClient) (student : StudentRecord) : Result Dict :=
  let grade_level_descriptor :=
    ("uri://ed-fi.org/GradeLevelDescriptor#" ++ enrollment_grade_level student)%string in
  match py_float (full_time student) with
  | None => Raise ValueError
  | Some full_time_equivalency =>
      match py_int (school_id api_client) with
      | None => Raise ValueError
      | Some sid =>
          Ok [ ("studentReference", JObj [("studentUniqueId", JStr (unique_id student))]);
               ("schoolReference", JObj [("schoolId", JInt sid)]);
               ("entryDate", JStr (enrollment_date student));
               ("entryGradeLevelDescriptor", JStr grade_level_descriptor);
               ("fullTimeEquivalency", JFloat full_time_equivalency) ]
      end
  end.

(** The same on a record as read: [None] is formatted as "None", goes out
    as [null], and [float(None)] is a [TypeError]. *)
Definition create_student_school_association_payload_read
    (api_client : EdFiApiClient) (student : ReadRecord) : Result Dict :=
  let grade_level_descriptor :=
    ("uri://ed-fi.org/GradeLevelDescriptor#"
     ++ py_format (read_enrollment_grade_level student))%string in
  match read_full_time student with
  | None => Raise TypeError
  | Some flag =>
      match py_float flag with
      | None => Raise ValueError
      | Some full_time_equivalency =>
          match py_int (school_id api_client) with
          | None => Raise ValueError
          | Some sid =>
              Ok [ ("studentReference",
                    JObj [("studentUniqueId", opt_json (read_unique_id student))]);
                   ("schoolReference", JObj [("schoolId", JInt sid)]);
                   ("entryDate", opt_json (read_enrollment_date student));
                   ("entryGradeLevelDescriptor", JStr grade_level_descriptor);
                   ("fullTimeEquivalency", JFloat full_time_equivalency) ]
          end
      end
  end.

(** *** The world and the monad *)

Record World : Type := mkWorld {
  client : EdFiApiClient;    (* the attributes of [self] / [self.api_client] *)
  remote : NetState;
  trace : list Event         (* everything emitted so far, oldest first *)
}.

Definition M (A : Type) : Type := World -> Result A * World.

Definition ret {A} (a : A) : M A := fun w => (Ok a, w).

Definition bind {A B} (m : M A) (k : A -> M B) : M B :=
  fun w =>
    match m w with
    | (Ok a, w') => k a w'
    | (Raise e, w') => (Raise e, w')
    end.

Definition raise {A} (e : exn) : M A := fun w => (Raise e, w).

Definition lift {A} (r : Result A) : M A := fun w => (r, w).

(** [try: body / except <matches> as e: handler e] *)
Definition try_except {A} (body : M A) (matches : exn -> bool)
    (handler : exn -> M A) : M A :=
  fun w =>
    match body w with
    | (Raise e, w') => if matches e then handler e w' else (Raise e, w')
    | ok => ok
    end.

Definition get_client : M EdFiApiClient := fun w => (Ok (client w), w).

Definition update_client (f : EdFiApiClient -> EdFiApiClient) : M unit :=
  fun w => (Ok tt, mkWorld (f (client w)) (remote w) (trace w)).

Definition emit (e : Event) : M unit :=
  fun w => (Ok tt, mkWorld (client w) (remote w) (trace w ++ [e])).

Definition log (level : Level) (msg : LogMsg) : M unit := emit (Log level msg).

(** A call into [requests]: recorded, answered by the remote side, and a
    transport failure raised as the [RequestException] it is. *)
Definition http (call : HttpCall) : M Response :=
  fun w =>
    let (res, remote') := net call (remote w) in
    let w' := mkWorld (client w) remote' (trace w ++ [Http call]) in
    match res with
    | Responded r => (Ok r, w')
    | Failed kind => (Raise (RequestException kind None), w')
    end.

Notation "x <- c1 ;; c2" := (bind c1 (fun x => c2))
  (at level 61, c1 at next level, right associativity).
Notation "c1 ;; c2" := (bind c1 (fun _ => c2))
  (at level 61, right associativity).

(** [response.raise_for_status()]: [HTTPError] on a 4xx or 5xx status. *)
Definition raise_for_status (r : Response) : M unit :=
  if ((400 <=? status_code r) && (status_code r <? 600))%Z
  then raise (RequestException HTTPError (Some r))
  else ret tt.

(** [response.json()]: a body that does not decode raises
    [requests.exceptions.JSONDecodeError], itself a [RequestException]. *)
Definition response_json (r : Response) : M JSON :=
  match json_of r with
  | Some v => ret v
  | None => raise (RequestException JSONDecodeError None)
  end.

(** *** [EdFiApiClient.discover_endpoints] *)

Definition discover_endpoints : M unit :=
  c <- get_client ;;
  if truthy (oauth_url c) && truthy (data_management_api_url c) then ret tt
  else
    try_except
      (log INFO (MsgDiscovering (base_url c)) ;;
       response <- http (Get (base_url c) (timeout c)) ;;
       raise_for_status response ;;
       api_info <- response_json response ;;
       urls <- lift (py_getitem api_info "urls") ;;
       oauth <- lift (py_getitem urls "oauth") ;;
       update_client (fun c => set_oauth_url c oauth) ;;
       urls <- lift (py_getitem api_info "urls") ;;
       dm <- lift (py_getitem urls "dataManagementApi") ;;
       update_client (fun c => set_data_management_api_url c dm) ;;
       log INFO MsgDiscovered)
      is_request_exception
      (fun e => raise (DiscoverFailed e)).

(** *** [EdFiApiClient.authenticate] *)

Definition authenticate : M unit :=
  discover_endpoints ;;
  c <- get_client ;;
  let token_data :=
    [ ("grant_type", "client_credentials");
      ("client_id", client_id c);
      ("client_secret", client_secret c) ] in
  try_except
    (log INFO MsgAuthenticating ;;
     response <- http (Post (oauth_url c) token_data
                         [("Content-Type", "application/x-www-form-urlencoded")]
                         (timeout c)) ;;
     raise_for_status response ;;
     token_info <- response_json response ;;
     token <- lift (py_getitem token_info "access_token") ;;
     update_client (fun c => set_access_token c token) ;;
     (* expires_in = token_info.get('expires_in', 3600): computed, never used *)
     log INFO MsgAuthenticated)
    is_request_exception
    (fun e => raise (AuthenticateFailed e)).

(** *** [EdFiApiClient.make_request] *)

Definition bearer (token : JSON) : string := ("Bearer " ++ py_str token)%string.

Definition request_headers (token : JSON) : Headers :=
  [ ("Authorization", bearer token);
    ("Content-Type", "application/json") ].

(** The [except requests.RequestException as e:] handler. *)
Definition log_request_failure (e : exn) : M unit :=
  log ERROR (MsgRequestFailed e) ;;
  match e with
  | RequestException _ (Some r) =>
      log ERROR (MsgResponseStatus (status_code r)) ;;
      log ERROR (MsgResponseBody (content r))
  | _ => ret tt
  end.

(** The end of the [try] block: status check and decoding. *)
Definition finish_response (response : Response) : M JSON :=
  raise_for_status response ;;
  if negb (content response =? "") then response_json response
  else ret (JObj []).

(** [if not self.access_token: self.authenticate()] *)
Definition ensure_session : M unit :=
  c <- get_client ;;
  if negb (truthy (access_token c)) then authenticate else ret tt.

Definition make_request (endpoint : string) (method : string)
    (data : option Dict) : M JSON :=
  ensure_session ;;
  c <- get_client ;;
  base <- lift (py_add_slash (data_management_api_url c)) ;;
  let full_url := urljoin base (lstrip_slash endpoint) in
  let headers := request_headers (access_token c) in
  try_except
    (response <- http (Request method full_url headers (json_arg data) (timeout c)) ;;
     response <-
       (if (status_code response =? 401)%Z then
          log INFO MsgTokenExpired ;;
          authenticate ;;
          c <- get_client ;;
          let headers := dict_set headers "Authorization" (bearer (access_token c)) in
          http (Request method full_url headers (json_arg data) (timeout c))
        else ret response) ;;
     finish_response response)
    is_request_exception
    (fun e => log_request_failure e ;; raise e).

(** *** [csv.DictReader] *)

(** [for key in fieldnames[lr:]: d[key] = restval], [restval] being [None]. *)
Fixpoint pad_row (fieldnames : list string) (d : DictRow) : DictRow :=
  match fieldnames with
  | [] => d
  | key :: rest => pad_row rest (dict_set d key None)
  end.

(** [d = dict(zip(fieldnames, row))], then the padding of a short row.
    What a long row has beyond the header goes under the key [None], which
    is no string and is never looked up: it is left out. *)
Fixpoint zip_row (fieldnames cells : list string) (d : DictRow) : DictRow :=
  match fieldnames, cells with
  | key :: fieldnames', cell :: cells' =>
      zip_row fieldnames' cells' (dict_set d key (Some cell))
  | _, [] => pad_row fieldnames d
  | [], _ => d
  end.

Definition dict_of_row (fieldnames cells : list string) : DictRow :=
  zip_row fieldnames cells [].

Definition is_blank (cells : list string) : bool :=
  match cells with
  | [] => true
  | _ => false
  end.

(** [for row in reader]: the first row of the file gives the field names,
    a blank row after it is skipped, and a file without a row yields
    nothing. *)
Definition dict_rows (rows : list (list string)) : list DictRow :=
  match rows with
  | [] => []
  | fieldnames :: data =>
      map (dict_of_row fieldnames) (filter (fun cells => negb (is_blank cells)) data)
  end.

(** *** [StudentDataLoader.read_csv_file] *)

(** [row[k]] *)
Definition row_get (row : DictRow) (k : string) : Result (option string) :=
  match dict_get row k with
  | Some cell => Ok cell
  | None => Raise (KeyError k)
  end.

(** [v if v else None] *)
Definition none_if_empty (v : option string) : option string :=
  if truthy_opt v then v else None.

Definition result_bind {A B} (r : Result A) (k : A -> Result B) : Result B :=
  match r with
  | Ok a => k a
  | Raise e => Raise e
  end.

(** [StudentRecord(unique_id=row['uniqueId'], ...)] *)
Definition student_of_row (row : DictRow) : Result ReadRecord :=
  result_bind (row_get row "uniqueId") (fun uid =>
  result_bind (row_get row "birthDate") (fun bd =>
  result_bind (row_get row "firstName") (fun fn =>
  result_bind (row_get row "lastName") (fun ln =>
  result_bind (row_get row "middleName") (fun mn =>
  result_bind (row_get row "title") (fun ti =>
  result_bind (row_get row "preferredFirstName") (fun pfn =>
  result_bind (row_get row "preferredLastName") (fun pln =>
  result_bind (row_get row "enrollmentDate") (fun ed =>
  result_bind (row_get row "enrollmentGradeLevel") (fun gl =>
  result_bind (row_get row "fullTime") (fun ft =>
  Ok (mkReadRecord uid bd fn ln (none_if_empty mn) (none_if_empty ti)
        (none_if_empty pfn) (none_if_empty pln) ed gl ft)))))))))))).

Fixpoint students_of_dicts (rows : list DictRow) : Result (list ReadRecord) :=
  match rows with
  | [] => Ok []
  | row :: rest =>
      result_bind (student_of_row row) (fun student =>
      result_bind (students_of_dicts rest) (fun students =>
      Ok (student :: students)))
  end.

(** The records of the rows of a file. *)
Definition students_of_rows (rows : list (list string)) : Result (list ReadRecord) :=
  students_of_dicts (dict_rows rows).

Definition read_csv_file (filename : string) : M (list ReadRecord) :=
  match csv_open filename with
  | FileNotFound => raise (CsvNotFound filename)
  | Unreadable e => raise (CsvReadFailed e)
  | Rows rows =>
      match students_of_rows rows with
      | Raise e => raise (CsvReadFailed e)
      | Ok students =>
          log INFO (MsgReadRecords (length students) filename) ;;
          ret students
      end
  | Broken rows e =>
      (* the rows are read one by one: a record that cannot be built
         raises before the reader does *)
      match students_of_rows rows with
      | Raise e' => raise (CsvReadFailed e')
      | Ok _ => raise (CsvReadFailed e)
      end
  end.

(** *** [StudentDataLoader.load_student] *)

Definition any_exception (e : exn) : bool := true.

Definition load_student (student : StudentRecord) : M unit :=
  log INFO (MsgLoadingStudent (unique_id student) (first_name student)
              (last_name student)) ;;
  try_except
    (let student_payload := create_student_payload student in
     log DEBUG MsgCreatingStudent ;;
     make_request "/ed-fi/students" "POST" (Some student_payload) ;;
     log INFO (MsgStudentCreated (unique_id student)) ;;
     api_client <- get_client ;;
     association_payload <-
       lift (create_student_school_association_payload api_client student) ;;
     log DEBUG MsgCreatingAssociation ;;
     make_request "/ed-fi/studentSchoolAssociations" "POST"
       (Some association_payload) ;;
     log INFO (MsgAssociationCreated (unique_id student)))
    any_exception
    (fun e => log ERROR (MsgFailedToLoad (unique_id student) e) ;; raise e).

(** The same on a record as read. *)
Definition load_student_read (student : ReadRecord) : M unit :=
  log INFO (MsgLoadingStudent (py_format (read_unique_id student))
              (py_format (read_first_name student))
              (py_format (read_last_name student))) ;;
  try_except
    (let student_payload := create_student_payload_read student in
     log DEBUG MsgCreatingStudent ;;
     make_request "/ed-fi/students" "POST" (Some student_payload) ;;
     log INFO (MsgStudentCreated (py_format (read_unique_id student))) ;;
     api_client <- get_client ;;
     association_payload <-
       lift (create_student_school_association_payload_read api_client student) ;;
     log DEBUG MsgCreatingAssociation ;;
     make_request "/ed-fi/studentSchoolAssociations" "POST"
       (Some association_payload) ;;
     log INFO (MsgAssociationCreated (py_format (read_unique_id student))))
    any_exception
    (fun e =>
       log ERROR (MsgFailedToLoad (py_format (read_unique_id student)) e) ;; raise e).

(** *** [StudentDataLoader.load_all_students] *)

(** The [for student in students:] loop with its two counters. *)
Fixpoint load_loop (students : list StudentRecord)
    (success_count error_count : nat) : M (nat * nat) :=
  match students with
  | [] => ret (success_count, error_count)
  | student :: rest =>
      counts <-
        try_except
          (load_student student ;; ret (S success_count, error_count))
          any_exception
          (fun _ => log ERROR MsgContinuing ;; ret (success_count, S error_count)) ;;
      load_loop rest (fst counts) (snd counts)
  end.

(** The same loop over records as read. *)
Fixpoint load_loop_read (students : list ReadRecord)
    (success_count error_count : nat) : M (nat * nat) :=
  match students with
  | [] => ret (success_count, error_count)
  | student :: rest =>
      counts <-
        try_except
          (load_student_read student ;; ret (S success_count, error_count))
          any_exception
          (fun _ => log ERROR MsgContinuing ;; ret (success_count, S error_count)) ;;
      load_loop_read rest (fst counts) (snd counts)
  end.

Definition load_all_students (csv_filename : string) : M unit :=
  students <- read_csv_file csv_filename ;;
  counts <- load_loop_read students 0 0 ;;
  log INFO (MsgLoadComplete (fst counts) (snd counts)) ;;
  if (0 <? snd counts)%nat then log WARNING (MsgStudentsFailed (snd counts))
  else ret tt.

End Program.

(** ** Observations on a trace and on a record *)

(** The calls to [requests.request] (the data API calls) in a trace. *)
Fixpoint data_requests (t : list Event) : list HttpCall :=
  match t with
  | [] => []
  | Http (Request m u h j tm) :: rest => Request m u h j tm :: data_requests rest
  | _ :: rest => data_requests rest
  end.

(** The calls to [requests.post] (the token requests) in a trace. *)
Fixpoint token_posts (t : list Event) : list HttpCall :=
  match t with
  | [] => []
  | Http (Post u d h tm) :: rest => Post u d h tm :: token_posts rest
  | _ :: rest => token_posts rest
  end.

(** The records whose load was started, from the "Loading student" lines. *)
Fixpoint started (t : list Event) : list string :=
  match t with
  | [] => []
  | Log _ (MsgLoadingStudent uid _ _) :: rest => uid :: started rest
  | _ :: rest => started rest
  end.

(** The JSON body a call carries. *)
Definition json_of_call (call : HttpCall) : option Dict :=
  match call with
  | Request _ _ _ j _ => j
  | _ => None
  end.

Definition headers_of_call (call : HttpCall) : Headers :=
  match call with
  | Request _ _ h _ _ => h
  | Post _ _ h _ => h
  | Get _ _ => []
  end.

(** The optional fields of a record with the payload key of each. *)
Definition optional_fields (student : StudentRecord) : list (string * option string) :=
  [ ("middleName", middle_name student);
    ("personalTitlePrefix", title student);
    ("preferredFirstName", preferred_first_name student);
    ("preferredLastSurname", preferred_last_name student) ].

(** An optional field that holds the empty string, made absent. *)
Definition absent_if_empty (field : option string) : option string :=
  match field with
  | Some s => if s =? "" then None else Some s
  | None => None
  end.

Definition with_empty_as_absent (student : StudentRecord) : StudentRecord :=
  mkStudentRecord (unique_id student) (birth_date student) (first_name student)
    (last_name student)
    (absent_if_empty (middle_name student)) (absent_if_empty (title student))
    (absent_if_empty (preferred_first_name student))
    (absent_if_empty (preferred_last_name student))
    (enrollment_date student) (enrollment_grade_level student) (full_time student).

Definition is_ok {A} (r : Result A) : bool :=
  match r with
  | Ok _ => true
  | Raise _ => false
  end.

(** The 4xx and 5xx statuses [raise_for_status] rejects. *)
Definition is_error_status (r : Response) : bool :=
  ((400 <=? status_code r) && (status_code r <? 600))%Z.

(** Both endpoints are cached: [discover_endpoints] returns at once. *)
Definition endpoints_cached (c : EdFiApiClient) : bool :=
  truthy (oauth_url c) && truthy (data_management_api_url c).

(** ** How a step changes the world *)

(** The attributes of the client no method assigns after [__init__]. *)
Definition static (c : EdFiApiClient) : string * string * string * string * Z :=
  (base_url c, client_id c, client_secret c, school_id c, timeout c).

(** [w'] comes after [w]: the trace grew by events in [P] and the static
    attributes are the same. *)
Definition evolves {platform : Platform} (P : Event -> Prop) (w w' : World) : Prop :=
  static (client w') = static (client w) /\
  exists seg, trace w' = trace w ++ seg /\ Forall P seg.

Definition emits {platform : Platform} {A} (P : Event -> Prop) (m : M A) : Prop :=
  forall w, evolves P w (snd (m w)).

(** The call [discover_endpoints] makes: [requests.get(self.base_url, ...)]. *)
Definition discovery_call (c : EdFiApiClient) : HttpCall :=
  Get (base_url c) (timeout c).

(** What endpoint discovery emits, and what authentication emits. *)
Definition discover_event (e : Event) : Prop :=
  match e with
  | Http (Get _ _) => True
  | Log INFO (MsgDiscovering _) | Log INFO MsgDiscovered => True
  | _ => False
  end.

Definition auth_event (e : Event) : Prop :=
  match e with
  | Http (Get _ _) | Http (Post _ _ _ _) => True
  | Log INFO (MsgDiscovering _) | Log INFO MsgDiscovered
  | Log INFO MsgAuthenticating | Log INFO MsgAuthenticated => True
  | _ => False
  end.

(** What [make_request] emits for a given [data]: the events of
    authentication, its own log lines, and data API calls that carry
    [data if data else None]. *)
Definition request_event (data : option Dict) (e : Event) : Prop :=
  match e with
  | Http (Request _ _ _ j _) => j = json_arg data
  | Log INFO MsgTokenExpired => True
  | Log ERROR (MsgRequestFailed _) | Log ERROR (MsgResponseStatus _)
  | Log ERROR (MsgResponseBody _) => True
  | _ => auth_event e
  end.

(** The call [make_request] sends while the client holds [token]. *)
Definition data_call {platform : Platform} (method full_url : string)
    (token : JSON) (data : option Dict) (tm : Z) : HttpCall :=
  Request method full_url (request_headers token) (json_arg data) tm.

(** The token request [authenticate] makes for a client. *)
Definition token_call (c : EdFiApiClient) : HttpCall :=
  Post (oauth_url c)
    [ ("grant_type", "client_credentials");
      ("client_id", client_id c);
      ("client_secret", client_secret c) ]
    [("Content-Type", "application/x-www-form-urlencoded")]
    (timeout c).

(** The [try] block of [make_request] from a call on: the call, the status
    check and the decoding, under the [except] handler. *)
Definition final_attempt {platform : Platform} (call : HttpCall) : M JSON :=
  try_except (bind (http call) finish_response) is_request_exception
    (fun e => bind (log_request_failure e) (fun _ => raise e)).

(** What a step added to the trace. *)
Definition emitted_by {platform : Platform} {A} (m : M A) (w : World) : list Event :=
  skipn (length (trace w)) (trace (snd (m w))).

(** The tallies a trace reports, from the "Load complete" lines. *)
Fixpoint tallies (t : list Event) : list (nat * nat) :=
  match t with
  | [] => []
  | Log _ (MsgLoadComplete s e) :: rest => (s, e) :: tallies rest
  | _ :: rest => tallies rest
  end.

(** An event inside the load of a record: it starts no record and reports
    no tally. *)
Definition inner_event (e : Event) : Prop := started [e] = [] /\ tallies [e] = [].

(** The two log lines of [load_student] before the primary POST, the
    primary POST, and its result from a given world. *)
Definition before_primary {platform : Platform} (student : StudentRecord) : M unit :=
  bind (log INFO (MsgLoadingStudent (unique_id student) (first_name student)
                    (last_name student)))
       (fun _ => log DEBUG MsgCreatingStudent).

Definition primary_post {platform : Platform} (student : StudentRecord) : M JSON :=
  make_request "/ed-fi/students" "POST" (Some (create_student_payload student)).

Definition primary_result {platform : Platform} (student : StudentRecord)
    (w : World) : Result JSON :=
  fst (primary_post student (snd (before_primary student w))).

(** Record by record, whether [load_student] returns, along the worlds the
    loop of [load_all_students] goes through. *)
Fixpoint outcomes {platform : Platform} (students : list StudentRecord)
    (w : World) : list bool :=
  match students with
  | [] => []
  | student :: rest =>
      is_ok (fst (load_student student w))
      :: outcomes rest (snd (load_loop [student] 0 0 w))
  end.

Fixpoint outcomes_read {platform : Platform} (students : list ReadRecord)
    (w : World) : list bool :=
  match students with
  | [] => []
  | student :: rest =>
      is_ok (fst (load_student_read student w))
      :: outcomes_read rest (snd (load_loop_read [student] 0 0 w))
  end.

Definition successes (results : list bool) : nat := length (filter id results).

Definition failures (results : list bool) : nat := length (filter negb results).

Create HintDb emits.

(** ** A scripted platform for concrete runs *)

(** The remote side answers from a script, one entry per call. *)
Definition scripted_net (call : HttpCall) (script : list NetResult)
  : NetResult * list NetResult :=
  match script with
  | [] => (Failed ConnectionError, [])
  | r :: rest => (r, rest)
  end.

Definition digit_value (c : ascii) : option Z :=
  let n := nat_of_ascii c in
  if ((48 <=? n) && (n <=? 57))%nat then Some (Z.of_nat (n - 48)) else None.

Fixpoint digits_value (s : string) (acc : Z) : option Z :=
  match s with
  | EmptyString => Some acc
  | String c rest =>
      match digit_value c with
      | Some d => digits_value rest (10 * acc + d)
      | None => None
      end
  end.

(** [int] on the plain decimal numerals, [float] on the two of the tests. *)
Definition decimal_int (s : string) : option Z :=
  match s with
  | EmptyString => None
  | _ => digits_value s 0
  end.

Definition sample_float (s : string) : option float :=
  if s =? "1" then Some 1%float
  else if s =? "0.5" then Some 0.5%float
  else None.

Definition no_files (filename : string) : CsvFile := FileNotFound.

Definition scripted (files : string -> CsvFile) : Platform :=
  {| py_float := sample_float;
     py_int := decimal_int;
     py_repr := fun _ => "?";
     urljoin := fun base rel => (base ++ rel)%string;
     NetState := list NetResult;
     net := scripted_net;
     csv_open := files |}.

(** The record and the client of [test_loader.py]. *)
Definition diana : StudentRecord :=
  mkStudentRecord "604835" "2016-09-29" "Diana" "Holt" (Some "Emily") (Some "Ms")
    None None "2021-08-23" "Ninth grade" "1".

Definition test_client : EdFiApiClient :=
  new_client "https://test.example.com" "test" "test" "255901001" 30.

(** A record with nothing optional, one with an empty middle name. *)
Definition plain_student : StudentRecord :=
  mkStudentRecord "1001" "2015-01-02" "Ada" "Byron" None None None None
    "2021-08-23" "Third grade" "0.5".

Definition empty_middle_student : StudentRecord :=
  mkStudentRecord "1002" "2015-03-04" "Alan" "Kay" (Some "") None None None
    "2021-08-23" "Third grade" "1".

(** A client with a session and both endpoints. *)
Definition ready_client : EdFiApiClient :=
  mkClient "https://test.example.com" "test" "test" "255901001" 30
    (JStr "tok-1") JNull (JStr "https://test.example.com/oauth/token")
    (JStr "https://test.example.com/data/v3").

Definition discovery_document : JSON :=
  JObj [("urls", JObj [("oauth", JStr "https://test.example.com/oauth/token");
                       ("dataManagementApi", JStr "https://test.example.com/data/v3")])].

Definition oauth_only_document : JSON :=
  JObj [("urls", JObj [("oauth", JStr "https://test.example.com/oauth/token")])].

Definition no_oauth_document : JSON :=
  JObj [("urls", JObj [("dataManagementApi", JStr "https://test.example.com/data/v3")])].

Definition json_response (status : Z) (v : JSON) : Response :=
  mkResponse status "{...}" (Some v).

Definition empty_response (status : Z) : Response :=
  mkResponse status "" None.

Definition token_response (token : string) : Response :=
  json_response 200 (JObj [("access_token", JStr token); ("expires_in", JInt 3600)]).

(** A file of a header and two rows: the record of [test_loader.py] and a
    plain one. *)
Definition diana_row : list string :=
  [ "604835"; "2016-09-29"; "Diana"; "Holt"; "Emily"; "Ms"; ""; "";
    "2021-08-23"; "Ninth grade"; "1" ].

Definition plain_row : list string :=
  [ "1001"; "2015-01-02"; "Ada"; "Byron"; ""; ""; ""; "";
    "2021-08-23"; "Third grade"; "0.5" ].

Definition sample_rows : list (list string) := [csv_columns; diana_row; plain_row].

Definition sample_files (filename : string) : CsvFile :=
  if filename =? "students.csv" then Rows sample_rows else FileNotFound.

Definition created : NetResult := Responded (empty_response 201).

Definition refused : NetResult := Responded (mkResponse 500 "server error" None).

Definition start (files : string -> CsvFile) (c : EdFiApiClient)
    (script : list NetResult) : @World (scripted files) :=
  @mkWorld (scripted files) c script [].

(** ** [load_environment_variables] and [main] *)

(** The log lines of the two, with their interpolated values. *)
Inductive MainMsg : Type :=
| MsgStarting
| MsgMissingVariables (vars : list string)
| MsgCopyEnvExample
| MsgCsvFileNotFound (filename : string)
| MsgMakeSureCsvExists
| MsgCompleted
| MsgFatal (e : exn).

(** What the process emits: the events of the client and of the loader,
    and the log lines of [main] and [load_environment_variables]. *)
Inductive MainEvent : Type :=
| Core (e : Event)
| MainLog (level : Level) (msg : MainMsg).

(** How a call ends: it returns, it raises an [Exception], or it leaves
    through [sys.exit(code)] ([SystemExit], which no [except Exception]
    catches). *)
Inductive Outcome (A : Type) : Type :=
| Returned (a : A)
| Raised (e : exn)
| Exited (code : Z).
Arguments Returned {A} a.
Arguments Raised {A} e.
Arguments Exited {A} code.

Definition required_vars : list string :=
  ["EDFI_BASE_URL"; "EDFI_CLIENT_ID"; "EDFI_CLIENT_SECRET"; "EDFI_SCHOOL_ID"].

(** The [for var in required_vars:] loop. [getenv] is [os.getenv] on the
    environment [load_dotenv()] leaves. *)
Fixpoint collect_vars (getenv : string -> option string) (vars : list string)
    (env_vars : Dict) (missing_vars : list string) : Dict * list string :=
  match vars with
  | [] => (env_vars, missing_vars)
  | var :: rest =>
      let value := getenv var in
      if negb (truthy_opt value) then
        collect_vars getenv rest env_vars (missing_vars ++ [var])
      else
        match value with
        | Some v => collect_vars getenv rest (dict_set env_vars var (JStr v)) missing_vars
        | None => collect_vars getenv rest env_vars (missing_vars ++ [var])
        end
  end.

(** [os.getenv(var, default)] *)
Definition getenv_default (getenv : string -> option string) (var default : string)
  : string :=
  match getenv var with
  | Some value => value
  | None => default
  end.

Definition load_environment_variables {platform : Platform}
    (getenv : string -> option string) : list MainEvent * Outcome Dict :=
  let (env_vars, missing_vars) := collect_vars getenv required_vars [] [] in
  match missing_vars with
  | _ :: _ =>
      ([ MainLog ERROR (MsgMissingVariables missing_vars);
         MainLog ERROR MsgCopyEnvExample ],
       Exited 1)
  | [] =>
      match py_int (getenv_default getenv "EDFI_TIMEOUT" "30") with
      | Some n => ([], Returned (dict_set env_vars "EDFI_TIMEOUT" (JInt n)))
      | None => ([], Raised ValueError)
      end
  end.

(** [env_vars[k]] where a string, and where an int, is passed on. *)
Definition env_str (env_vars : Dict) (k : string) : Result string :=
  match dict_get env_vars k with
  | Some (JStr s) => Ok s
  | Some _ => Raise TypeError
  | None => Raise (KeyError k)
  end.

Definition env_int (env_vars : Dict) (k : string) : Result Z :=
  match dict_get env_vars k with
  | Some (JInt n) => Ok n
  | Some _ => Raise TypeError
  | None => Raise (KeyError k)
  end.

(** [EdFiApiClient(base_url=env_vars['EDFI_BASE_URL'], ...)] *)
Definition client_of_env (env_vars : Dict) : Result EdFiApiClient :=
  result_bind (env_str env_vars "EDFI_BASE_URL") (fun base_url =>
  result_bind (env_str env_vars "EDFI_CLIENT_ID") (fun client_id =>
  result_bind (env_str env_vars "EDFI_CLIENT_SECRET") (fun client_secret =>
  result_bind (env_str env_vars "EDFI_SCHOOL_ID") (fun school_id =>
  result_bind (env_int env_vars "EDFI_TIMEOUT") (fun timeout =>
  Ok (new_client base_url client_id client_secret school_id timeout)))))).

(** [main]: [path_exists] is [os.path.exists], [remote0] the remote side as
    the process finds it. A [KeyboardInterrupt] is not modelled. *)
Definition main {platform : Platform} (getenv : string -> option string)
    (path_exists : string -> bool) (remote0 : NetState)
  : list MainEvent * Outcome unit :=
  let starting := [MainLog INFO MsgStarting] in
  let fatal (e : exn) (emitted : list MainEvent) : list MainEvent * Outcome unit :=
    (emitted ++ [MainLog ERROR (MsgFatal e)], Exited 1) in
  match load_environment_variables getenv with
  | (logs, Exited code) => (starting ++ logs, Exited code)
  | (logs, Raised e) => fatal e (starting ++ logs)
  | (logs, Returned env_vars) =>
      match client_of_env env_vars with
      | Raise e => fatal e (starting ++ logs)
      | Ok api_client =>
          let csv_file := "students.csv" in
          if negb (path_exists csv_file) then
            (starting ++ logs
             ++ [ MainLog ERROR (MsgCsvFileNotFound csv_file);
                  MainLog ERROR MsgMakeSureCsvExists ],
             Exited 1)
          else
            match load_all_students csv_file (mkWorld api_client remote0 []) with
            | (Ok _, w) =>
                (starting ++ logs ++ map Core (trace w) ++ [MainLog INFO MsgCompleted],
                 Returned tt)
            | (Raise e, w) => fatal e (starting ++ logs ++ map Core (trace w))
            end
      end
  end.

(** The events of the client and of the loader in what a process emitted. *)
Fixpoint core_events (t : list MainEvent) : list Event :=
  match t with
  | [] => []
  | Core e :: rest => e :: core_events rest
  | MainLog _ _ :: rest => core_events rest
  end.

(** The calls of any kind in a trace. *)
Fixpoint http_calls (t : list Event) : list HttpCall :=
  match t with
  | [] => []
  | Http call :: rest => call :: http_calls rest
  | Log _ _ :: rest => http_calls rest
  end.

(** Whether a string ends in a slash, and a run of slashes. *)
Fixpoint ends_with_slash (s : string) : bool :=
  match s with
  | EmptyString => false
  | String c rest =>
      match rest with
      | EmptyString => Ascii.eqb c "/"
      | _ => ends_with_slash rest
      end
  end.

Fixpoint slashes (n : nat) : string :=
  match n with
  | O => EmptyString
  | S n' => String "/" (slashes n')
  end.

(** An environment for concrete runs. *)
Definition sample_env (var : string) : option string :=
  if var =? "EDFI_BASE_URL" then Some "https://test.example.com/"
  else if var =? "EDFI_CLIENT_ID" then Some "test"
  else if var =? "EDFI_CLIENT_SECRET" then Some "secret"
  else if var =? "EDFI_SCHOOL_ID" then Some "255901001"
  else None.

Definition env_without_secret (var : string) : option string :=
  if var =? "EDFI_CLIENT_SECRET" then Some "" else sample_env var.

(** Any event at all. *)
Definition any_event (e : Event) : Prop := True.

(** The columns that go into the student payload with the key of each:
    those declared [str] and those declared [Optional[str]]. *)
Definition required_column_keys : list (string * string) :=
  [ ("uniqueId", "studentUniqueId"); ("birthDate", "birthDate");
    ("firstName", "firstName"); ("lastName", "lastSurName") ].

Definition optional_column_keys : list (string * string) :=
  [ ("middleName", "middleName"); ("title", "personalTitlePrefix");
    ("preferredFirstName", "preferredFirstName");
    ("preferredLastName", "preferredLastSurname") ].

(** The first column [read_csv_file] looks up that a header does not name. *)
Definition missing_column (fieldnames : list string) : option string :=
  find (fun column => negb (existsb (String.eqb column) fieldnames)) csv_columns.

(** The optional fields of a record as read with the payload key of each. *)
Definition optional_fields_read (student : ReadRecord) : list (string * option string) :=
  [ ("middleName", read_middle_name student);
    ("personalTitlePrefix", read_title student);
    ("preferredFirstName", read_preferred_first_name student);
    ("preferredLastSurname", read_preferred_last_name student) ].

(** The record of the cells of a row under the header [csv_columns], cell
    by position. *)
Definition record_of_cells (cells : list string) : ReadRecord :=
  mkReadRecord (nth_error cells 0) (nth_error cells 1) (nth_error cells 2)
    (nth_error cells 3)
    (none_if_empty (nth_error cells 4)) (none_if_empty (nth_error cells 5))
    (none_if_empty (nth_error cells 6)) (none_if_empty (nth_error cells 7))
    (nth_error cells 8) (nth_error cells 9) (nth_error cells 10).

(** A file with a header and no rows, a record whose full-time flag is no
    number, and file systems where every path, and where no path, exists. *)
Definition header_only (filename : string) : CsvFile := Rows [csv_columns].

Definition bad_flag_student : StudentRecord :=
  mkStudentRecord "1003" "2015-05-06" "Grace" "Hopper" None None None None
    "2021-08-23" "Third grade" "yes".

Definition every_path (path : string) : bool := true.

Definition no_path (path : string) : bool := false.

(** * Properties *)

(** ** Dicts *)

Lemma dict_get_set_same {V} (d : list (string * V)) k v :
  dict_get (dict_set d k v) k = Some v.
Proof.
  induction d as [|[k' v'] d IH]; simpl.
  - now rewrite String.eqb_refl.
  - destruct (k' =? k) eqn:E; simpl; rewrite E; auto.
Qed.

Lemma dict_get_set_other {V} (d : list (string * V)) k k' v :
  k <> k' -> dict_get (dict_set d k v) k' = dict_get d k'.
Proof.
  intros Hne. induction d as [|[k0 v0] d IH]; simpl.
  - apply String.eqb_neq in Hne. now rewrite Hne.
  - destruct (k0 =? k) eqn:E; simpl.
    + apply String.eqb_eq in E. subst k0.
      apply String.eqb_neq in Hne. now rewrite Hne.
    + destruct (k0 =? k'); auto.
Qed.


(** ** [create_student_payload] *)

(** The value under the key of an optional field, for every record. *)
Lemma optional_key_lookup (student : StudentRecord) key field :
  In (key, field) (optional_fields student) ->
  dict_get (create_student_payload student) key =
  if truthy_opt field then option_map JStr field else None.
Proof.
  destruct student as [uid bd fn ln mn ti pf pl ed gl ft].
  unfold optional_fields, create_student_payload, set_if_truthy, truthy_opt; simpl.
  destruct mn as [mn|]; destruct ti as [ti|];
    destruct pf as [pf|]; destruct pl as [pl|];
    intros [H|[H|[H|[H|[]]]]]; inversion H; subst; clear H;
    repeat match goal with
           | |- context [negb (?s =? "")] => destruct (s =? "")
           end; reflexivity.
Qed.

(** C4, as amended: with every optional field absent the payload has
    exactly the four required keys; an optional field that is present and
    not empty appears under its key with that very value; an absent one
    contributes no key, and no optional key ever holds null or the empty
    string. *)
Theorem student_payload_optional_keys (student : StudentRecord) :
  (Forall (fun kf => snd kf = None) (optional_fields student) ->
   keys (create_student_payload student) = required_keys) /\
  (forall key field s,
      In (key, field) (optional_fields student) -> field = Some s -> s <> "" ->
      dict_get (create_student_payload student) key = Some (JStr s)) /\
  (forall key field,
      In (key, field) (optional_fields student) -> field = None ->
      dict_get (create_student_payload student) key = None) /\
  (forall key field,
      In (key, field) (optional_fields student) ->
      dict_get (create_student_payload student) key <> Some JNull /\
      dict_get (create_student_payload student) key <> Some (JStr "")).
Proof.
  split; [|split; [|split]].
  - intros Habs. destruct student as [uid bd fn ln mn ti pf pl ed gl ft].
    unfold optional_fields in Habs.
    repeat match goal with
           | H : Forall _ (_ :: _) |- _ => inversion H; clear H; subst
           end.
    simpl in *. subst. reflexivity.
  - intros key field s Hin -> Hne.
    rewrite (optional_key_lookup _ _ _ Hin). simpl.
    apply String.eqb_neq in Hne. now rewrite Hne.
  - intros key field Hin ->. now rewrite (optional_key_lookup _ _ _ Hin).
  - intros key field Hin. rewrite (optional_key_lookup _ _ _ Hin).
    destruct field as [s|]; simpl; [|split; discriminate].
    destruct (s =? "") eqn:E; simpl; split; try discriminate.
    intros H. inversion H. subst. discriminate.
Qed.

(** The fields of the record of [test_loader.py] land under their keys. *)
Lemma student_payload_optional_keys_witness :
  keys (create_student_payload plain_student) = required_keys /\
  dict_get (create_student_payload diana) "middleName" = Some (JStr "Emily") /\
  dict_get (create_student_payload diana) "preferredFirstName" = None.
Proof.
  destruct (student_payload_optional_keys plain_student) as [Hall _].
  destruct (student_payload_optional_keys diana) as [_ [Hpresent [Habsent _]]].
  split; [|split].
  - apply Hall. repeat constructor.
  - apply (Hpresent "middleName" (Some "Emily") "Emily");
      [simpl; auto | reflexivity | discriminate].
  - apply (Habsent "preferredFirstName" None); [simpl; auto | reflexivity].
Defined.

(** C4, as stated, fails: a middle name that is present and is the empty
    string gets no key, so the key does not appear with that value. *)
Lemma present_empty_middle_name_gets_no_key :
  middle_name empty_middle_student = Some "" /\
  dict_get (create_student_payload empty_middle_student) "middleName" = None /\
  keys (create_student_payload empty_middle_student) = required_keys.
Proof. repeat split. Qed.

(** C10: an optional field that is present and equal to the empty string is
    left out exactly as an absent one: the payload is the payload of the
    record with that field absent, and its key is not there. *)
Theorem empty_string_field_as_absent (student : StudentRecord) :
  create_student_payload student =
  create_student_payload (with_empty_as_absent student) /\
  (forall key field,
      In (key, field) (optional_fields student) -> field = Some "" ->
      dict_get (create_student_payload student) key = None).
Proof.
  split.
  - destruct student as [uid bd fn ln mn ti pf pl ed gl ft].
    unfold create_student_payload, with_empty_as_absent, set_if_truthy,
      truthy_opt, absent_if_empty; simpl.
    destruct mn as [mn|]; destruct ti as [ti|];
      destruct pf as [pf|]; destruct pl as [pl|];
      repeat match goal with
             | |- context [?s =? ""] => destruct (s =? "") eqn:?; simpl
             end; try discriminate; reflexivity.
  - intros key field Hin ->. now rewrite (optional_key_lookup _ _ _ Hin).
Qed.

Lemma empty_string_field_as_absent_witness :
  create_student_payload empty_middle_student =
  create_student_payload (with_empty_as_absent empty_middle_student) /\
  dict_get (create_student_payload empty_middle_student) "middleName" = None.
Proof.
  destruct (empty_string_field_as_absent empty_middle_student) as [Hsame Hkey].
  split; [exact Hsame|].
  apply (Hkey "middleName" (Some "")); [simpl; auto | reflexivity].
Defined.

(** ** [create_student_school_association_payload] *)

Section AssociationPayload.

Context {platform : Platform}.

(** C5: the payload's fullTimeEquivalency is [float(student.full_time)] as
    it is, next to [int(school_id)]; when the flag is not numeric or the
    school id is no integer the builder raises [ValueError] (the source's
    payload error). *)
Theorem full_time_equivalency_is_parsed_flag
    (api_client : EdFiApiClient) (student : StudentRecord) :
  (forall f sid,
      py_float (full_time student) = Some f ->
      py_int (school_id api_client) = Some sid ->
      exists payload,
        create_student_school_association_payload api_client student = Ok payload /\
        dict_get payload "fullTimeEquivalency" = Some (JFloat f) /\
        dict_get payload "schoolReference" = Some (JObj [("schoolId", JInt sid)])) /\
  (py_float (full_time student) = None ->
   create_student_school_association_payload api_client student = Raise ValueError) /\
  (py_int (school_id api_client) = None ->
   create_student_school_association_payload api_client student = Raise ValueError).
Proof.
  unfold create_student_school_association_payload.
  split; [|split].
  - intros f sid -> ->. eexists. split; [reflexivity|]. split; reflexivity.
  - intros ->. reflexivity.
  - intros ->. destruct (py_float (full_time student)); reflexivity.
Qed.


End AssociationPayload.

(** On the record of [test_loader.py]: "1" becomes 1.0 beside school
    255901001; for a flag "0.5" the value is 0.5; a flag "yes" or a school
    id "north" is refused. *)
Lemma full_time_equivalency_is_parsed_flag_witness :
  (exists payload,
      @create_student_school_association_payload (scripted no_files)
        test_client diana = Ok payload /\
      dict_get payload "fullTimeEquivalency" = Some (JFloat 1%float) /\
      dict_get payload "schoolReference" = Some (JObj [("schoolId", JInt 255901001)])) /\
  (exists payload,
      @create_student_school_association_payload (scripted no_files)
        test_client plain_student = Ok payload /\
      dict_get payload "fullTimeEquivalency" = Some (JFloat 0.5%float) /\
      dict_get payload "schoolReference" = Some (JObj [("schoolId", JInt 255901001)])).
Proof.
  split.
  - apply (@full_time_equivalency_is_parsed_flag (scripted no_files) test_client diana);
      reflexivity.
  - apply (@full_time_equivalency_is_parsed_flag (scripted no_files) test_client
             plain_student); reflexivity.
Defined.


(** ** Composing steps *)

Section Steps.

Context {platform : Platform}.

Lemma evolves_refl P w : evolves P w w.
Proof. split; [reflexivity|]. exists []. now rewrite app_nil_r. Qed.

Lemma evolves_trans P w1 w2 w3 :
  evolves P w1 w2 -> evolves P w2 w3 -> evolves P w1 w3.
Proof.
  intros [Hs1 [s1 [Ht1 Hf1]]] [Hs2 [s2 [Ht2 Hf2]]]. split; [congruence|].
  exists (s1 ++ s2). split.
  - now rewrite Ht2, Ht1, app_assoc.
  - apply Forall_app; auto.
Qed.

Lemma evolves_weaken (P Q : Event -> Prop) w w' :
  (forall e, P e -> Q e) -> evolves P w w' -> evolves Q w w'.
Proof.
  intros HPQ [Hs [seg [Ht Hf]]]. split; [exact Hs|].
  exists seg. split; [exact Ht|]. eapply Forall_impl; eauto.
Qed.

Lemma emits_weaken {A} (P Q : Event -> Prop) (m : M A) :
  (forall e, P e -> Q e) -> emits P m -> emits Q m.
Proof. intros HPQ Hm w. eapply evolves_weaken; eauto. Qed.

Lemma emits_ret {A} P (a : A) : emits P (ret a).
Proof. intros w. apply evolves_refl. Qed.

Lemma emits_raise {A} P e : emits P (@raise _ A e).
Proof. intros w. apply evolves_refl. Qed.

Lemma emits_lift {A} P (r : Result A) : emits P (lift r).
Proof. intros w. apply evolves_refl. Qed.

Lemma emits_get_client P : emits P get_client.
Proof. intros w. apply evolves_refl. Qed.

Lemma emits_update_client P f :
  (forall c, static (f c) = static c) -> emits P (update_client f).
Proof.
  intros Hf w. split; simpl; [apply Hf|].
  exists []. now rewrite app_nil_r.
Qed.

Lemma emits_emit (P : Event -> Prop) e : P e -> emits P (emit e).
Proof.
  intros He w. split; [reflexivity|]. exists [e]. split; [reflexivity|].
  now constructor.
Qed.

Lemma emits_log (P : Event -> Prop) level msg :
  P (Log level msg) -> emits P (log level msg).
Proof. apply emits_emit. Qed.

Lemma emits_http (P : Event -> Prop) call : P (Http call) -> emits P (http call).
Proof.
  intros He w. unfold http. destruct (net call (remote w)) as [[r|k] n];
    (split; [reflexivity|]; exists [Http call]; split; [reflexivity|];
     now constructor).
Qed.

Lemma emits_bind {A B} P (m : M A) (k : A -> M B) :
  emits P m -> (forall a, emits P (k a)) -> emits P (bind m k).
Proof.
  intros Hm Hk w. unfold bind. specialize (Hm w).
  destruct (m w) as [[a|e] w']; simpl in *; [|exact Hm].
  eapply evolves_trans; [exact Hm|]. apply Hk.
Qed.

Lemma emits_try_except {A} P (body : M A) matches handler :
  emits P body -> (forall e, emits P (handler e)) ->
  emits P (try_except body matches handler).
Proof.
  intros Hb Hh w. unfold try_except. specialize (Hb w).
  destruct (body w) as [[a|e] w']; simpl in *; [exact Hb|].
  destruct (matches e); [|exact Hb].
  eapply evolves_trans; [exact Hb|]. apply Hh.
Qed.

Lemma emits_if {A} P (b : bool) (m1 m2 : M A) :
  emits P m1 -> emits P m2 -> emits P (if b then m1 else m2).
Proof. destruct b; auto. Qed.

Lemma static_set_access_token c v : static (set_access_token c v) = static c.
Proof. reflexivity. Qed.

Lemma static_set_oauth_url c v : static (set_oauth_url c v) = static c.
Proof. reflexivity. Qed.

Lemma static_set_data_management_api_url c v :
  static (set_data_management_api_url c v) = static c.
Proof. reflexivity. Qed.

End Steps.

#[local] Hint Resolve emits_ret emits_raise emits_lift emits_get_client
  emits_update_client emits_log emits_http emits_if
  static_set_access_token static_set_oauth_url
  static_set_data_management_api_url : emits.

(** Splits a sequence of statements into its steps. *)
Ltac emits_steps :=
  repeat first
    [ apply emits_bind; [|intros ?]
    | apply emits_try_except; [|intros ?] ];
  auto with emits.

(** ** Observations split over appended traces *)

Lemma data_requests_app t1 t2 :
  data_requests (t1 ++ t2) = data_requests t1 ++ data_requests t2.
Proof.
  induction t1 as [|e t1 IH]; simpl; auto.
  destruct e as [[| |]|]; simpl; now rewrite ?IH.
Qed.

Lemma token_posts_app t1 t2 :
  token_posts (t1 ++ t2) = token_posts t1 ++ token_posts t2.
Proof.
  induction t1 as [|e t1 IH]; simpl; auto.
  destruct e as [[| |]|]; simpl; now rewrite ?IH.
Qed.

Lemma started_app t1 t2 : started (t1 ++ t2) = started t1 ++ started t2.
Proof.
  induction t1 as [|e t1 IH]; simpl; auto.
  destruct e as [|l []]; simpl; now rewrite ?IH.
Qed.

Lemma discover_event_is_auth_event e : discover_event e -> auth_event e.
Proof. destruct e as [[| |]|[] []]; simpl; auto. Qed.

Lemma auth_event_is_request_event data e : auth_event e -> request_event data e.
Proof. destruct e as [[| |]|[] []]; simpl; auto; try contradiction. Qed.

Lemma request_event_is_inner_event data e : request_event data e -> inner_event e.
Proof.
  unfold inner_event.
  destruct e as [[| |]|[] []]; simpl; auto; try contradiction.
Qed.

Lemma discover_events_no_token_post seg :
  Forall discover_event seg -> token_posts seg = [].
Proof.
  induction 1 as [|e seg He _ IH]; simpl; auto.
  destruct e as [[| |]|]; simpl in *; auto; contradiction.
Qed.

Lemma auth_events_no_data_request seg :
  Forall auth_event seg -> data_requests seg = [].
Proof.
  induction 1 as [|e seg He _ IH]; simpl; auto.
  destruct e as [[| |]|]; simpl in *; auto; contradiction.
Qed.

Lemma tallies_app t1 t2 : tallies (t1 ++ t2) = tallies t1 ++ tallies t2.
Proof.
  induction t1 as [|e t1 IH]; simpl; auto.
  destruct e as [|l []]; simpl; now rewrite ?IH.
Qed.

Lemma inner_events_start_nothing seg :
  Forall inner_event seg -> started seg = [] /\ tallies seg = [].
Proof.
  induction 1 as [|e seg [Hs Ht] _ [IHs IHt]]; [split; reflexivity|].
  change (e :: seg) with ([e] ++ seg).
  rewrite started_app, tallies_app, Hs, Ht, IHs, IHt. split; reflexivity.
Qed.

Lemma request_events_carry_data data seg :
  Forall (request_event data) seg ->
  Forall (fun call => json_of_call call = json_arg data) (data_requests seg).
Proof.
  induction 1 as [|e seg He _ IH]; simpl; auto.
  destruct e as [[| |]|]; simpl in *; auto.
Qed.

(** ** What each method of the client emits *)

Section ClientEmits.

Context {platform : Platform}.

Lemma emits_raise_for_status P r : emits P (raise_for_status r).
Proof. unfold raise_for_status. auto with emits. Qed.

Lemma emits_response_json P r : emits P (response_json r).
Proof. unfold response_json. destruct (json_of r); auto with emits. Qed.

Lemma emits_discover_endpoints : emits discover_event discover_endpoints.
Proof.
  unfold discover_endpoints. apply emits_bind; [auto with emits|]. intros c.
  apply emits_if; [auto with emits|].
  emits_steps; try apply emits_raise_for_status; try apply emits_response_json;
    try (apply emits_log; exact I); try (apply emits_http; exact I).
Qed.

Lemma emits_authenticate : emits auth_event authenticate.
Proof.
  unfold authenticate. apply emits_bind.
  - eapply emits_weaken; [|apply emits_discover_endpoints].
    apply discover_event_is_auth_event.
  - intros _. emits_steps; try apply emits_raise_for_status;
      try apply emits_response_json;
      try (apply emits_log; exact I); try (apply emits_http; exact I).
Qed.

Lemma emits_ensure_session : emits auth_event ensure_session.
Proof.
  unfold ensure_session. apply emits_bind; [auto with emits|]. intros c.
  apply emits_if; [apply emits_authenticate | auto with emits].
Qed.

Lemma emits_log_request_failure data e :
  emits (request_event data) (log_request_failure e).
Proof.
  unfold log_request_failure. apply emits_bind; [apply emits_log; exact I|].
  intros _. destruct e as [k [r|]| | | | | | |]; auto with emits.
  apply emits_bind; [apply emits_log; exact I|]. intros _.
  apply emits_log; exact I.
Qed.

Lemma emits_finish_response P r : emits P (finish_response r).
Proof.
  unfold finish_response. apply emits_bind; [apply emits_raise_for_status|].
  intros _. apply emits_if; [apply emits_response_json | auto with emits].
Qed.

Lemma emits_make_request endpoint method data :
  emits (request_event data) (make_request endpoint method data).
Proof.
  assert (Hauth : forall A (m : M A), emits auth_event m -> emits (request_event data) m).
  { intros A m. apply emits_weaken, auth_event_is_request_event. }
  unfold make_request.
  apply emits_bind; [apply Hauth, emits_ensure_session|]. intros _.
  apply emits_bind; [auto with emits|]. intros c.
  apply emits_bind; [auto with emits|]. intros base.
  apply emits_try_except.
  - apply emits_bind; [apply emits_http; reflexivity|]. intros r.
    apply emits_bind; [|intros r'; apply emits_finish_response].
    apply emits_if; [|auto with emits].
    apply emits_bind; [apply emits_log; exact I|]. intros _.
    apply emits_bind; [apply Hauth, emits_authenticate|]. intros _.
    apply emits_bind; [auto with emits|]. intros c'.
    apply emits_http. reflexivity.
  - intros e. apply emits_bind; [apply emits_log_request_failure|].
    intros _. auto with emits.
Qed.

End ClientEmits.

(** ** [discover_endpoints] *)

Section Discovery.

Context {platform : Platform}.

Ltac run_discover :=
  unfold discover_endpoints, discovery_call, endpoints_cached, is_error_status,
    bind, get_client,
    try_except, log, emit, http, raise_for_status, response_json, lift, raise, ret,
    update_client in *; simpl in *.

(** With both endpoints cached nothing is requested and nothing changes. *)
Lemma discover_endpoints_cached (w : World) :
  endpoints_cached (client w) = true -> discover_endpoints w = (Ok tt, w).
Proof. intros H. run_discover. now rewrite H. Qed.

(** C7, as amended: when the discovery request has to be made and it
    errors, or answers with a 4xx or 5xx status, or with a body that is not
    JSON, [discover_endpoints] raises the discovery error ("Failed to
    discover API endpoints").  When the body is JSON and urls.oauth or
    urls.dataManagementApi cannot be read from it, [discover_endpoints]
    raises the bare error of the lookup that fails, not the discovery
    error: [KeyError] for the key that is missing ('urls', 'oauth',
    'dataManagementApi'), [TypeError] when the document, or what it has
    under 'urls', is not an object.  With both there it returns. *)
Theorem discover_endpoints_failures (w : World) :
  endpoints_cached (client w) = false ->
  match net (discovery_call (client w)) (remote w) with
  | (Failed kind, _) =>
      fst (discover_endpoints w) = Raise (DiscoverFailed (RequestException kind None))
  | (Responded r, _) =>
      (is_error_status r = true ->
       fst (discover_endpoints w) =
       Raise (DiscoverFailed (RequestException HTTPError (Some r)))) /\
      (is_error_status r = false -> json_of r = None ->
       fst (discover_endpoints w) =
       Raise (DiscoverFailed (RequestException JSONDecodeError None))) /\
      (forall api_info,
          is_error_status r = false -> json_of r = Some api_info ->
          match api_info with
          | JObj d =>
              match dict_get d "urls" with
              | None => fst (discover_endpoints w) = Raise (KeyError "urls")
              | Some (JObj u) =>
                  match dict_get u "oauth", dict_get u "dataManagementApi" with
                  | None, _ => fst (discover_endpoints w) = Raise (KeyError "oauth")
                  | Some _, None =>
                      fst (discover_endpoints w) = Raise (KeyError "dataManagementApi")
                  | Some _, Some _ => fst (discover_endpoints w) = Ok tt
                  end
              | Some _ => fst (discover_endpoints w) = Raise TypeError
              end
          | _ => fst (discover_endpoints w) = Raise TypeError
          end)
  end.
Proof.
  intros Hc. run_discover. rewrite Hc.
  destruct (net (Get (base_url (client w)) (timeout (client w))) (remote w))
    as [[r|kind] n]; simpl; [|reflexivity].
  split; [|split].
  - intros ->. reflexivity.
  - intros -> ->. reflexivity.
  - intros api_info -> ->. simpl.
    destruct api_info as [| | | | | |d]; try reflexivity. simpl.
    destruct (dict_get d "urls") as [[| | | | | |u]|]; try reflexivity. simpl.
    destruct (dict_get u "oauth"); [|reflexivity]. simpl.
    destruct (dict_get u "dataManagementApi"); reflexivity.
Qed.

(** C9: when the document has urls.oauth and lacks urls.dataManagementApi,
    [discover_endpoints] raises, and by then [oauth_url] holds the
    discovered value while [data_management_api_url] is what it was
    (unset, on a client that had none). *)
Theorem discovery_keeps_oauth_url_on_failure (w : World) r n d u oauth :
  endpoints_cached (client w) = false ->
  net (discovery_call (client w)) (remote w) = (Responded r, n) ->
  is_error_status r = false ->
  json_of r = Some (JObj d) ->
  dict_get d "urls" = Some (JObj u) ->
  dict_get u "oauth" = Some oauth ->
  dict_get u "dataManagementApi" = None ->
  fst (discover_endpoints w) = Raise (KeyError "dataManagementApi") /\
  client (snd (discover_endpoints w)) = set_oauth_url (client w) oauth /\
  oauth_url (client (snd (discover_endpoints w))) = oauth /\
  data_management_api_url (client (snd (discover_endpoints w))) =
  data_management_api_url (client w).
Proof.
  intros Hc Hnet Hst Hjson Hurls Ho Hd. run_discover.
  rewrite Hc, Hnet. simpl. rewrite Hst. simpl. rewrite Hjson. simpl.
  rewrite Hurls. simpl. rewrite Ho. simpl. rewrite Hd.
  simpl. repeat split.
Qed.

(** A successful discovery caches both endpoints. *)
Lemma discover_endpoints_success (w : World) r n d u oauth dm :
  endpoints_cached (client w) = false ->
  net (discovery_call (client w)) (remote w) = (Responded r, n) ->
  is_error_status r = false ->
  json_of r = Some (JObj d) ->
  dict_get d "urls" = Some (JObj u) ->
  dict_get u "oauth" = Some oauth ->
  dict_get u "dataManagementApi" = Some dm ->
  fst (discover_endpoints w) = Ok tt /\
  client (snd (discover_endpoints w)) =
  set_data_management_api_url (set_oauth_url (client w) oauth) dm.
Proof.
  intros Hc Hnet Hst Hjson Hurls Ho Hd. run_discover.
  rewrite Hc, Hnet. simpl. rewrite Hst. simpl. rewrite Hjson. simpl.
  rewrite Hurls. simpl. rewrite Ho. simpl. rewrite Hd.
  simpl. split; reflexivity.
Qed.

End Discovery.

(** A timeout, a 503, a 200 that is no JSON; a document without
    urls.oauth, one without urls.dataManagementApi, one without urls, one
    whose urls is null, and one that is a list. *)
Lemma discover_endpoints_failures_witness :
  fst (discover_endpoints (start no_files test_client [Failed Timeout])) =
  Raise (DiscoverFailed (RequestException Timeout None)) /\
  fst (discover_endpoints
         (start no_files test_client [Responded (empty_response 503)])) =
  Raise (DiscoverFailed (RequestException HTTPError (Some (empty_response 503)))) /\
  fst (discover_endpoints
         (start no_files test_client [Responded (mkResponse 200 "<html>" None)])) =
  Raise (DiscoverFailed (RequestException JSONDecodeError None)) /\
  fst (discover_endpoints
         (start no_files test_client [Responded (json_response 200 no_oauth_document)])) =
  Raise (KeyError "oauth") /\
  fst (discover_endpoints
         (start no_files test_client [Responded (json_response 200 oauth_only_document)])) =
  Raise (KeyError "dataManagementApi") /\
  fst (discover_endpoints
         (start no_files test_client
            [Responded (json_response 200 (JObj [("version", JStr "7.1")]))])) =
  Raise (KeyError "urls") /\
  fst (discover_endpoints
         (start no_files test_client
            [Responded (json_response 200 (JObj [("urls", JNull)]))])) =
  Raise TypeError /\
  fst (discover_endpoints
         (start no_files test_client [Responded (json_response 200 (JArr []))])) =
  Raise TypeError.
Proof.
  split; [|split; [|split; [|split; [|split; [|split; [|split]]]]]].
  - exact (discover_endpoints_failures
             (start no_files test_client [Failed Timeout]) eq_refl).
  - apply (discover_endpoints_failures
             (start no_files test_client [Responded (empty_response 503)]) eq_refl).
    reflexivity.
  - apply (discover_endpoints_failures
             (start no_files test_client [Responded (mkResponse 200 "<html>" None)])
             eq_refl); reflexivity.
  - pose proof (discover_endpoints_failures
                  (start no_files test_client [Responded (json_response 200 no_oauth_document)])
                  eq_refl) as H.
    cbn in H. destruct H as [_ [_ H]].
    exact (H no_oauth_document eq_refl eq_refl).
  - pose proof (discover_endpoints_failures
                  (start no_files test_client [Responded (json_response 200 oauth_only_document)])
                  eq_refl) as H.
    cbn in H. destruct H as [_ [_ H]].
    exact (H oauth_only_document eq_refl eq_refl).
  - pose proof (discover_endpoints_failures
                  (start no_files test_client [Responded (json_response 200 (JObj [("version", JStr "7.1")]))])
                  eq_refl) as H.
    cbn in H. destruct H as [_ [_ H]].
    exact (H (JObj [("version", JStr "7.1")]) eq_refl eq_refl).
  - pose proof (discover_endpoints_failures
                  (start no_files test_client [Responded (json_response 200 (JObj [("urls", JNull)]))])
                  eq_refl) as H.
    cbn in H. destruct H as [_ [_ H]].
    exact (H (JObj [("urls", JNull)]) eq_refl eq_refl).
  - pose proof (discover_endpoints_failures
                  (start no_files test_client [Responded (json_response 200 (JArr []))])
                  eq_refl) as H.
    cbn in H. destruct H as [_ [_ H]].
    exact (H (JArr []) eq_refl eq_refl).
Defined.

(** C7, as stated, fails twice: a 300 answer (not 2xx) with a good document
    is accepted and both endpoints are cached; a document without
    urls.oauth raises a bare [KeyError], not the discovery error. *)
Lemma discovery_accepts_300_and_leaks_key_error :
  discover_endpoints
    (start no_files test_client [Responded (json_response 300 discovery_document)]) =
  (Ok tt,
   @mkWorld (scripted no_files)
     (set_data_management_api_url
        (set_oauth_url test_client (JStr "https://test.example.com/oauth/token"))
        (JStr "https://test.example.com/data/v3"))
     []
     [ Log INFO (MsgDiscovering "https://test.example.com");
       Http (Get "https://test.example.com" 30);
       Log INFO MsgDiscovered ]) /\
  fst (discover_endpoints
         (start no_files test_client [Responded (json_response 200 no_oauth_document)])) =
  Raise (KeyError "oauth").
Proof. split; reflexivity. Qed.

(** On a new client: the OAuth URL is set, the data API URL is still None. *)
Lemma discovery_keeps_oauth_url_on_failure_witness :
  let w := start no_files test_client
             [Responded (json_response 200 oauth_only_document)] in
  fst (discover_endpoints w) = Raise (KeyError "dataManagementApi") /\
  client (snd (discover_endpoints w)) =
  set_oauth_url test_client (JStr "https://test.example.com/oauth/token") /\
  oauth_url (client (snd (discover_endpoints w))) =
  JStr "https://test.example.com/oauth/token" /\
  data_management_api_url (client (snd (discover_endpoints w))) = JNull.
Proof.
  intros w.
  apply (discovery_keeps_oauth_url_on_failure w
           (json_response 200 oauth_only_document) []
           [("urls", JObj [("oauth", JStr "https://test.example.com/oauth/token")])]
           [("oauth", JStr "https://test.example.com/oauth/token")]
           (JStr "https://test.example.com/oauth/token"));
    reflexivity.
Defined.

(** Case analysis on the innermost scrutinee of the goal. *)
Ltac break_match :=
  match goal with
  | |- context [match ?x with _ => _ end] =>
      lazymatch x with
      | context [match _ with _ => _ end] => fail
      | _ => destruct x eqn:?; simpl
      end
  end.

Section Requests.

Context {platform : Platform}.

Lemma try_except_wraps {A} (body : M A) (f : exn -> exn) w e :
  (forall e', is_request_exception (f e') = false) ->
  fst (try_except body is_request_exception (fun e' => raise (f e')) w) = Raise e ->
  is_request_exception e = false.
Proof.
  intros Hf. unfold try_except, raise.
  destruct (body w) as [[a|e'] w']; simpl; [discriminate|].
  destruct (is_request_exception e') eqn:E; simpl; intros H; inversion H; subst; auto.
Qed.

Lemma discover_endpoints_raises w e :
  fst (discover_endpoints w) = Raise e -> is_request_exception e = false.
Proof.
  unfold discover_endpoints. unfold bind at 1. unfold get_client.
  destruct (truthy (oauth_url (client w)) && truthy (data_management_api_url (client w))).
  - discriminate.
  - apply try_except_wraps. reflexivity.
Qed.

Lemma authenticate_raises w e :
  fst (authenticate w) = Raise e -> is_request_exception e = false.
Proof.
  unfold authenticate. unfold bind at 1.
  destruct (discover_endpoints w) as [[[]|e'] w'] eqn:Hd; simpl.
  - unfold bind at 1. unfold get_client. apply try_except_wraps. reflexivity.
  - intros H. inversion H; subst. apply (discover_endpoints_raises w).
    now rewrite Hd.
Qed.


Lemma authenticate_token_posts w :
  exists posts,
    token_posts (trace (snd (authenticate w))) = token_posts (trace w) ++ posts /\
    (length posts <= 1)%nat /\
    (fst (authenticate w) = Ok tt -> length posts = 1%nat).
Proof.
  unfold authenticate. unfold bind at 1.
  destruct (emits_discover_endpoints w) as [_ [seg [Hseg Hev]]].
  apply discover_events_no_token_post in Hev.
  destruct (discover_endpoints w) as [[[]|e'] w'] eqn:Hd; simpl in *.
  - unfold bind, get_client, try_except, log, emit, http, raise_for_status,
      response_json, lift, raise, ret, update_client; simpl.
    exists [token_call (client w')].
    repeat break_match;
      rewrite ?token_posts_app, Hseg, ?token_posts_app, Hev; simpl;
      rewrite ?app_nil_r; repeat split; auto.
  - exists []. rewrite Hseg, token_posts_app, Hev.
    split; [reflexivity|]. split; [simpl; lia|].
    unfold bind. rewrite Hd. discriminate.
Qed.

(** After a 401: one re-authentication, then the rest of the [try] block
    on the world it leaves. *)
Lemma make_request_after_401 (w w0 : World) endpoint method data base r1 n1 :
  ensure_session w = (Ok tt, w0) ->
  data_management_api_url (client w0) = JStr base ->
  let full_url := urljoin (base ++ "/") (lstrip_slash endpoint) in
  let call1 := data_call method full_url (access_token (client w0)) data
                 (timeout (client w0)) in
  net call1 (remote w0) = (Responded r1, n1) ->
  status_code r1 = 401%Z ->
  let w1 := snd (log INFO MsgTokenExpired (snd (http call1 w0))) in
  make_request endpoint method data w =
  match authenticate w1 with
  | (Raise e, w2) => (Raise e, w2)
  | (Ok _, w2) =>
      final_attempt
        (data_call method full_url (access_token (client w2)) data
           (timeout (client w2))) w2
  end.
Proof.
  intros Hens Hdm full_url call1 Hnet H401 w1.
  assert (Hw1 : w1 = mkWorld (client w0) n1
                       ((trace w0 ++ [Http call1]) ++ [Log INFO MsgTokenExpired])).
  { unfold w1, log, emit, http. rewrite Hnet. reflexivity. }
  clearbody w1. subst w1.
  unfold make_request. unfold bind at 1. rewrite Hens.
  unfold bind at 1. unfold get_client at 1. cbv beta iota.
  unfold bind at 1. unfold lift at 1. rewrite Hdm. simpl py_add_slash.
  cbv beta iota.
  fold full_url. change (Request method full_url (request_headers (access_token (client w0)))
             (json_arg data) (timeout (client w0))) with call1.
  unfold try_except at 1. unfold bind at 1. unfold http at 1. rewrite Hnet.
  cbv beta iota zeta. rewrite H401. change (401 =? 401)%Z with true. cbv beta iota.
  unfold bind at 1 2. unfold log at 1. unfold emit at 1. cbv beta iota. 
  unfold bind at 1. cbn [client remote trace].
  destruct (authenticate _) as [[[]|e] w2] eqn:Ha.
  - reflexivity.
  - assert (He : is_request_exception e = false).
    { eapply authenticate_raises. rewrite Ha. reflexivity. }
    cbv beta iota. now rewrite He.
Qed.


(** Without a 401 the first call is the only one. *)
Lemma make_request_without_401 (w w0 : World) endpoint method data base :
  ensure_session w = (Ok tt, w0) ->
  data_management_api_url (client w0) = JStr base ->
  let full_url := urljoin (base ++ "/") (lstrip_slash endpoint) in
  let call1 := data_call method full_url (access_token (client w0)) data
                 (timeout (client w0)) in
  (forall r n, net call1 (remote w0) = (Responded r, n) -> status_code r <> 401%Z) ->
  make_request endpoint method data w = final_attempt call1 w0.
Proof.
  intros Hens Hdm full_url call1 Hnot.
  unfold make_request. unfold bind at 1. rewrite Hens.
  unfold bind at 1. unfold get_client at 1. cbv beta iota.
  unfold bind at 1. unfold lift at 1. rewrite Hdm. simpl py_add_slash.
  cbv beta iota. fold full_url.
  change (Request method full_url (request_headers (access_token (client w0)))
            (json_arg data) (timeout (client w0))) with call1.
  unfold final_attempt, try_except, bind, http.
  destruct (net call1 (remote w0)) as [[r|k] n] eqn:Hnet; [|reflexivity].
  specialize (Hnot r n eq_refl). apply Z.eqb_neq in Hnot.
  cbv beta iota zeta. rewrite Hnot. reflexivity.
Qed.

(** Before any call: no session to be had, or no data API URL to join. *)
Lemma make_request_without_session (w w0 : World) endpoint method data e :
  ensure_session w = (Raise e, w0) ->
  make_request endpoint method data w = (Raise e, w0).
Proof. intros Hens. unfold make_request. unfold bind at 1. now rewrite Hens. Qed.

Lemma make_request_without_url (w w0 : World) endpoint method data :
  ensure_session w = (Ok tt, w0) ->
  (forall base, data_management_api_url (client w0) <> JStr base) ->
  make_request endpoint method data w = (Raise TypeError, w0).
Proof.
  intros Hens Hdm. unfold make_request. unfold bind at 1. rewrite Hens.
  unfold bind at 1. unfold get_client at 1. cbv beta iota.
  unfold bind at 1. unfold lift at 1.
  destruct (data_management_api_url (client w0)); try reflexivity.
  now destruct (Hdm s).
Qed.

(** One attempt: one call, then the status decides. *)
Lemma final_attempt_trace call w :
  exists logs,
    trace (snd (final_attempt call w)) = trace w ++ Http call :: logs /\
    data_requests logs = [] /\ token_posts logs = [] /\
    client (snd (final_attempt call w)) = client w.
Proof.
  unfold final_attempt, try_except, bind, http, finish_response, raise_for_status,
    response_json, log_request_failure, bind, log, emit, raise, ret.
  repeat break_match;
    repeat match goal with
           | H : (_, _) = (_, _) |- _ => inversion H; subst; clear H
           | H : Ok _ = Raise _ |- _ => discriminate H
           | H : Raise _ = Ok _ |- _ => discriminate H
           end;
    simpl; rewrite <- ?app_assoc; simpl; eexists; (split; [reflexivity|]);
    repeat split.
Qed.

Lemma final_attempt_result call w :
  match net call (remote w) with
  | (Failed kind, _) =>
      fst (final_attempt call w) = Raise (RequestException kind None)
  | (Responded r, _) =>
      (is_error_status r = true ->
       fst (final_attempt call w) = Raise (RequestException HTTPError (Some r))) /\
      (is_error_status r = false -> content r = "" ->
       fst (final_attempt call w) = Ok (JObj [])) /\
      (forall v, is_error_status r = false -> json_of r = Some v ->
                 fst (final_attempt call w) = Ok v) /\
      (is_error_status r = false -> content r <> "" -> json_of r = None ->
       fst (final_attempt call w) = Raise (RequestException JSONDecodeError None))
  end.
Proof.
  unfold final_attempt, try_except, bind, http, finish_response, raise_for_status,
    response_json, log_request_failure, bind, log, emit, raise, ret, is_error_status.
  destruct (net call (remote w)) as [[r|k] n]; simpl; [|reflexivity].
  split; [|split; [|split]].
  - intros ->. reflexivity.
  - intros -> ->. reflexivity.
  - intros v -> Hj. simpl. unfold json_of in *.
    destruct (content r =? ""); [discriminate|]. simpl. now rewrite Hj.
  - intros -> Hc Hj. simpl. apply String.eqb_neq in Hc. rewrite Hc. simpl.
    now rewrite Hj.
Qed.

Lemma emitted_by_segment {A} (m : M A) w seg :
  trace (snd (m w)) = trace w ++ seg -> emitted_by m w = seg.
Proof.
  unfold emitted_by. intros ->. induction (trace w); simpl; auto.
Qed.

Lemma world_after_401 (w0 : World) call r1 n1 :
  net call (remote w0) = (Responded r1, n1) ->
  snd (log INFO MsgTokenExpired (snd (http call w0))) =
  mkWorld (client w0) n1 ((trace w0 ++ [Http call]) ++ [Log INFO MsgTokenExpired]).
Proof. intros Hnet. unfold log, emit, http. rewrite Hnet. reflexivity. Qed.

(** C1, as amended: a 401 on the first call is followed by exactly one
    run of [authenticate]. When it fails, its error propagates and no
    retry is sent. When it succeeds (one token request), the same request
    is sent exactly once more under the new token, and that answer is
    final: a transport failure or a 4xx/5xx status (a second 401 too)
    propagates with no further call, an empty body gives [{}], a JSON body
    is returned. *)
Theorem one_reauthentication_one_retry (w w0 : World) endpoint method data base r1 n1 :
  ensure_session w = (Ok tt, w0) ->
  data_management_api_url (client w0) = JStr base ->
  let full_url := urljoin (base ++ "/") (lstrip_slash endpoint) in
  let send token := data_call method full_url token data (timeout (client w)) in
  let first := send (access_token (client w0)) in
  net first (remote w0) = (Responded r1, n1) ->
  status_code r1 = 401%Z ->
  let w1 := snd (log INFO MsgTokenExpired (snd (http first w0))) in
  let result := fst (make_request endpoint method data w) in
  let final := snd (make_request endpoint method data w) in
  (exists posts,
      token_posts (trace final) = token_posts (trace w0) ++ posts /\
      (length posts <= 1)%nat /\
      (fst (authenticate w1) = Ok tt -> length posts = 1%nat)) /\
  (forall e,
      fst (authenticate w1) = Raise e ->
      result = Raise e /\
      final = snd (authenticate w1) /\
      data_requests (trace final) = data_requests (trace w) ++ [first]) /\
  (fst (authenticate w1) = Ok tt ->
   let w2 := snd (authenticate w1) in
   let retry := send (access_token (client w2)) in
   data_requests (trace final) = data_requests (trace w) ++ [first; retry] /\
   match net retry (remote w2) with
   | (Failed kind, _) => result = Raise (RequestException kind None)
   | (Responded r2, _) =>
       (is_error_status r2 = true ->
        result = Raise (RequestException HTTPError (Some r2))) /\
       (is_error_status r2 = false -> content r2 = "" -> result = Ok (JObj [])) /\
       (forall v, is_error_status r2 = false -> json_of r2 = Some v -> result = Ok v) /\
       (is_error_status r2 = false -> content r2 <> "" -> json_of r2 = None ->
        result = Raise (RequestException JSONDecodeError None))
   end).
Proof.
  intros Hens Hdm full_url send first.
  destruct (emits_ensure_session w) as [Hst0 [seg0 [Ht0 Hev0]]].
  rewrite Hens in Hst0, Ht0. simpl in Hst0, Ht0.
  assert (Htm0 : timeout (client w0) = timeout (client w)) by (inversion Hst0; auto).
  apply auth_events_no_data_request in Hev0.
  subst first send. cbv beta. rewrite <- Htm0.
  set (first := data_call method full_url (access_token (client w0)) data
                  (timeout (client w0))).
  intros Hnet H401 w1 result final.
  pose proof (make_request_after_401 w w0 endpoint method data base r1 n1
                Hens Hdm Hnet H401) as Hmr.
  fold full_url first w1 in Hmr.
  assert (Hw1 : trace w1 = (trace w0 ++ [Http first]) ++ [Log INFO MsgTokenExpired]
                /\ client w1 = client w0).
  { unfold w1. rewrite (world_after_401 _ _ _ _ Hnet). split; reflexivity. }
  destruct Hw1 as [Htw1 Hcw1].
  destruct (emits_authenticate w1) as [Hst1 [seg1 [Ht1 Hev1]]].
  apply auth_events_no_data_request in Hev1.
  destruct (authenticate_token_posts w1) as [posts [Hposts [Hle Hone]]].
  assert (Hpw1 : token_posts (trace w1) = token_posts (trace w0)).
  { rewrite Htw1, !token_posts_app. simpl. now rewrite !app_nil_r. }
  assert (Hdw1 : data_requests (trace w1) = data_requests (trace w) ++ [first]).
  { rewrite Htw1, Ht0, !data_requests_app, Hev0. simpl. now rewrite !app_nil_r. }
  unfold result, final. rewrite Hmr. clear Hmr.
  destruct (authenticate w1) as [[[]|e] w2] eqn:Ha; simpl in *.
  - (* the re-authentication succeeded *)
    assert (Htm2 : timeout (client w2) = timeout (client w0)).
    { rewrite <- Hcw1. inversion Hst1; auto. }
    rewrite Htm2.
    set (retry := data_call method full_url (access_token (client w2)) data
                    (timeout (client w0))).
    destruct (final_attempt_trace retry w2) as [logs [Htf [Hdl [Hpl _]]]].
    split; [|split].
    + exists posts. split; [|split; [exact Hle|exact Hone]].
      rewrite Htf, token_posts_app, Hposts, Hpw1. simpl.
      rewrite Hpl. now rewrite app_nil_r.
    + discriminate.
    + intros _. split.
      * rewrite Htf, data_requests_app, Ht1, data_requests_app, Hev1, Hdw1. simpl.
        rewrite Hdl. rewrite app_nil_r, <- app_assoc. reflexivity.
      * pose proof (final_attempt_result retry w2) as Hres.
        destruct (net retry (remote w2)) as [[r2|k] n2]; [|exact Hres].
        exact Hres.
  - (* the re-authentication failed *)
    split; [|split].
    + exists posts. split; [now rewrite Hposts, Hpw1|].
      split; [exact Hle|discriminate].
    + intros e' He'. inversion He'; subst e'. split; [reflexivity|].
      split; [reflexivity|].
      rewrite Ht1, data_requests_app, Hev1, Hdw1. now rewrite app_nil_r.
    + discriminate.
Qed.

Lemma sent_of_total {A} (m : M A) P w calls :
  emits P m ->
  data_requests (trace (snd (m w))) = data_requests (trace w) ++ calls ->
  data_requests (emitted_by m w) = calls.
Proof.
  intros Hm Htotal. destruct (Hm w) as [_ [seg [Hseg _]]].
  rewrite (emitted_by_segment _ _ _ Hseg).
  rewrite Hseg, data_requests_app in Htotal.
  now apply app_inv_head in Htotal.
Qed.

(** The data API calls of one [make_request]: none, the first call under
    the token held after the session was ensured, or that call and one
    more under the token held at the end. *)
Lemma make_request_sent (w : World) endpoint method data :
  exists full_url,
    let send token := data_call method full_url token data (timeout (client w)) in
    let held_first := access_token (client (snd (ensure_session w))) in
    let held_last :=
      access_token (client (snd (make_request endpoint method data w))) in
    data_requests (trace (snd (make_request endpoint method data w))) =
    data_requests (trace w) ++ [] \/
    data_requests (trace (snd (make_request endpoint method data w))) =
    data_requests (trace w) ++ [send held_first] \/
    data_requests (trace (snd (make_request endpoint method data w))) =
    data_requests (trace w) ++ [send held_first; send held_last].
Proof.
  destruct (emits_ensure_session w) as [Hst0 [seg0 [Ht0 Hev0]]].
  apply auth_events_no_data_request in Hev0.
  destruct (ensure_session w) as [[[]|e] w0] eqn:Hens; simpl in *.
  2:{ exists "". left.
      rewrite (make_request_without_session _ _ _ _ _ _ Hens). simpl.
      now rewrite Ht0, data_requests_app, Hev0. }
  assert (Htm0 : timeout (client w0) = timeout (client w)) by (inversion Hst0; auto).
  assert (Hdw0 : data_requests (trace w0) = data_requests (trace w)).
  { now rewrite Ht0, data_requests_app, Hev0, app_nil_r. }
  destruct (data_management_api_url (client w0)) as [|b|z|f|base|l|d] eqn:Hdm;
    try (exists ""; left;
         rewrite (make_request_without_url w w0) by (auto; intros ?; rewrite Hdm; discriminate);
         simpl; now rewrite Hdw0, app_nil_r).
  exists (urljoin (base ++ "/") (lstrip_slash endpoint)).
  set (full_url := urljoin (base ++ "/") (lstrip_slash endpoint)).
  cbv zeta. rewrite <- Htm0.
  set (first := data_call method full_url (access_token (client w0)) data
                  (timeout (client w0))).
  destruct (net first (remote w0)) as [[r1|k] n1] eqn:Hnet.
  - destruct (Z.eq_dec (status_code r1) 401) as [H401|Hnot].
    + pose proof (make_request_after_401 w w0 endpoint method data base r1 n1
                    Hens Hdm Hnet H401) as Hmr.
      fold full_url first in Hmr. rewrite Hmr. clear Hmr.
      rewrite (world_after_401 _ _ _ _ Hnet).
      set (w1 := mkWorld (client w0) n1
                   ((trace w0 ++ [Http first]) ++ [Log INFO MsgTokenExpired])).
      destruct (emits_authenticate w1) as [Hst1 [seg1 [Ht1 Hev1]]].
      apply auth_events_no_data_request in Hev1.
      assert (Hdw1 : data_requests (trace w1) = data_requests (trace w) ++ [first]).
      { unfold w1. simpl. rewrite !data_requests_app, Hdw0. simpl.
        now rewrite !app_nil_r. }
      destruct (authenticate w1) as [[[]|e] w2] eqn:Ha; simpl in *.
      * right. right.
        assert (Htm2 : timeout (client w2) = timeout (client w0)) by (inversion Hst1; auto).
        rewrite Htm2.
        set (retry := data_call method full_url (access_token (client w2)) data
                        (timeout (client w0))).
        destruct (final_attempt_trace retry w2) as [logs [Htf [Hdl [_ Hcf]]]].
        rewrite Hcf, Htf, data_requests_app, Ht1, data_requests_app, Hev1, Hdw1.
        simpl. rewrite Hdl, app_nil_r, <- app_assoc. reflexivity.
      * right. left.
        rewrite Ht1, data_requests_app, Hev1, Hdw1. now rewrite app_nil_r.
    + right. left.
      rewrite (make_request_without_401 w w0 endpoint method data base Hens Hdm).
      2:{ fold full_url first. intros r n Hr. rewrite Hnet in Hr.
          inversion Hr; subst. exact Hnot. }
      fold full_url first.
      destruct (final_attempt_trace first w0) as [logs [Htf [Hdl _]]].
      rewrite Htf, data_requests_app, Hdw0. simpl. now rewrite Hdl.
  - right. left.
    rewrite (make_request_without_401 w w0 endpoint method data base Hens Hdm).
    2:{ fold full_url first. intros r n Hr. rewrite Hnet in Hr. discriminate. }
    fold full_url first.
    destruct (final_attempt_trace first w0) as [logs [Htf [Hdl _]]].
    rewrite Htf, data_requests_app, Hdw0. simpl. now rewrite Hdl.
Qed.

(** C8, as amended: the data API calls of one [make_request] are none, one
    or two; each carries Authorization "Bearer <token>" for the token the
    client holds when the call is made, the body [data if data else None],
    and Content-Type application/json, with or without a body. *)
Theorem every_request_bearer_and_json_type (w : World) endpoint method data :
  let sent := data_requests (emitted_by (make_request endpoint method data) w) in
  let held_first := access_token (client (snd (ensure_session w))) in
  let held_last := access_token (client (snd (make_request endpoint method data w))) in
  (exists full_url,
      let send token := data_call method full_url token data (timeout (client w)) in
      sent = [] \/ sent = [send held_first] \/ sent = [send held_first; send held_last]) /\
  (forall full_url token tm,
      let call := data_call method full_url token data tm in
      dict_get (headers_of_call call) "Authorization" = Some (bearer token) /\
      dict_get (headers_of_call call) "Content-Type" = Some "application/json" /\
      json_of_call call = json_arg data).
Proof.
  intros sent held_first held_last. split.
  - destruct (make_request_sent w endpoint method data) as [full_url H].
    exists full_url. cbv zeta in *.
    destruct H as [H|[H|H]];
      apply (sent_of_total _ _ _ _ (emits_make_request endpoint method data)) in H;
      unfold sent; rewrite H; auto.
  - intros full_url token tm. repeat split.
Qed.

End Requests.

(** A 401, a new token, then a 200 with a body; and a 401, a new token,
    then a second 401. *)
Lemma one_reauthentication_one_retry_witness :
  let payload := create_student_payload diana in
  let url := "https://test.example.com/data/v3/ed-fi/students" in
  let w := start no_files ready_client
             [ Responded (empty_response 401);
               Responded (token_response "tok-2");
               Responded (json_response 200 (JObj [("id", JStr "abc")])) ] in
  let w' := start no_files ready_client
              [ Responded (empty_response 401);
                Responded (token_response "tok-2");
                Responded (empty_response 401);
                Responded (json_response 200 (JObj [("id", JStr "abc")])) ] in
  (fst (make_request "/ed-fi/students" "POST" (Some payload) w) =
   Ok (JObj [("id", JStr "abc")]) /\
   data_requests (trace (snd (make_request "/ed-fi/students" "POST" (Some payload) w))) =
   [ Request "POST" url
       [("Authorization", "Bearer tok-1"); ("Content-Type", "application/json")]
       (Some payload) 30;
     Request "POST" url
       [("Authorization", "Bearer tok-2"); ("Content-Type", "application/json")]
       (Some payload) 30 ]) /\
  (fst (make_request "/ed-fi/students" "POST" (Some payload) w') =
   Raise (RequestException HTTPError (Some (empty_response 401))) /\
   data_requests (trace (snd (make_request "/ed-fi/students" "POST" (Some payload) w'))) =
   [ Request "POST" url
       [("Authorization", "Bearer tok-1"); ("Content-Type", "application/json")]
       (Some payload) 30;
     Request "POST" url
       [("Authorization", "Bearer tok-2"); ("Content-Type", "application/json")]
       (Some payload) 30 ]).
Proof.
  intros payload url w w'. split.
  - destruct (one_reauthentication_one_retry w w "/ed-fi/students" "POST"
                (Some payload) "https://test.example.com/data/v3"
                (empty_response 401)
                [ Responded (token_response "tok-2");
                  Responded (json_response 200 (JObj [("id", JStr "abc")])) ]
                eq_refl eq_refl eq_refl eq_refl) as [_ [_ Hok]].
    destruct (Hok eq_refl) as [Hsent [_ [_ [Hbody _]]]].
    split; [apply Hbody; reflexivity | exact Hsent].
  - destruct (one_reauthentication_one_retry w' w' "/ed-fi/students" "POST"
                (Some payload) "https://test.example.com/data/v3"
                (empty_response 401)
                [ Responded (token_response "tok-2");
                  Responded (empty_response 401);
                  Responded (json_response 200 (JObj [("id", JStr "abc")])) ]
                eq_refl eq_refl eq_refl eq_refl) as [_ [_ Hok]].
    destruct (Hok eq_refl) as [Hsent [Hstatus _]].
    split; [apply Hstatus; reflexivity | exact Hsent].
Defined.

(** C1, as stated, fails: the first call is answered 401 and the token
    request is refused too; the error of the re-authentication propagates
    and the request was sent once, never again. *)
Lemma failed_reauthentication_sends_no_retry :
  let payload := create_student_payload diana in
  let w := start no_files ready_client
             [ Responded (empty_response 401);
               Responded (empty_response 401);
               Responded (json_response 200 (JObj [("id", JStr "abc")])) ] in
  make_request "/ed-fi/students" "POST" (Some payload) w =
  (Raise (AuthenticateFailed
            (RequestException HTTPError (Some (empty_response 401)))),
   @mkWorld (scripted no_files) ready_client
     [Responded (json_response 200 (JObj [("id", JStr "abc")]))]
     [ Http (Request "POST" "https://test.example.com/data/v3/ed-fi/students"
               [("Authorization", "Bearer tok-1");
                ("Content-Type", "application/json")]
               (Some payload) 30);
       Log INFO MsgTokenExpired;
       Log INFO MsgAuthenticating;
       Http (token_call ready_client) ]).
Proof. reflexivity. Qed.

(** C8, as stated, fails: a GET without a body goes out with
    Content-Type application/json all the same. *)
Lemma bodyless_request_has_json_content_type :
  let w := start no_files ready_client [Responded (json_response 200 (JArr []))] in
  data_requests (trace (snd (make_request "/ed-fi/students" "GET" None w))) =
  [ Request "GET" "https://test.example.com/data/v3/ed-fi/students"
      [("Authorization", "Bearer tok-1"); ("Content-Type", "application/json")]
      None 30 ].
Proof. reflexivity. Qed.

(** ** The loader *)

Section Loader.

Context {platform : Platform}.

Lemma emits_inner_make_request endpoint method data :
  emits inner_event (make_request endpoint method data).
Proof.
  eapply emits_weaken; [|apply emits_make_request].
  apply request_event_is_inner_event.
Qed.

(** A request that returns has sent its request. *)
Lemma make_request_ok_sends (w : World) endpoint method data v :
  fst (make_request endpoint method data w) = Ok v ->
  data_requests (emitted_by (make_request endpoint method data) w) <> [].
Proof.
  intros Hok. destruct (make_request_sent w endpoint method data) as [full_url H].
  cbv zeta in H.
  destruct H as [H|[H|H]];
    apply (sent_of_total _ _ _ _ (emits_make_request endpoint method data)) in H;
    rewrite H; try discriminate.
  exfalso.
  apply (f_equal (@length _)) in H.
  destruct (emits_ensure_session w) as [_ [seg0 [Ht0 Hev0]]].
  apply auth_events_no_data_request in Hev0.
  destruct (ensure_session w) as [[[]|e] w0] eqn:Hens.
  2:{ rewrite (make_request_without_session _ _ _ _ _ _ Hens) in Hok. discriminate. }
  destruct (data_management_api_url (client w0)) as [|b|z|f|base|l|d] eqn:Hdm;
    try (rewrite (make_request_without_url w w0) in Hok
           by (auto; intros ?; rewrite Hdm; discriminate);
         discriminate).
  set (first := data_call method (urljoin (base ++ "/") (lstrip_slash endpoint))
                  (access_token (client w0)) data (timeout (client w0))).
  assert (Hin : In first (data_requests (emitted_by (make_request endpoint method data) w))).
  { assert (Htot : exists rest,
               data_requests (trace (snd (make_request endpoint method data w))) =
               data_requests (trace w) ++ first :: rest).
    { simpl in Ht0.
      assert (Hdw0 : data_requests (trace w0) = data_requests (trace w)).
      { now rewrite Ht0, data_requests_app, Hev0, app_nil_r. }
      destruct (net first (remote w0)) as [[r1|k] n1] eqn:Hnet.
      - destruct (Z.eq_dec (status_code r1) 401) as [H401|Hnot].
        + pose proof (make_request_after_401 w w0 endpoint method data base r1 n1
                        Hens Hdm Hnet H401) as Hmr.
          fold first in Hmr. rewrite Hmr.
          rewrite (world_after_401 _ _ _ _ Hnet).
          set (w1 := mkWorld (client w0) n1
                       ((trace w0 ++ [Http first]) ++ [Log INFO MsgTokenExpired])).
          destruct (emits_authenticate w1) as [_ [seg1 [Ht1 _]]].
          destruct (authenticate w1) as [[[]|e] w2]; cbn [snd] in Ht1 |- *.
          * destruct (final_attempt_trace
                        (data_call method (urljoin (base ++ "/") (lstrip_slash endpoint))
                           (access_token (client w2)) data (timeout (client w2))) w2)
              as [logs [Htf _]].
            rewrite Htf, Ht1. unfold w1. cbn [trace].
            rewrite !data_requests_app, Hdw0. simpl. rewrite <- !app_assoc.
            eexists. reflexivity.
          * rewrite Ht1. unfold w1. cbn [trace].
            rewrite !data_requests_app, Hdw0. simpl. rewrite <- !app_assoc.
            eexists. reflexivity.
        + rewrite (make_request_without_401 w w0 endpoint method data base Hens Hdm).
          2:{ fold first. intros r n Hr. rewrite Hnet in Hr.
              inversion Hr; subst. exact Hnot. }
          fold first. destruct (final_attempt_trace first w0) as [logs [Htf _]].
          rewrite Htf, data_requests_app, Hdw0. simpl. eexists. reflexivity.
      - rewrite (make_request_without_401 w w0 endpoint method data base Hens Hdm).
        2:{ fold first. intros r n Hr. rewrite Hnet in Hr. discriminate. }
        fold first. destruct (final_attempt_trace first w0) as [logs [Htf _]].
        rewrite Htf, data_requests_app, Hdw0. simpl. eexists. reflexivity. }
    destruct Htot as [rest Htot].
    apply (sent_of_total _ _ _ _ (emits_make_request endpoint method data)) in Htot.
    rewrite Htot. simpl. auto. }
  destruct (data_requests (emitted_by (make_request endpoint method data) w));
    [contradiction | discriminate].
Qed.

(** One "Loading student" line, then nothing that starts a record. *)
Lemma load_student_trace student w :
  exists seg,
    trace (snd (load_student student w)) =
    trace w ++ Log INFO (MsgLoadingStudent (unique_id student) (first_name student)
                           (last_name student)) :: seg /\
    Forall inner_event seg.
Proof.
  unfold load_student. unfold bind at 1. unfold log at 1, emit at 1.
  cbv beta iota.
  match goal with
  | |- context [snd (?m ?w')] =>
      assert (Hm : emits inner_event m); [|destruct (Hm w') as [_ [seg [Hseg Hev]]]]
  end.
  - repeat first
      [ apply emits_inner_make_request
      | apply emits_log; split; reflexivity
      | solve [auto with emits]
      | apply emits_bind; [|intros ?]
      | apply emits_try_except; [|intros ?] ].
  - exists seg. simpl in Hseg. rewrite Hseg, <- app_assoc. split; auto.
Qed.


(** The loop, one record at a time. *)
Lemma load_loop_cons student rest sc ec w :
  load_loop (student :: rest) sc ec w =
  match load_student student w with
  | (Ok _, w') => load_loop rest (S sc) ec w'
  | (Raise _, w') => load_loop rest sc (S ec) (snd (log ERROR MsgContinuing w'))
  end.
Proof.
  simpl. unfold bind at 1. unfold try_except, bind at 1.
  destruct (load_student student w) as [[[]|e] w']; reflexivity.
Qed.

Lemma load_loop_single student w :
  snd (load_loop [student] 0 0 w) =
  match load_student student w with
  | (Ok _, w') => w'
  | (Raise _, w') => snd (log ERROR MsgContinuing w')
  end.
Proof.
  rewrite load_loop_cons. destruct (load_student student w) as [[[]|e] w']; reflexivity.
Qed.

Lemma outcomes_cons student rest w :
  outcomes (student :: rest) w =
  is_ok (fst (load_student student w))
  :: outcomes rest (snd (load_loop [student] 0 0 w)).
Proof. reflexivity. Qed.

(** The loop never raises, and its counters are the outcomes counted. *)
Lemma load_loop_counts students :
  forall sc ec w,
    fst (load_loop students sc ec w) =
    Ok (sc + successes (outcomes students w), ec + failures (outcomes students w))%nat.
Proof.
  induction students as [|student rest IH]; intros sc ec w.
  - simpl. unfold successes, failures. simpl. now rewrite !Nat.add_0_r.
  - rewrite load_loop_cons, outcomes_cons, load_loop_single.
    unfold successes, failures in *.
    destruct (load_student student w) as [[[]|e] w']; simpl; rewrite IH;
      f_equal; f_equal; lia.
Qed.

Lemma outcomes_length students : forall w, length (outcomes students w) = length students.
Proof. induction students; intros w; simpl; auto. Qed.

Lemma successes_failures results :
  (successes results + failures results = length results)%nat.
Proof.
  unfold successes, failures. induction results as [|[] results IH]; simpl; lia.
Qed.

Lemma all_true_counts results :
  Forall (eq true) results ->
  successes results = length results /\ failures results = 0%nat.
Proof.
  unfold successes, failures.
  induction 1 as [|b results <- _ [IHs IHf]]; simpl; auto.
Qed.

Lemma load_loop_world students :
  forall sc ec sc' ec' w,
    snd (load_loop students sc ec w) = snd (load_loop students sc' ec' w).
Proof.
  induction students as [|student rest IH]; intros sc ec sc' ec' w; [reflexivity|].
  rewrite !load_loop_cons.
  destruct (load_student student w) as [[[]|e] w']; apply IH.
Qed.

Lemma load_loop_app before after :
  forall sc ec w,
    load_loop (before ++ after) sc ec w =
    match load_loop before sc ec w with
    | (Ok counts, w') => load_loop after (fst counts) (snd counts) w'
    | (Raise e, w') => (Raise e, w')
    end.
Proof.
  induction before as [|student rest IH]; intros sc ec w; [reflexivity|].
  rewrite <- app_comm_cons, !load_loop_cons.
  destruct (load_student student w) as [[[]|e] w']; apply IH.
Qed.

Lemma outcomes_app before after :
  forall w,
    outcomes (before ++ after) w =
    outcomes before w ++ outcomes after (snd (load_loop before 0 0 w)).
Proof.
  induction before as [|student rest IH]; intros w; [reflexivity|].
  rewrite <- app_comm_cons, !outcomes_cons, IH, <- app_comm_cons.
  do 3 f_equal. rewrite load_loop_single, load_loop_cons.
  destruct (load_student student w) as [[[]|e] w']; simpl;
    apply load_loop_world.
Qed.


(** The [for] loop logs one "Loading student" line per record, in order,
    and no tally. *)
Lemma load_loop_trace students :
  forall sc ec w,
  exists seg,
    trace (snd (load_loop students sc ec w)) = trace w ++ seg /\
    started seg = map unique_id students /\ tallies seg = [].
Proof.
  induction students as [|student rest IH]; intros sc ec w.
  - exists []. simpl. now rewrite app_nil_r.
  - rewrite load_loop_cons.
    destruct (load_student_trace student w) as [seg1 [Hseg1 Hev1]].
    apply inner_events_start_nothing in Hev1. destruct Hev1 as [Hs1 Ht1].
    destruct (load_student student w) as [[[]|e] w']; simpl in Hseg1.
    + destruct (IH (S sc) ec w') as [seg2 [Hseg2 [Hs2 Ht2]]].
      eexists. split; [rewrite Hseg2, Hseg1, <- app_assoc; reflexivity|].
      simpl. rewrite started_app, tallies_app, Hs1, Ht1, Hs2, Ht2. split; reflexivity.
    + destruct (IH sc (S ec) (snd (log ERROR MsgContinuing w')))
        as [seg2 [Hseg2 [Hs2 Ht2]]].
      eexists. split.
      * rewrite Hseg2. simpl. rewrite Hseg1, <- !app_assoc. reflexivity.
      * simpl. rewrite !started_app, !tallies_app. simpl.
        rewrite Hs1, Ht1, Hs2, Ht2. split; reflexivity.
Qed.

Lemma student_payload_is_sent student :
  json_arg (Some (create_student_payload student)) =
  Some (create_student_payload student).
Proof.
  destruct student as [uid bd fn ln mn ti pf pl ed gl ft].
  unfold create_student_payload, set_if_truthy, truthy_opt; simpl.
  destruct mn as [mn|]; destruct ti as [ti|];
    destruct pf as [pf|]; destruct pl as [pl|];
    repeat match goal with
           | |- context [negb (?s =? "")] => destruct (s =? "")
           end; reflexivity.
Qed.

Lemma student_payload_no_reference student :
  dict_get (create_student_payload student) "studentReference" = None.
Proof.
  destruct student as [uid bd fn ln mn ti pf pl ed gl ft].
  unfold create_student_payload, set_if_truthy, truthy_opt; simpl.
  destruct mn as [mn|]; destruct ti as [ti|];
    destruct pf as [pf|]; destruct pl as [pl|];
    repeat match goal with
           | |- context [negb (?s =? "")] => destruct (s =? "")
           end; reflexivity.
Qed.

(** The record's load, split at the primary POST. *)
Lemma load_student_unfold student w :
  let wb := snd (before_primary student w) in
  load_student student w =
  match primary_post student wb with
  | (Raise e, wp) =>
      (Raise e, snd (log ERROR (MsgFailedToLoad (unique_id student) e) wp))
  | (Ok _, wp) =>
      let wc := snd (log INFO (MsgStudentCreated (unique_id student)) wp) in
      match create_student_school_association_payload (client wc) student with
      | Raise e =>
          (Raise e, snd (log ERROR (MsgFailedToLoad (unique_id student) e) wc))
      | Ok payload =>
          let wd := snd (log DEBUG MsgCreatingAssociation wc) in
          match make_request "/ed-fi/studentSchoolAssociations" "POST"
                  (Some payload) wd with
          | (Raise e, wa) =>
              (Raise e, snd (log ERROR (MsgFailedToLoad (unique_id student) e) wa))
          | (Ok _, wa) =>
              (Ok tt, snd (log INFO (MsgAssociationCreated (unique_id student)) wa))
          end
      end
  end.
Proof.
  intros wb. subst wb.
  unfold load_student, before_primary, primary_post, try_except, any_exception,
    bind, log, emit, lift, get_client, raise.
  cbn [fst snd client remote trace].
  destruct (make_request "/ed-fi/students" _ _ _) as [[v|e] wp]; [|reflexivity].
  cbn [fst snd client remote trace].
  destruct (create_student_school_association_payload (client wp) student)
    as [payload|e]; [|reflexivity].
  cbn [fst snd client remote trace].
  destruct (make_request "/ed-fi/studentSchoolAssociations" _ _ _) as [[v'|e] wa];
    reflexivity.
Qed.


Lemma before_primary_world student w :
  snd (before_primary student w) =
  mkWorld (client w) (remote w)
    ((trace w ++ [Log INFO (MsgLoadingStudent (unique_id student)
                              (first_name student) (last_name student))])
     ++ [Log DEBUG MsgCreatingStudent]).
Proof. reflexivity. Qed.

(** The data API calls of one [load_student]: those of the primary POST
    first, all of them carrying the student payload; after them, and only
    when the primary POST returned, those carrying the association
    payload. *)
Lemma load_student_sent student w :
  let wb := snd (before_primary student w) in
  let primary_calls := data_requests (emitted_by (primary_post student) wb) in
  exists rest,
    data_requests (emitted_by (load_student student) w) = primary_calls ++ rest /\
    Forall (fun call => json_of_call call = Some (create_student_payload student))
      primary_calls /\
    (is_ok (primary_result student w) = false -> rest = []) /\
    Forall (fun call =>
              exists payload,
                create_student_school_association_payload
                  (client (snd (primary_post student wb))) student = Ok payload /\
                json_of_call call = Some payload) rest.
Proof.
  intros wb primary_calls.
  destruct (emits_make_request "/ed-fi/students" "POST"
              (Some (create_student_payload student)) wb) as [_ [segp [Hsegp Hevp]]].
  fold (primary_post student) in Hsegp.
  apply request_events_carry_data in Hevp.
  rewrite student_payload_is_sent in Hevp.
  assert (Hpc : primary_calls = data_requests segp).
  { unfold primary_calls. now rewrite (emitted_by_segment _ _ _ Hsegp). }
  assert (Hwb : trace wb = trace w ++
                [ Log INFO (MsgLoadingStudent (unique_id student)
                              (first_name student) (last_name student));
                  Log DEBUG MsgCreatingStudent ]).
  { unfold wb. rewrite before_primary_world. simpl. now rewrite <- app_assoc. }
  pose proof (load_student_unfold student w) as Hls. cbv zeta in Hls.
  fold wb in Hls. unfold primary_result. fold wb.
  destruct (primary_post student wb) as [[v|e] wp] eqn:Hp; simpl in Hsegp |- *.
  - destruct (create_student_school_association_payload
                (client (snd (log INFO (MsgStudentCreated (unique_id student)) wp)))
                student) as [payload|e] eqn:Hpay.
    + destruct (emits_make_request "/ed-fi/studentSchoolAssociations" "POST"
                  (Some payload)
                  (snd (log DEBUG MsgCreatingAssociation
                          (snd (log INFO (MsgStudentCreated (unique_id student)) wp)))))
        as [_ [sega [Hsega Heva]]].
      apply request_events_carry_data in Heva.
      assert (Hsent : json_arg (Some payload) = Some payload).
      { unfold create_student_school_association_payload in Hpay.
        destruct (py_float (full_time student)); [|discriminate].
        destruct (py_int _); [|discriminate]. inversion Hpay. reflexivity. }
      rewrite Hsent in Heva.
      exists (data_requests sega). split; [|split; [|split]].
      * assert (Ht : trace (snd (load_student student w)) = trace w ++
                     ([ Log INFO (MsgLoadingStudent (unique_id student)
                                    (first_name student) (last_name student));
                        Log DEBUG MsgCreatingStudent ] ++ segp
                      ++ [Log INFO (MsgStudentCreated (unique_id student));
                          Log DEBUG MsgCreatingAssociation] ++ sega
                      ++ match fst (load_student student w) with
                         | Ok _ => [Log INFO (MsgAssociationCreated (unique_id student))]
                         | Raise e =>
                             [Log ERROR (MsgFailedToLoad (unique_id student) e)]
                         end)).
        { rewrite Hls.
          destruct (make_request "/ed-fi/studentSchoolAssociations" _ _ _)
            as [[v'|e] wa]; simpl in *; rewrite Hsega, Hsegp, <- !app_assoc;
            reflexivity. }
        rewrite (emitted_by_segment _ _ _ Ht), !data_requests_app, Hpc. simpl.
        destruct (fst (load_student student w)); simpl; now rewrite app_nil_r.
      * rewrite Hpc. exact Hevp.
      * discriminate.
      * eapply Forall_impl; [|exact Heva]. intros call Hc. exists payload.
        split; [exact Hpay | exact Hc].
    + exists []. split; [|split; [|split]]; auto; [|rewrite Hpc; exact Hevp].
      assert (Ht : trace (snd (load_student student w)) = trace w ++
                   ([ Log INFO (MsgLoadingStudent (unique_id student)
                                  (first_name student) (last_name student));
                      Log DEBUG MsgCreatingStudent ] ++ segp
                    ++ [Log INFO (MsgStudentCreated (unique_id student));
                        Log ERROR (MsgFailedToLoad (unique_id student) e)])).
      { rewrite Hls. simpl. rewrite Hsegp, ?Hwb, <- !app_assoc. reflexivity. }
      rewrite (emitted_by_segment _ _ _ Ht), !data_requests_app, Hpc. reflexivity.
  - exists []. split; [|split; [|split]]; auto; [|rewrite Hpc; exact Hevp].
    assert (Ht : trace (snd (load_student student w)) = trace w ++
                 ([ Log INFO (MsgLoadingStudent (unique_id student)
                                (first_name student) (last_name student));
                    Log DEBUG MsgCreatingStudent ] ++ segp
                  ++ [Log ERROR (MsgFailedToLoad (unique_id student) e)])).
    { rewrite Hls. simpl. rewrite Hsegp, ?Hwb, <- !app_assoc. reflexivity. }
    rewrite (emitted_by_segment _ _ _ Ht), !data_requests_app, Hpc. reflexivity.
Qed.

Lemma successes_app r1 r2 : successes (r1 ++ r2) = (successes r1 + successes r2)%nat.
Proof. unfold successes. now rewrite filter_app, length_app. Qed.

Lemma failures_app r1 r2 : failures (r1 ++ r2) = (failures r1 + failures r2)%nat.
Proof. unfold failures. now rewrite filter_app, length_app. Qed.

Lemma association_payload_is_sent api_client student payload :
  create_student_school_association_payload api_client student = Ok payload ->
  json_arg (Some payload) = Some payload.
Proof.
  unfold create_student_school_association_payload.
  destruct (py_float (full_time student)); [|discriminate].
  destruct (py_int _); [|discriminate]. intros H. inversion H. reflexivity.
Qed.

(** The data API calls of one [load_student], step by step: those of the
    primary POST, all with the student payload; then, when the primary POST
    returned and the association payload is built, those of the
    association POST, all with the association payload; and nothing else. *)
Lemma load_student_calls student w :
  let wb := snd (before_primary student w) in
  let wp := snd (primary_post student wb) in
  let wd := snd (log DEBUG MsgCreatingAssociation
                   (snd (log INFO (MsgStudentCreated (unique_id student)) wp))) in
  let sent := data_requests (emitted_by (load_student student) w) in
  let primary_calls := data_requests (emitted_by (primary_post student) wb) in
  Forall (fun call => json_of_call call = Some (create_student_payload student))
    primary_calls /\
  match primary_result student w with
  | Raise e => sent = primary_calls /\ fst (load_student student w) = Raise e
  | Ok _ =>
      primary_calls <> [] /\
      match create_student_school_association_payload (client wp) student with
      | Raise e => sent = primary_calls /\ fst (load_student student w) = Raise e
      | Ok payload =>
          let association_post :=
            make_request "/ed-fi/studentSchoolAssociations" "POST" (Some payload) in
          let association_calls := data_requests (emitted_by association_post wd) in
          sent = primary_calls ++ association_calls /\
          Forall (fun call => json_of_call call = Some payload) association_calls /\
          match fst (association_post wd) with
          | Ok _ => fst (load_student student w) = Ok tt /\ association_calls <> []
          | Raise e => fst (load_student student w) = Raise e
          end
      end
  end.
Proof.
  intros wb wp wd sent primary_calls.
  destruct (emits_make_request "/ed-fi/students" "POST"
              (Some (create_student_payload student)) wb) as [_ [segp [Hsegp Hevp]]].
  fold (primary_post student) in Hsegp. fold wp in Hsegp.
  apply request_events_carry_data in Hevp.
  rewrite student_payload_is_sent in Hevp.
  assert (Hpc : primary_calls = data_requests segp).
  { unfold primary_calls. now rewrite (emitted_by_segment _ _ _ Hsegp). }
  assert (Hwb : trace wb = trace w ++
                [ Log INFO (MsgLoadingStudent (unique_id student)
                              (first_name student) (last_name student));
                  Log DEBUG MsgCreatingStudent ]).
  { unfold wb. rewrite before_primary_world. simpl. now rewrite <- app_assoc. }
  split; [rewrite Hpc; exact Hevp|].
  pose proof (load_student_unfold student w) as Hls. cbv zeta in Hls.
  fold wb in Hls. unfold primary_result. fold wb.
  assert (Hne : forall v, fst (primary_post student wb) = Ok v -> primary_calls <> []).
  { intros v Hv. unfold primary_calls, primary_post.
    eapply make_request_ok_sends. exact Hv. }
  unfold wd, wp in *. clear wd wp.
  destruct (primary_post student wb) as [[v|e] wp] eqn:Hp; cbn [fst snd] in *.
  - split; [apply (Hne v); reflexivity|].
    change (client (snd (log INFO (MsgStudentCreated (unique_id student)) wp)))
      with (client wp) in Hls.
    destruct (create_student_school_association_payload (client wp) student)
      as [payload|e] eqn:Hpay.
    + cbv zeta.
      set (wd := snd (log DEBUG MsgCreatingAssociation
                        (snd (log INFO (MsgStudentCreated (unique_id student)) wp))))
        in *.
      destruct (emits_make_request "/ed-fi/studentSchoolAssociations" "POST"
                  (Some payload) wd) as [_ [sega [Hsega Heva]]].
      apply request_events_carry_data in Heva.
      rewrite (association_payload_is_sent _ _ _ Hpay) in Heva.
      assert (Hac : data_requests
                      (emitted_by (make_request "/ed-fi/studentSchoolAssociations"
                                     "POST" (Some payload)) wd) = data_requests sega).
      { now rewrite (emitted_by_segment _ _ _ Hsega). }
      assert (Hwd : trace wd = trace wp ++
                    [ Log INFO (MsgStudentCreated (unique_id student));
                      Log DEBUG MsgCreatingAssociation ]).
      { unfold wd. simpl. now rewrite <- app_assoc. }
      assert (Ht : trace (snd (load_student student w)) = trace w ++
                   ([ Log INFO (MsgLoadingStudent (unique_id student)
                                  (first_name student) (last_name student));
                      Log DEBUG MsgCreatingStudent ] ++ segp
                    ++ [Log INFO (MsgStudentCreated (unique_id student));
                        Log DEBUG MsgCreatingAssociation] ++ sega
                    ++ match fst (load_student student w) with
                       | Ok _ => [Log INFO (MsgAssociationCreated (unique_id student))]
                       | Raise e =>
                           [Log ERROR (MsgFailedToLoad (unique_id student) e)]
                       end)).
      { rewrite Hls.
        destruct (make_request "/ed-fi/studentSchoolAssociations" _ _ wd)
          as [[v'|e] wa]; cbn [fst snd log emit trace] in *;
          rewrite Hsega, Hwd, Hsegp, Hwb, <- !app_assoc; reflexivity. }
      split; [|split].
      * unfold sent. rewrite (emitted_by_segment _ _ _ Ht), !data_requests_app, Hpc, Hac.
        simpl. destruct (fst (load_student student w)); simpl; now rewrite app_nil_r.
      * rewrite Hac. exact Heva.
      * pose proof (make_request_ok_sends wd "/ed-fi/studentSchoolAssociations" "POST"
                      (Some payload)) as Hsends.
        rewrite Hls.
        destruct (make_request "/ed-fi/studentSchoolAssociations" _ _ wd)
          as [[v'|e] wa]; cbn [fst snd] in *.
        -- split; [reflexivity | apply (Hsends v'); reflexivity].
        -- reflexivity.
    + split; [|now rewrite Hls].
      assert (Ht : trace (snd (load_student student w)) = trace w ++
                   ([ Log INFO (MsgLoadingStudent (unique_id student)
                                  (first_name student) (last_name student));
                      Log DEBUG MsgCreatingStudent ] ++ segp
                    ++ [Log INFO (MsgStudentCreated (unique_id student));
                        Log ERROR (MsgFailedToLoad (unique_id student) e)])).
      { rewrite Hls. simpl. rewrite Hsegp, ?Hwb, <- !app_assoc. reflexivity. }
      unfold sent.
      rewrite (emitted_by_segment _ _ _ Ht), !data_requests_app, Hpc. simpl.
      now rewrite app_nil_r.
  - split; [|now rewrite Hls].
    assert (Ht : trace (snd (load_student student w)) = trace w ++
                 ([ Log INFO (MsgLoadingStudent (unique_id student)
                                (first_name student) (last_name student));
                    Log DEBUG MsgCreatingStudent ] ++ segp
                  ++ [Log ERROR (MsgFailedToLoad (unique_id student) e)])).
    { rewrite Hls. simpl. rewrite Hsegp, ?Hwb, <- !app_assoc. reflexivity. }
    unfold sent.
    rewrite (emitted_by_segment _ _ _ Ht), !data_requests_app, Hpc. simpl.
    now rewrite app_nil_r.
Qed.

(** C3: in every load the calls of the primary POST come first and carry
    the student payload.  When the primary POST returned it has sent the
    student payload, and once the association payload is built the
    association POST is made: its calls follow those of the primary POST,
    carry the association payload, and are there whenever the record
    loads.  When the primary POST raises, or the association payload
    cannot be built, no call follows and [load_student] raises the same
    error.  So when record k fails at the primary POST, [load_student]
    raises, every call made for it carries the student payload (none has a
    studentReference), and, the other records loading, the loop ends with
    N-1 successes and 1 error. *)
Theorem primary_failure_counts_one_error (w : World) before student after e :
  let wk := snd (load_loop before 0 0 w) in
  let students := before ++ student :: after in
  let sent := data_requests (emitted_by (load_student student) wk) in
  Forall (eq true) (outcomes before w) ->
  primary_result student wk = Raise e ->
  Forall (eq true) (outcomes after (snd (load_loop [student] 0 0 wk))) ->
  (forall s w0,
      let wb := snd (before_primary s w0) in
      let wp := snd (primary_post s wb) in
      let wd := snd (log DEBUG MsgCreatingAssociation
                       (snd (log INFO (MsgStudentCreated (unique_id s)) wp))) in
      let sent := data_requests (emitted_by (load_student s) w0) in
      let primary_calls := data_requests (emitted_by (primary_post s) wb) in
      Forall (fun call => json_of_call call = Some (create_student_payload s))
        primary_calls /\
      match primary_result s w0 with
      | Raise e => sent = primary_calls /\ fst (load_student s w0) = Raise e
      | Ok _ =>
          primary_calls <> [] /\
          match create_student_school_association_payload (client wp) s with
          | Raise e => sent = primary_calls /\ fst (load_student s w0) = Raise e
          | Ok payload =>
              let association_post :=
                make_request "/ed-fi/studentSchoolAssociations" "POST" (Some payload) in
              let association_calls := data_requests (emitted_by association_post wd) in
              sent = primary_calls ++ association_calls /\
              Forall (fun call => json_of_call call = Some payload) association_calls /\
              match fst (association_post wd) with
              | Ok _ => fst (load_student s w0) = Ok tt /\ association_calls <> []
              | Raise e => fst (load_student s w0) = Raise e
              end
          end
      end) /\
  fst (load_student student wk) = Raise e /\
  Forall (fun call => json_of_call call = Some (create_student_payload student)) sent /\
  (forall call payload,
      In call sent -> json_of_call call = Some payload ->
      dict_get payload "studentReference" = None) /\
  fst (load_loop students 0 0 w) = Ok (length students - 1, 1)%nat.
Proof.
  intros wk students sent Hbefore Hprimary Hafter.
  pose proof (load_student_calls student wk) as Hcalls. cbv zeta in Hcalls.
  rewrite Hprimary in Hcalls. destruct Hcalls as [Hpc [Hs Hraise]].
  assert (Hsent : Forall (fun call => json_of_call call =
                                      Some (create_student_payload student)) sent).
  { unfold sent. rewrite Hs. exact Hpc. }
  split; [intros s w0; apply load_student_calls|].
  split; [exact Hraise|]. split; [exact Hsent|]. split.
  - intros call payload Hin Hjson. rewrite Forall_forall in Hsent.
    rewrite (Hsent call Hin) in Hjson. inversion Hjson.
    apply student_payload_no_reference.
  - rewrite load_loop_counts. unfold students.
    rewrite outcomes_app, outcomes_cons. fold wk. rewrite Hraise.
    change (is_ok (Raise e) :: ?l) with ([false] ++ l).
    rewrite !successes_app, !failures_app.
    destruct (all_true_counts _ Hbefore) as [Hsb Hfb].
    destruct (all_true_counts _ Hafter) as [Hsa Hfa].
    rewrite Hsb, Hfb, Hsa, Hfa, !outcomes_length, length_app. simpl.
    f_equal. f_equal; lia.
Qed.

(** *** The loop over the records as read *)

Lemma load_student_read_trace student w :
  exists seg,
    trace (snd (load_student_read student w)) =
    trace w ++ Log INFO (MsgLoadingStudent (py_format (read_unique_id student))
                           (py_format (read_first_name student))
                           (py_format (read_last_name student))) :: seg /\
    Forall inner_event seg.
Proof.
  unfold load_student_read. unfold bind at 1. unfold log at 1, emit at 1.
  cbv beta iota.
  match goal with
  | |- context [snd (?m ?w')] =>
      assert (Hm : emits inner_event m); [|destruct (Hm w') as [_ [seg [Hseg Hev]]]]
  end.
  - repeat first
      [ apply emits_inner_make_request
      | apply emits_log; split; reflexivity
      | solve [auto with emits]
      | apply emits_bind; [|intros ?]
      | apply emits_try_except; [|intros ?] ].
  - exists seg. simpl in Hseg. rewrite Hseg, <- app_assoc. split; auto.
Qed.

Lemma load_loop_read_cons student rest sc ec w :
  load_loop_read (student :: rest) sc ec w =
  match load_student_read student w with
  | (Ok _, w') => load_loop_read rest (S sc) ec w'
  | (Raise _, w') => load_loop_read rest sc (S ec) (snd (log ERROR MsgContinuing w'))
  end.
Proof.
  simpl. unfold bind at 1. unfold try_except, bind at 1.
  destruct (load_student_read student w) as [[[]|e] w']; reflexivity.
Qed.

Lemma load_loop_read_single student w :
  snd (load_loop_read [student] 0 0 w) =
  match load_student_read student w with
  | (Ok _, w') => w'
  | (Raise _, w') => snd (log ERROR MsgContinuing w')
  end.
Proof.
  rewrite load_loop_read_cons.
  destruct (load_student_read student w) as [[[]|e] w']; reflexivity.
Qed.

Lemma outcomes_read_cons student rest w :
  outcomes_read (student :: rest) w =
  is_ok (fst (load_student_read student w))
  :: outcomes_read rest (snd (load_loop_read [student] 0 0 w)).
Proof. reflexivity. Qed.

Lemma load_loop_read_counts students :
  forall sc ec w,
    fst (load_loop_read students sc ec w) =
    Ok (sc + successes (outcomes_read students w),
        ec + failures (outcomes_read students w))%nat.
Proof.
  induction students as [|student rest IH]; intros sc ec w.
  - simpl. unfold successes, failures. simpl. now rewrite !Nat.add_0_r.
  - rewrite load_loop_read_cons, outcomes_read_cons, load_loop_read_single.
    unfold successes, failures in *.
    destruct (load_student_read student w) as [[[]|e] w']; simpl; rewrite IH;
      f_equal; f_equal; lia.
Qed.

Lemma outcomes_read_length students :
  forall w, length (outcomes_read students w) = length students.
Proof. induction students; intros w; simpl; auto. Qed.

Lemma load_loop_read_trace students :
  forall sc ec w,
  exists seg,
    trace (snd (load_loop_read students sc ec w)) = trace w ++ seg /\
    started seg = map (fun student => py_format (read_unique_id student)) students /\
    tallies seg = [].
Proof.
  induction students as [|student rest IH]; intros sc ec w.
  - exists []. simpl. now rewrite app_nil_r.
  - rewrite load_loop_read_cons.
    destruct (load_student_read_trace student w) as [seg1 [Hseg1 Hev1]].
    apply inner_events_start_nothing in Hev1. destruct Hev1 as [Hs1 Ht1].
    destruct (load_student_read student w) as [[[]|e] w']; simpl in Hseg1.
    + destruct (IH (S sc) ec w') as [seg2 [Hseg2 [Hs2 Ht2]]].
      eexists. split; [rewrite Hseg2, Hseg1, <- app_assoc; reflexivity|].
      simpl. rewrite started_app, tallies_app, Hs1, Ht1, Hs2, Ht2. split; reflexivity.
    + destruct (IH sc (S ec) (snd (log ERROR MsgContinuing w')))
        as [seg2 [Hseg2 [Hs2 Ht2]]].
      eexists. split.
      * rewrite Hseg2. simpl. rewrite Hseg1, <- !app_assoc. reflexivity.
      * simpl. rewrite !started_app, !tallies_app. simpl.
        rewrite Hs1, Ht1, Hs2, Ht2. split; reflexivity.
Qed.

(** How a readable file is loaded: the run of [load_all_students]. *)
Lemma load_all_students_unfold (w : World) filename rows students :
  csv_open filename = Rows rows ->
  students_of_rows rows = Ok students ->
  let w0 := mkWorld (client w) (remote w)
              (trace w ++ [Log INFO (MsgReadRecords (length students) filename)]) in
  let sc := successes (outcomes_read students w0) in
  let ec := failures (outcomes_read students w0) in
  read_csv_file filename w = (Ok students, w0) /\
  exists seg,
    started seg = map (fun student => py_format (read_unique_id student)) students /\
    tallies seg = [] /\
    load_all_students filename w =
    (Ok tt,
     mkWorld (client (snd (load_loop_read students 0 0 w0)))
       (remote (snd (load_loop_read students 0 0 w0)))
       (trace w ++
        ([Log INFO (MsgReadRecords (length students) filename)] ++ seg
         ++ [Log INFO (MsgLoadComplete sc ec)]
         ++ (if (0 <? ec)%nat then [Log WARNING (MsgStudentsFailed ec)] else [])))).
Proof.
  intros Hopen Hrows w0 sc ec.
  assert (Hread : read_csv_file filename w = (Ok students, w0)).
  { unfold read_csv_file. rewrite Hopen, Hrows. reflexivity. }
  split; [exact Hread|].
  pose proof (load_loop_read_counts students 0 0 w0) as Hcounts.
  destruct (load_loop_read_trace students 0 0 w0) as [seg [Hseg [Hstarted Htallies]]].
  fold sc ec in Hcounts.
  exists seg. split; [exact Hstarted|]. split; [exact Htallies|].
  destruct (load_loop_read students 0 0 w0) as [[counts|e] wl] eqn:Hloop;
    simpl in Hcounts, Hseg; [|discriminate].
  inversion Hcounts; subst counts. clear Hcounts.
  unfold load_all_students, bind. rewrite Hread. cbv beta iota.
  rewrite Hloop. cbv beta iota. cbn [fst snd].
  unfold log, emit, ret. rewrite Hseg. unfold w0. cbn [trace].
  destruct (0 <? ec)%nat; simpl; rewrite <- ?app_assoc; simpl;
    rewrite ?app_nil_r; reflexivity.
Qed.

(** C2, as amended: every record is attempted, in input order; a record
    whose load raises adds one to the error count and the loop goes on;
    the successes and the errors are logged ("Load complete") and add up
    to the number of records; the method itself returns [None]. *)
Theorem load_all_students_tallies (w : World) filename rows students :
  csv_open filename = Rows rows ->
  students_of_rows rows = Ok students ->
  let results := outcomes_read students (snd (read_csv_file filename w)) in
  fst (load_all_students filename w) = Ok tt /\
  length results = length students /\
  (successes results + failures results = length students)%nat /\
  started (emitted_by (load_all_students filename) w) =
  map (fun student => py_format (read_unique_id student)) students /\
  tallies (emitted_by (load_all_students filename) w) =
  [(successes results, failures results)].
Proof.
  intros Hopen Hrows results.
  destruct (load_all_students_unfold w filename rows students Hopen Hrows)
    as [Hread [seg [Hstarted [Htallies Hrun]]]].
  unfold results. rewrite Hread. cbn [snd].
  set (w0 := mkWorld (client w) (remote w)
               (trace w ++ [Log INFO (MsgReadRecords (length students) filename)])) in *.
  set (sc := successes (outcomes_read students w0)) in *.
  set (ec := failures (outcomes_read students w0)) in *.
  assert (Htrace : trace (snd (load_all_students filename w)) =
                   trace w ++
                   ([Log INFO (MsgReadRecords (length students) filename)] ++ seg
                    ++ [Log INFO (MsgLoadComplete sc ec)]
                    ++ (if (0 <? ec)%nat
                        then [Log WARNING (MsgStudentsFailed ec)] else []))).
  { rewrite Hrun. reflexivity. }
  rewrite Hrun. cbn [fst].
  split; [reflexivity|]. split; [apply outcomes_read_length|].
  split; [unfold sc, ec; rewrite successes_failures; apply outcomes_read_length|].
  rewrite (emitted_by_segment _ _ _ Htrace).
  rewrite !started_app, !tallies_app, Hstarted, Htallies.
  destruct (0 <? ec)%nat; simpl; rewrite ?app_nil_r; split; reflexivity.
Qed.

End Loader.

(** Three records; the second is refused at the primary POST.  The first
    loads: the student payload goes out, then the association payload. *)
Lemma primary_failure_counts_one_error_witness :
  let w := start no_files ready_client [created; created; refused; created; created] in
  let wk := snd (load_loop [plain_student] 0 0 w) in
  fst (load_student diana wk) =
  Raise (RequestException HTTPError (Some (mkResponse 500 "server error" None))) /\
  Forall (fun call => json_of_call call = Some (create_student_payload diana))
    (data_requests (emitted_by (load_student diana) wk)) /\
  fst (load_loop [plain_student; diana; plain_student] 0 0 w) = Ok (2, 1)%nat /\
  fst (load_student plain_student w) = Ok tt /\
  map json_of_call (data_requests (emitted_by (load_student plain_student) w)) =
  [ Some (create_student_payload plain_student);
    Some [ ("studentReference", JObj [("studentUniqueId", JStr "1001")]);
           ("schoolReference", JObj [("schoolId", JInt 255901001)]);
           ("entryDate", JStr "2021-08-23");
           ("entryGradeLevelDescriptor",
            JStr "uri://ed-fi.org/GradeLevelDescriptor#Third grade");
           ("fullTimeEquivalency", JFloat 0.5%float) ] ].
Proof.
  intros w wk.
  destruct (primary_failure_counts_one_error w [plain_student] diana [plain_student]
              (RequestException HTTPError (Some (mkResponse 500 "server error" None))))
    as [Hcalls [Hraise [Hsent [_ Hcounts]]]].
  - repeat constructor.
  - reflexivity.
  - repeat constructor.
  - split; [exact Hraise|]. split; [exact Hsent|]. split; [exact Hcounts|].
    pose proof (Hcalls plain_student w) as H. cbv zeta in H.
    assert (Hp : primary_result plain_student w = Ok (JObj [])) by reflexivity.
    rewrite Hp in H. destruct H as [_ [_ H]].
    assert (Hpay : @create_student_school_association_payload (scripted no_files)
                     (client (snd (primary_post plain_student
                                     (snd (before_primary plain_student w)))))
                     plain_student =
                   Ok [ ("studentReference", JObj [("studentUniqueId", JStr "1001")]);
                        ("schoolReference", JObj [("schoolId", JInt 255901001)]);
                        ("entryDate", JStr "2021-08-23");
                        ("entryGradeLevelDescriptor",
                         JStr "uri://ed-fi.org/GradeLevelDescriptor#Third grade");
                        ("fullTimeEquivalency", JFloat 0.5%float) ])
      by reflexivity.
    rewrite Hpay in H. destruct H as [Hs [_ Hok]].
    split; [apply Hok|]. rewrite Hs. reflexivity.
Defined.

(** The file of a header and two rows; the second record is refused. *)
Lemma load_all_students_tallies_witness :
  let w := start sample_files ready_client [created; created; refused] in
  fst (load_all_students "students.csv" w) = Ok tt /\
  started (emitted_by (load_all_students "students.csv") w) = ["604835"; "1001"] /\
  tallies (emitted_by (load_all_students "students.csv") w) = [(1, 1)%nat].
Proof.
  intros w.
  destruct (load_all_students_tallies w "students.csv" sample_rows
              [as_read diana; as_read plain_student] eq_refl eq_refl)
    as [Hok [_ [_ [Hstarted Htallies]]]].
  split; [exact Hok|]. split; [exact Hstarted | exact Htallies].
Defined.

(** C2, as stated, fails: a run where both records load and a run where
    both are refused hand the same value, [None], to the caller; the
    tallies are in the log only. *)
Lemma load_all_students_returns_none_either_way :
  let good := start sample_files ready_client [created; created; created; created] in
  let bad := start sample_files ready_client [refused; refused] in
  fst (load_all_students "students.csv" good) = Ok tt /\
  tallies (trace (snd (load_all_students "students.csv" good))) = [(2, 0)%nat] /\
  fst (load_all_students "students.csv" bad) = Ok tt /\
  tallies (trace (snd (load_all_students "students.csv" bad))) = [(0, 2)%nat].
Proof. repeat split. Qed.

(** * Further properties of the code *)

(** ** [EdFiApiClient.__init__] and the endpoint of [make_request] *)

Lemma rstrip_slash_no_trailing_slash s : ends_with_slash (rstrip_slash s) = false.
Proof.
  induction s as [|c rest IH]; [reflexivity|]. simpl.
  destruct (rstrip_slash rest) as [|c' r'] eqn:E.
  - destruct (Ascii.eqb c "/") eqn:Ec; simpl; auto.
  - exact IH.
Qed.

Lemma rstrip_slash_decompose s : exists n, s = (rstrip_slash s ++ slashes n)%string.
Proof.
  induction s as [|c rest [n IH]]; [exists 0%nat; reflexivity|]. simpl.
  destruct (rstrip_slash rest) as [|c' r'] eqn:E.
  - simpl in IH. destruct (Ascii.eqb c "/") eqn:Ec.
    + apply Ascii.eqb_eq in Ec. subst c. exists (S n). simpl. now rewrite IH.
    + exists n. simpl. now rewrite IH.
  - exists n. simpl. rewrite IH at 1. reflexivity.
Qed.

Lemma rstrip_slash_fixed s : ends_with_slash s = false -> rstrip_slash s = s.
Proof.
  induction s as [|c rest IH]; [reflexivity|]. simpl.
  destruct rest as [|c' r'].
  - simpl. intros ->. reflexivity.
  - intros H. rewrite (IH H). reflexivity.
Qed.

(** X1: the base URL a new client keeps is the given one without its
    trailing slashes: it ends in no slash, the given URL is it followed by
    slashes only, and a URL that ends in no slash is kept as given. *)
Theorem new_client_base_url (url id secret school : string) (tm : Z) :
  let kept := base_url (new_client url id secret school tm) in
  ends_with_slash kept = false /\
  (exists n, url = (kept ++ slashes n)%string) /\
  (ends_with_slash url = false -> kept = url).
Proof.
  simpl. split; [apply rstrip_slash_no_trailing_slash|].
  split; [apply rstrip_slash_decompose | apply rstrip_slash_fixed].
Qed.

Lemma lstrip_slash_slashes n s : lstrip_slash (slashes n ++ s)%string = lstrip_slash s.
Proof. induction n as [|n IH]; simpl; auto. Qed.

Section RequestEdges.

Context {platform : Platform}.

(** X2: leading slashes of the endpoint make no difference: the request
    for an endpoint with any number of slashes put in front is the request
    for the endpoint itself, result and world. *)
Theorem make_request_ignores_leading_slashes n endpoint method data (w : World) :
  make_request (slashes n ++ endpoint)%string method data w =
  make_request endpoint method data w.
Proof. unfold make_request. now rewrite lstrip_slash_slashes. Qed.

(** X3: an empty dict as [data] is sent as no body at all: the request is
    the request with [data=None], result and world. *)
Theorem make_request_empty_dict_is_no_body endpoint method (w : World) :
  make_request endpoint method (Some []) w = make_request endpoint method None w /\
  forall call,
    In call (data_requests (emitted_by (make_request endpoint method (Some [])) w)) ->
    json_of_call call = None.
Proof.
  split; [reflexivity|]. intros call Hin.
  destruct (emits_make_request endpoint method (Some []) w) as [_ [seg [Hseg Hev]]].
  rewrite (emitted_by_segment _ _ _ Hseg) in Hin.
  apply request_events_carry_data in Hev. rewrite Forall_forall in Hev.
  now apply Hev.
Qed.

End RequestEdges.

(** ** [discover_endpoints] and [authenticate] *)

Lemma http_calls_app t1 t2 : http_calls (t1 ++ t2) = http_calls t1 ++ http_calls t2.
Proof.
  induction t1 as [|e t1 IH]; simpl; auto.
  destruct e; simpl; now rewrite ?IH.
Qed.

Section Session.

Context {platform : Platform}.

Ltac run_client :=
  unfold bind, get_client, try_except, log, emit, http, raise_for_status,
    response_json, lift, raise, ret, update_client; simpl.

(** Discovery assigns the two URLs and nothing else. *)
Lemma discover_endpoints_keeps_token (w : World) :
  access_token (client (snd (discover_endpoints w))) = access_token (client w).
Proof.
  unfold discover_endpoints. run_client.
  repeat break_match; reflexivity.
Qed.

(** X4: a failed [authenticate] leaves the token the client held: the old
    token stays in place and is what the next request will send. *)
Theorem failed_authenticate_keeps_token (w : World) e :
  fst (authenticate w) = Raise e ->
  access_token (client (snd (authenticate w))) = access_token (client w).
Proof.
  destruct (authenticate w) as [res wf] eqn:Ha. simpl. intros ->. revert Ha.
  unfold authenticate. unfold bind at 1.
  pose proof (discover_endpoints_keeps_token w) as Hd.
  destruct (discover_endpoints w) as [[[]|e'] w1]; simpl in Hd.
  - rewrite <- Hd. run_client.
    repeat break_match; intros H; inversion H; subst; reflexivity.
  - intros H. inversion H; subst. exact Hd.
Qed.

(** X5: how [authenticate] fails once the endpoints are there: a transport
    error, a 4xx or 5xx answer and a body that is no JSON raise the
    authentication error ("Failed to authenticate"); a JSON object without
    access_token raises the bare [KeyError], and a JSON value that is no
    object the bare [TypeError]. *)
Theorem authenticate_failures (w w1 : World) :
  discover_endpoints w = (Ok tt, w1) ->
  match net (token_call (client w1)) (remote w1) with
  | (Failed kind, _) =>
      fst (authenticate w) = Raise (AuthenticateFailed (RequestException kind None))
  | (Responded r, _) =>
      (is_error_status r = true ->
       fst (authenticate w) =
       Raise (AuthenticateFailed (RequestException HTTPError (Some r)))) /\
      (is_error_status r = false -> json_of r = None ->
       fst (authenticate w) =
       Raise (AuthenticateFailed (RequestException JSONDecodeError None))) /\
      (forall d,
          is_error_status r = false -> json_of r = Some (JObj d) ->
          dict_get d "access_token" = None ->
          fst (authenticate w) = Raise (KeyError "access_token")) /\
      (forall v,
          is_error_status r = false -> json_of r = Some v ->
          (forall d, v <> JObj d) ->
          fst (authenticate w) = Raise TypeError)
  end.
Proof.
  intros Hd. unfold authenticate, token_call, is_error_status. run_client.
  rewrite Hd. simpl.
  destruct (net _ (remote w1)) as [[r|kind] n]; simpl; [|reflexivity].
  split; [|split; [|split]].
  - intros ->. reflexivity.
  - intros -> ->. reflexivity.
  - intros d -> -> Hk. simpl. now rewrite Hk.
  - intros v -> -> Hv. simpl. destruct v; try reflexivity. now destruct (Hv d).
Qed.

(** X6: a successful token request stores the token of the answer in place
    of whatever the client held, and changes nothing else of the client. *)
Theorem authenticate_stores_token (w w1 : World) r n d token :
  discover_endpoints w = (Ok tt, w1) ->
  net (token_call (client w1)) (remote w1) = (Responded r, n) ->
  is_error_status r = false ->
  json_of r = Some (JObj d) ->
  dict_get d "access_token" = Some token ->
  fst (authenticate w) = Ok tt /\
  client (snd (authenticate w)) = set_access_token (client w1) token /\
  remote (snd (authenticate w)) = n /\
  http_calls (trace (snd (authenticate w))) =
  http_calls (trace w1) ++ [token_call (client w1)].
Proof.
  intros Hd Hnet Hst Hjson Htok.
  unfold authenticate, token_call, is_error_status in *. run_client.
  rewrite Hd. simpl. rewrite Hnet. simpl. rewrite Hst. simpl. rewrite Hjson. simpl. rewrite Htok.
  simpl. repeat split.
  rewrite !http_calls_app. simpl. now rewrite !app_nil_r.
Qed.

(** X7: once both endpoints are cached with values that count as set,
    [discover_endpoints] asks nothing and changes nothing; so a discovery
    that found two such URLs is not repeated. *)
Theorem discovery_is_cached (w : World) r n d u oauth dm :
  endpoints_cached (client w) = false ->
  net (discovery_call (client w)) (remote w) = (Responded r, n) ->
  is_error_status r = false ->
  json_of r = Some (JObj d) ->
  dict_get d "urls" = Some (JObj u) ->
  dict_get u "oauth" = Some oauth ->
  dict_get u "dataManagementApi" = Some dm ->
  truthy oauth = true -> truthy dm = true ->
  let w' := snd (discover_endpoints w) in
  http_calls (trace w') = http_calls (trace w) ++ [discovery_call (client w)] /\
  discover_endpoints w' = (Ok tt, w').
Proof.
  intros Hc Hnet Hst Hjson Hurls Ho Hd Hto Htd w'.
  destruct (discover_endpoints_success w r n d u oauth dm Hc Hnet Hst Hjson Hurls Ho Hd)
    as [_ Hclient].
  split.
  - unfold w', discover_endpoints, discovery_call, endpoints_cached, is_error_status in *.
    run_client. rewrite Hc, Hnet. simpl. rewrite Hst. simpl. rewrite Hjson. simpl.
    rewrite Hurls. simpl. rewrite Ho. simpl. rewrite Hd. simpl.
    rewrite !http_calls_app. simpl. now rewrite !app_nil_r.
  - apply discover_endpoints_cached. fold w' in Hclient. rewrite Hclient.
    unfold endpoints_cached. simpl. now rewrite Hto, Htd.
Qed.

End Session.

(** ** [make_request]: what is sent, and how often *)

Section RequestBounds.

Context {platform : Platform}.

(** X8: without a token and with an [authenticate] that fails, the request
    fails with that error and nothing is sent to the data API. *)
Theorem no_session_no_request (w : World) endpoint method data e :
  truthy (access_token (client w)) = false ->
  fst (authenticate w) = Raise e ->
  fst (make_request endpoint method data w) = Raise e /\
  snd (make_request endpoint method data w) = snd (authenticate w) /\
  data_requests (emitted_by (make_request endpoint method data) w) = [].
Proof.
  intros Htok Hauth.
  assert (Hens : ensure_session w = (Raise e, snd (authenticate w))).
  { unfold ensure_session, bind, get_client. rewrite Htok. simpl.
    destruct (authenticate w) as [res wa]; simpl in *. now subst. }
  rewrite (make_request_without_session _ _ _ _ _ _ Hens). simpl.
  split; [reflexivity|]. split; [reflexivity|].
  apply (sent_of_total _ _ _ _ (emits_make_request endpoint method data)).
  rewrite (make_request_without_session _ _ _ _ _ _ Hens). simpl.
  destruct (emits_authenticate w) as [_ [seg [Hseg Hev]]].
  apply auth_events_no_data_request in Hev.
  now rewrite Hseg, data_requests_app, Hev.
Qed.

(** X9: an answer other than 401 is final at once: the request was sent
    once, no token was asked for and the client is as before the call. A 4xx
    or 5xx answer raises [HTTPError] with the response, after logging the
    failure, the status and the body; otherwise an empty body gives [{}] and
    a JSON body is returned. *)
Theorem answer_other_than_401_is_final (w w0 : World) endpoint method data base r n :
  ensure_session w = (Ok tt, w0) ->
  data_management_api_url (client w0) = JStr base ->
  let first := data_call method (urljoin (base ++ "/") (lstrip_slash endpoint))
                 (access_token (client w0)) data (timeout (client w0)) in
  net first (remote w0) = (Responded r, n) ->
  status_code r <> 401%Z ->
  let result := fst (make_request endpoint method data w) in
  let final := snd (make_request endpoint method data w) in
  data_requests (trace final) = data_requests (trace w0) ++ [first] /\
  token_posts (trace final) = token_posts (trace w0) /\
  client final = client w0 /\
  (is_error_status r = true ->
   result = Raise (RequestException HTTPError (Some r)) /\
   trace final =
   trace w0 ++
   [ Http first;
     Log ERROR (MsgRequestFailed (RequestException HTTPError (Some r)));
     Log ERROR (MsgResponseStatus (status_code r));
     Log ERROR (MsgResponseBody (content r)) ]) /\
  (is_error_status r = false -> content r = "" -> result = Ok (JObj [])) /\
  (forall v, is_error_status r = false -> json_of r = Some v -> result = Ok v).
Proof.
  intros Hens Hdm first Hnet Hnot result final.
  assert (Hmr : make_request endpoint method data w = final_attempt first w0).
  { apply (make_request_without_401 w w0 endpoint method data base Hens Hdm).
    fold first. intros r' n' Hr. rewrite Hnet in Hr. inversion Hr; subst. exact Hnot. }
  unfold result, final. rewrite Hmr.
  destruct (final_attempt_trace first w0) as [logs [Htf [Hdl [Hpl Hcf]]]].
  pose proof (final_attempt_result first w0) as Hres. rewrite Hnet in Hres.
  destruct Hres as [Herr [Hempty [Hjson _]]].
  split; [rewrite Htf, data_requests_app; simpl; now rewrite Hdl|].
  split; [rewrite Htf, token_posts_app; simpl; now rewrite Hpl, app_nil_r|].
  split; [exact Hcf|]. split; [|split; [exact Hempty | exact Hjson]].
  intros He. split; [exact (Herr He)|].
  unfold final_attempt, try_except, bind, http, finish_response, raise_for_status,
    log_request_failure, log, emit, raise, ret.
  rewrite Hnet. unfold is_error_status in He. simpl. rewrite He. simpl.
  now rewrite <- !app_assoc.
Qed.

Lemma posts_of_total {A} (m : M A) P w posts :
  emits P m ->
  token_posts (trace (snd (m w))) = token_posts (trace w) ++ posts ->
  token_posts (emitted_by m w) = posts.
Proof.
  intros Hm Htotal. destruct (Hm w) as [_ [seg [Hseg _]]].
  rewrite (emitted_by_segment _ _ _ Hseg).
  rewrite Hseg, token_posts_app in Htotal.
  now apply app_inv_head in Htotal.
Qed.

Lemma ensure_session_token_posts (w : World) :
  exists posts,
    token_posts (trace (snd (ensure_session w))) = token_posts (trace w) ++ posts /\
    (length posts <= 1)%nat.
Proof.
  unfold ensure_session, bind, get_client. simpl.
  destruct (negb (truthy (access_token (client w)))).
  - destruct (authenticate_token_posts w) as [posts [Hp [Hle _]]].
    exists posts. split; [|exact Hle].
    destruct (authenticate w) as [[[]|e] wa]; exact Hp.
  - exists []. simpl. split; [now rewrite app_nil_r | lia].
Qed.

(** The token requests of one [make_request]: those of the session it
    ensures first and those of the one re-authentication. *)
Lemma make_request_token_posts (w : World) endpoint method data :
  exists posts,
    token_posts (trace (snd (make_request endpoint method data w))) =
    token_posts (trace w) ++ posts /\
    (length posts <= 2)%nat.
Proof.
  destruct (ensure_session_token_posts w) as [posts0 [Hp0 Hle0]].
  destruct (ensure_session w) as [[[]|e] w0] eqn:Hens; simpl in Hp0.
  2:{ exists posts0. rewrite (make_request_without_session _ _ _ _ _ _ Hens).
      split; [exact Hp0 | lia]. }
  destruct (data_management_api_url (client w0)) as [|b|z|f|base|l|d] eqn:Hdm;
    try (exists posts0;
         rewrite (make_request_without_url w w0)
           by (auto; intros ?; rewrite Hdm; discriminate);
         split; [exact Hp0 | lia]).
  set (first := data_call method (urljoin (base ++ "/") (lstrip_slash endpoint))
                  (access_token (client w0)) data (timeout (client w0))).
  assert (Hone : forall r' n',
             net first (remote w0) = (Responded r', n') -> status_code r' <> 401%Z ->
             make_request endpoint method data w = final_attempt first w0).
  { intros r' n' Hr Hnot.
    apply (make_request_without_401 w w0 endpoint method data base Hens Hdm).
    fold first. intros r2 n2 Hr2. rewrite Hr in Hr2. inversion Hr2; subst. exact Hnot. }
  destruct (final_attempt_trace first w0) as [logs [Htf [_ [Hpl _]]]].
  destruct (net first (remote w0)) as [[r1|k] n1] eqn:Hnet.
  - destruct (Z.eq_dec (status_code r1) 401) as [H401|Hnot].
    + pose proof (make_request_after_401 w w0 endpoint method data base r1 n1
                    Hens Hdm Hnet H401) as Hmr.
      fold first in Hmr. rewrite Hmr. clear Hmr.
      rewrite (world_after_401 _ _ _ _ Hnet).
      set (w1 := mkWorld (client w0) n1
                   ((trace w0 ++ [Http first]) ++ [Log INFO MsgTokenExpired])).
      destruct (authenticate_token_posts w1) as [posts1 [Hp1 [Hle1 _]]].
      assert (Hpw1 : token_posts (trace w1) = token_posts (trace w) ++ posts0).
      { unfold w1. simpl. rewrite !token_posts_app, Hp0. simpl.
        now rewrite !app_nil_r. }
      exists (posts0 ++ posts1). split; [|rewrite length_app; lia].
      destruct (authenticate w1) as [[[]|e] w2]; cbn [snd] in Hp1 |- *.
      * destruct (final_attempt_trace
                    (data_call method (urljoin (base ++ "/") (lstrip_slash endpoint))
                       (access_token (client w2)) data (timeout (client w2))) w2)
          as [logs2 [Htf2 [_ [Hpl2 _]]]].
        rewrite Htf2, token_posts_app, Hp1, Hpw1. simpl.
        now rewrite Hpl2, app_nil_r, app_assoc.
      * now rewrite Hp1, Hpw1, app_assoc.
    + exists posts0. rewrite (Hone r1 n1 eq_refl Hnot). split; [|lia].
      rewrite Htf, token_posts_app, Hp0. simpl. now rewrite Hpl, app_nil_r.
  - exists posts0.
    rewrite (make_request_without_401 w w0 endpoint method data base Hens Hdm).
    2:{ fold first. intros r2 n2 Hr2. rewrite Hnet in Hr2. discriminate. }
    fold first. split; [|lia].
    rewrite Htf, token_posts_app, Hp0. simpl. now rewrite Hpl, app_nil_r.
Qed.

(** X10: one [make_request] sends at most two data API calls and asks for
    a token at most twice, whatever the remote side answers. *)
Theorem make_request_is_bounded (w : World) endpoint method data :
  (length (data_requests (emitted_by (make_request endpoint method data) w)) <= 2)%nat /\
  (length (token_posts (emitted_by (make_request endpoint method data) w)) <= 2)%nat.
Proof.
  split.
  - destruct (make_request_sent w endpoint method data) as [full_url H].
    cbv zeta in H.
    destruct H as [H|[H|H]];
      apply (sent_of_total _ _ _ _ (emits_make_request endpoint method data)) in H;
      rewrite H; simpl; lia.
  - destruct (make_request_token_posts w endpoint method data) as [posts [H Hle]].
    apply (posts_of_total _ _ _ _ (emits_make_request endpoint method data)) in H.
    now rewrite H.
Qed.

End RequestBounds.

(** ** What no operation changes *)

Section Configuration.

Context {platform : Platform}.

Lemma emits_any {A} P (m : M A) : emits P m -> emits any_event m.
Proof. apply emits_weaken. intros e _. exact I. Qed.

Lemma emits_any_load_student student : emits any_event (load_student student).
Proof.
  unfold load_student.
  repeat first
    [ apply (emits_any _ _ (emits_make_request _ _ _))
    | apply emits_log; exact I
    | solve [auto with emits]
    | apply emits_bind; [|intros ?]
    | apply emits_try_except; [|intros ?] ].
Qed.

Lemma emits_any_load_loop students :
  forall sc ec, emits any_event (load_loop students sc ec).
Proof.
  induction students as [|student rest IH]; intros sc ec; simpl.
  - auto with emits.
  - apply emits_bind; [|intros counts; apply IH].
    apply emits_try_except.
    + apply emits_bind; [apply emits_any_load_student | intros ?; auto with emits].
    + intros e. apply emits_bind; [apply emits_log; exact I | intros ?; auto with emits].
Qed.

Lemma emits_any_load_student_read student : emits any_event (load_student_read student).
Proof.
  unfold load_student_read.
  repeat first
    [ apply (emits_any _ _ (emits_make_request _ _ _))
    | apply emits_log; exact I
    | solve [auto with emits]
    | apply emits_bind; [|intros ?]
    | apply emits_try_except; [|intros ?] ].
Qed.

Lemma emits_any_load_loop_read students :
  forall sc ec, emits any_event (load_loop_read students sc ec).
Proof.
  induction students as [|student rest IH]; intros sc ec; simpl.
  - auto with emits.
  - apply emits_bind; [|intros counts; apply IH].
    apply emits_try_except.
    + apply emits_bind; [apply emits_any_load_student_read | intros ?; auto with emits].
    + intros e. apply emits_bind; [apply emits_log; exact I | intros ?; auto with emits].
Qed.

Lemma emits_any_read_csv_file filename : emits any_event (read_csv_file filename).
Proof.
  unfold read_csv_file. destruct (csv_open filename); auto with emits.
  - destruct (students_of_rows rows); auto with emits.
    apply emits_bind; [apply emits_log; exact I | intros ?; auto with emits].
  - destruct (students_of_rows rows); auto with emits.
Qed.

Lemma emits_any_load_all_students filename :
  emits any_event (load_all_students filename).
Proof.
  unfold load_all_students.
  apply emits_bind; [apply emits_any_read_csv_file|]. intros students.
  apply emits_bind; [apply emits_any_load_loop_read|]. intros counts.
  apply emits_bind; [apply emits_log; exact I|]. intros _.
  apply emits_if; [apply emits_log; exact I | auto with emits].
Qed.

(** X11: no operation of the client or of the loader changes the base
    URL, the client id, the client secret, the school id or the timeout of
    the client. *)
Theorem configuration_is_never_changed (w : World) :
  static (client (snd (authenticate w))) = static (client w) /\
  (forall endpoint method data,
      static (client (snd (make_request endpoint method data w))) = static (client w)) /\
  (forall student,
      static (client (snd (load_student student w))) = static (client w)) /\
  (forall filename,
      static (client (snd (load_all_students filename w))) = static (client w)).
Proof.
  split; [apply (emits_authenticate w)|].
  split; [intros endpoint method data; apply (emits_make_request endpoint method data w)|].
  split; [intros student; apply (emits_any_load_student student w)|].
  intros filename. apply (emits_any_load_all_students filename w).
Qed.

End Configuration.

(** ** [csv.DictReader] and [read_csv_file] *)

Lemma dict_get_set {V} (d : list (string * V)) k k' v :
  dict_get (dict_set d k v) k' = if k =? k' then Some v else dict_get d k'.
Proof.
  destruct (k =? k') eqn:E.
  - apply String.eqb_eq in E. subst k'. apply dict_get_set_same.
  - apply String.eqb_neq in E. now apply dict_get_set_other.
Qed.

(** A row as [csv.DictReader] yields it has a cell under the names of the
    header and under nothing else, however short or long the row is. *)
Lemma pad_row_names fieldnames :
  forall (d : DictRow) k,
    dict_get (pad_row fieldnames d) k = None <->
    dict_get d k = None /\ existsb (String.eqb k) fieldnames = false.
Proof.
  induction fieldnames as [|key rest IH]; intros d k; simpl.
  - tauto.
  - rewrite IH, dict_get_set, (String.eqb_sym k key).
    destruct (key =? k); simpl; split; intros [H1 H2]; try discriminate; auto.
Qed.

Lemma zip_row_names fieldnames :
  forall cells (d : DictRow) k,
    dict_get (zip_row fieldnames cells d) k = None <->
    dict_get d k = None /\ existsb (String.eqb k) fieldnames = false.
Proof.
  induction fieldnames as [|key rest IH]; intros cells d k.
  - destruct cells; simpl; tauto.
  - destruct cells as [|cell cells].
    + apply (pad_row_names (key :: rest)).
    + simpl. rewrite IH, dict_get_set, (String.eqb_sym k key).
      destruct (key =? k); simpl; split; intros [H1 H2]; try discriminate; auto.
Qed.

Lemma dict_of_row_names fieldnames cells k :
  dict_get (dict_of_row fieldnames cells) k = None <->
  existsb (String.eqb k) fieldnames = false.
Proof. unfold dict_of_row. rewrite zip_row_names. simpl. tauto. Qed.

Lemma dict_of_row_named fieldnames cells k :
  existsb (String.eqb k) fieldnames = true ->
  exists cell, dict_get (dict_of_row fieldnames cells) k = Some cell.
Proof.
  intros H. destruct (dict_get (dict_of_row fieldnames cells) k) as [cell|] eqn:E.
  - now exists cell.
  - apply dict_of_row_names in E. congruence.
Qed.

(** Whether a row gives a record depends on the header alone: the first
    column the header does not name is a [KeyError]; with every column
    named the row gives a record, whatever its cells. *)
Lemma student_of_row_header fieldnames cells :
  match missing_column fieldnames with
  | Some column =>
      student_of_row (dict_of_row fieldnames cells) = Raise (KeyError column)
  | None => exists student, student_of_row (dict_of_row fieldnames cells) = Ok student
  end.
Proof.
  unfold missing_column, student_of_row, row_get, result_bind, csv_columns.
  cbn [find].
  repeat match goal with
         | |- context [if negb (existsb (String.eqb ?k) fieldnames) then _ else _] =>
             destruct (existsb (String.eqb k) fieldnames) eqn:?; cbn [negb];
             [ match goal with
               | H : existsb (String.eqb k) fieldnames = true |- _ =>
                   destruct (dict_of_row_named fieldnames cells k H) as [? ->]
               end
             | match goal with
               | H : existsb (String.eqb k) fieldnames = false |- _ =>
                   apply (dict_of_row_names fieldnames cells) in H; now rewrite H
               end ]
         end.
  eexists. reflexivity.
Qed.

Lemma students_of_dicts_header fieldnames data :
  match missing_column fieldnames with
  | Some column =>
      data <> [] ->
      students_of_dicts (map (dict_of_row fieldnames) data) = Raise (KeyError column)
  | None =>
      exists students,
        students_of_dicts (map (dict_of_row fieldnames) data) = Ok students /\
        length students = length data
  end.
Proof.
  destruct (missing_column fieldnames) as [column|] eqn:Hm.
  - intros Hne. destruct data as [|cells rest]; [now destruct Hne|]. simpl.
    pose proof (student_of_row_header fieldnames cells) as H. rewrite Hm in H.
    now rewrite H.
  - induction data as [|cells rest [students [IH Hlen]]].
    + exists []. split; reflexivity.
    + pose proof (student_of_row_header fieldnames cells) as H. rewrite Hm in H.
      destruct H as [student H]. exists (student :: students). simpl.
      rewrite H, IH. simpl. now rewrite Hlen.
Qed.

Lemma filter_not_blank data :
  (exists cells, In cells data /\ cells <> []) ->
  filter (fun cells => negb (is_blank cells)) data <> [].
Proof.
  intros [cells [Hin Hne]] H.
  assert (Hf : In cells (filter (fun cells => negb (is_blank cells)) data)).
  { apply filter_In. split; [exact Hin|]. destruct cells; [now destruct Hne | reflexivity]. }
  rewrite H in Hf. contradiction.
Qed.

Section ReadCsv.

Context {platform : Platform}.

(** X12: what [read_csv_file] does with a file.  A missing file raises "CSV
    file not found"; any other failure of opening it raises "Error reading
    CSV file", and so does a failure of the reader after some rows, unless
    a record of those rows could not be built, whose error comes first.  A
    header that does not name one of the columns raises "Error reading CSV
    file" for the first such column, as soon as there is a row to read.
    In all these cases the world is as it was and nothing is logged.  With
    every column named, every row that is not blank gives a record, short
    rows too. *)
Theorem read_csv_file_failures (w : World) filename :
  (csv_open filename = FileNotFound ->
   read_csv_file filename w = (Raise (CsvNotFound filename), w)) /\
  (forall e,
      csv_open filename = Unreadable e ->
      read_csv_file filename w = (Raise (CsvReadFailed e), w)) /\
  (forall rows e,
      csv_open filename = Broken rows e ->
      read_csv_file filename w =
      (Raise (CsvReadFailed match students_of_rows rows with
                            | Raise e' => e'
                            | Ok _ => e
                            end), w)) /\
  (forall fieldnames data column,
      csv_open filename = Rows (fieldnames :: data) ->
      missing_column fieldnames = Some column ->
      (exists cells, In cells data /\ cells <> []) ->
      read_csv_file filename w = (Raise (CsvReadFailed (KeyError column)), w)) /\
  (forall fieldnames data,
      csv_open filename = Rows (fieldnames :: data) ->
      missing_column fieldnames = None ->
      exists students,
        read_csv_file filename w =
        (Ok students,
         mkWorld (client w) (remote w)
           (trace w ++ [Log INFO (MsgReadRecords (length students) filename)])) /\
        length students = length (filter (fun cells => negb (is_blank cells)) data)).
Proof.
  unfold read_csv_file.
  split; [intros ->; reflexivity|]. split; [intros e ->; reflexivity|].
  split; [intros rows e ->; destruct (students_of_rows rows); reflexivity|].
  unfold students_of_rows, dict_rows. split.
  - intros fieldnames data column -> Hm Hrow.
    pose proof (students_of_dicts_header fieldnames
                  (filter (fun cells => negb (is_blank cells)) data)) as H.
    rewrite Hm in H. now rewrite (H (filter_not_blank data Hrow)).
  - intros fieldnames data -> Hm.
    pose proof (students_of_dicts_header fieldnames
                  (filter (fun cells => negb (is_blank cells)) data)) as H.
    rewrite Hm in H. destruct H as [students [H Hlen]].
    exists students. rewrite H. split; [reflexivity | exact Hlen].
Qed.

End ReadCsv.

Lemma student_of_row_fields row student :
  student_of_row row = Ok student ->
  dict_get row "uniqueId" = Some (read_unique_id student) /\
  dict_get row "birthDate" = Some (read_birth_date student) /\
  dict_get row "firstName" = Some (read_first_name student) /\
  dict_get row "lastName" = Some (read_last_name student) /\
  option_map none_if_empty (dict_get row "middleName") = Some (read_middle_name student) /\
  option_map none_if_empty (dict_get row "title") = Some (read_title student) /\
  option_map none_if_empty (dict_get row "preferredFirstName") =
  Some (read_preferred_first_name student) /\
  option_map none_if_empty (dict_get row "preferredLastName") =
  Some (read_preferred_last_name student) /\
  dict_get row "enrollmentDate" = Some (read_enrollment_date student) /\
  dict_get row "enrollmentGradeLevel" = Some (read_enrollment_grade_level student) /\
  dict_get row "fullTime" = Some (read_full_time student).
Proof.
  unfold student_of_row, row_get, result_bind.
  repeat match goal with
         | |- context [dict_get row ?k] =>
             destruct (dict_get row k) eqn:?; [|discriminate]
         end.
  intros H. inversion H; subst; clear H. simpl. repeat split.
Qed.

Lemma none_if_empty_not_empty v : none_if_empty v <> Some "".
Proof.
  unfold none_if_empty, truthy_opt. destruct v as [s|]; [|discriminate].
  destruct (s =? "") eqn:E; simpl; [discriminate|].
  intros H. inversion H; subst. discriminate.
Qed.

(** X13: the records read from a file are as many as the rows after the
    header that are not blank, in the order of the rows, each with what its
    row has under uniqueId, and in none of them is an optional field the
    empty string: an empty cell is an absent field. *)
Theorem records_read_have_no_empty_optional rows students :
  students_of_rows rows = Ok students ->
  length students = length (filter (fun cells => negb (is_blank cells)) (tl rows)) /\
  map (fun student => Some (read_unique_id student)) students =
  map (fun row => dict_get row "uniqueId") (dict_rows rows) /\
  Forall (fun student =>
            Forall (fun kf => snd kf <> Some "") (optional_fields_read student)) students.
Proof.
  unfold students_of_rows. intros H.
  assert (Hlen : length (dict_rows rows) =
                 length (filter (fun cells => negb (is_blank cells)) (tl rows))).
  { destruct rows as [|fieldnames data]; [reflexivity|]. simpl. apply length_map. }
  rewrite <- Hlen. clear Hlen.
  revert students H. induction (dict_rows rows) as [|row rest IH];
    intros students H; simpl in H.
  - inversion H. repeat split. constructor.
  - destruct (student_of_row row) as [s|e] eqn:Hs; [|discriminate]. simpl in H.
    destruct (students_of_dicts rest) as [ss|e]; [|discriminate]. simpl in H.
    inversion H; subst; clear H.
    destruct (IH ss eq_refl) as [Hlen [Hids Hopt]].
    destruct (student_of_row_fields row s Hs)
      as [Hid [_ [_ [_ [Hmn [Hti [Hpf [Hpl _]]]]]]]].
    simpl. split; [now rewrite Hlen|]. split; [now rewrite Hid, Hids|].
    constructor; [|exact Hopt].
    unfold optional_fields_read.
    repeat constructor; simpl;
      match goal with
      | |- ?f s <> _ =>
          match goal with
          | H : option_map none_if_empty ?c = Some (f s) |- _ =>
              destruct c; simpl in H; inversion H; apply none_if_empty_not_empty
          end
      end.
Qed.

Lemma optional_key_lookup_read (student : ReadRecord) key field :
  In (key, field) (optional_fields_read student) ->
  dict_get (create_student_payload_read student) key =
  if truthy_opt field then option_map JStr field else None.
Proof.
  destruct student as [uid bd fn ln mn ti pf pl ed gl ft].
  unfold optional_fields_read, create_student_payload_read, set_if_truthy, truthy_opt;
    simpl.
  destruct mn as [mn|]; destruct ti as [ti|];
    destruct pf as [pf|]; destruct pl as [pl|];
    intros [H|[H|[H|[H|[]]]]]; inversion H; subst; clear H;
    repeat match goal with
           | |- context [negb (?s =? "")] => destruct (s =? "")
           end; reflexivity.
Qed.

Lemma required_key_lookup_read (student : ReadRecord) :
  dict_get (create_student_payload_read student) "studentUniqueId" =
  Some (opt_json (read_unique_id student)) /\
  dict_get (create_student_payload_read student) "birthDate" =
  Some (opt_json (read_birth_date student)) /\
  dict_get (create_student_payload_read student) "firstName" =
  Some (opt_json (read_first_name student)) /\
  dict_get (create_student_payload_read student) "lastSurName" =
  Some (opt_json (read_last_name student)).
Proof.
  destruct student as [uid bd fn ln mn ti pf pl ed gl ft].
  unfold create_student_payload_read, set_if_truthy, truthy_opt; simpl.
  destruct mn as [mn|]; destruct ti as [ti|];
    destruct pf as [pf|]; destruct pl as [pl|];
    repeat match goal with
           | |- context [negb (?s =? "")] => destruct (s =? "")
           end; repeat split.
Qed.

(** X14: from the cell to the payload, for a record read from a row: a
    column declared [str] goes into the payload under its key as it is, an
    empty cell as the empty string and the missing cell of a short row as
    [null]; an optional column goes in under its key exactly when its cell
    is there and not empty. *)
Theorem csv_cell_to_payload row student :
  student_of_row row = Ok student ->
  (forall column key,
      In (column, key) required_column_keys ->
      exists cell, dict_get row column = Some cell /\
                   dict_get (create_student_payload_read student) key =
                   Some (opt_json cell)) /\
  (forall column key,
      In (column, key) optional_column_keys ->
      exists cell, dict_get row column = Some cell /\
                   dict_get (create_student_payload_read student) key =
                   if truthy_opt cell then option_map JStr cell else None).
Proof.
  intros Hs.
  destruct (student_of_row_fields row student Hs)
    as [Hid [Hbd [Hfn [Hln [Hmn [Hti [Hpf [Hpl _]]]]]]]].
  destruct (required_key_lookup_read student) as [Kid [Kbd [Kfn Kln]]].
  split.
  - intros column key Hin. simpl in Hin.
    destruct Hin as [Hin|[Hin|[Hin|[Hin|[]]]]]; inversion Hin; subst;
      eexists; (split; [eassumption | assumption]).
  - intros column key Hin.
    assert (Hkey : forall field cell,
               In (key, field) (optional_fields_read student) ->
               option_map none_if_empty cell = Some field ->
               exists v, cell = Some v /\
                         dict_get (create_student_payload_read student) key =
                         if truthy_opt v then option_map JStr v else None).
    { intros field cell Hf Hc. destruct cell as [v|]; [|discriminate].
      exists v. split; [reflexivity|]. rewrite (optional_key_lookup_read _ _ _ Hf).
      simpl in Hc. inversion Hc; subst. unfold none_if_empty.
      destruct (truthy_opt v) eqn:E; [now rewrite E | reflexivity]. }
    simpl in Hin.
    destruct Hin as [Hin|[Hin|[Hin|[Hin|[]]]]]; inversion Hin; subst.
    + apply (Hkey (read_middle_name student)); [simpl; auto | exact Hmn].
    + apply (Hkey (read_title student)); [simpl; auto | exact Hti].
    + apply (Hkey (read_preferred_first_name student)); [simpl; auto 6 | exact Hpf].
    + apply (Hkey (read_preferred_last_name student)); [simpl; auto 6 | exact Hpl].
Qed.

Section ShortRows.

Context {platform : Platform}.


(** X23: on a record that is as the dataclass declares it, the payload
    builders, [load_student] and the loop of [load_all_students] over the
    records as read are the builders, [load_student] and the loop over
    declared records. *)
Theorem declared_record_loads_as_read (w : World) student students sc ec :
  create_student_payload_read (as_read student) = create_student_payload student /\
  (forall api_client,
      create_student_school_association_payload_read api_client (as_read student) =
      create_student_school_association_payload api_client student) /\
  load_student_read (as_read student) w = load_student student w /\
  load_loop_read (map as_read students) sc ec w = load_loop students sc ec w /\
  outcomes_read (map as_read students) w = outcomes students w.
Proof.
  assert (Hload : forall s w0, load_student_read (as_read s) w0 = load_student s w0).
  { intros s w0. destruct s. reflexivity. }
  assert (Hloop : forall l sc0 ec0 w0,
             load_loop_read (map as_read l) sc0 ec0 w0 = load_loop l sc0 ec0 w0).
  { induction l as [|s rest IH]; intros sc0 ec0 w0; [reflexivity|].
    cbn [map]. rewrite load_loop_read_cons, load_loop_cons, Hload.
    destruct (load_student s w0) as [[[]|e] w']; apply IH. }
  split; [destruct student; reflexivity|].
  split; [intros api_client; destruct student; reflexivity|].
  split; [apply Hload|]. split; [apply Hloop|].
  revert w. induction students as [|s rest IH]; intros w; [reflexivity|].
  cbn [map]. rewrite outcomes_read_cons, outcomes_cons, Hload.
  f_equal. rewrite <- (Hloop [s] 0%nat 0%nat w). apply IH.
Qed.

(** X24: a record read from a short row is loaded like any other and
    fails late.  With its full-time flag [None], the student payload is
    posted, and when that POST returns [load_student] raises the
    [TypeError] of the association payload: the student line and the
    failure line are logged, and no further call is made. *)
Theorem short_row_record_fails_after_post (w : World) student v wp :
  let wb := snd (log DEBUG MsgCreatingStudent
                   (snd (log INFO (MsgLoadingStudent
                                     (py_format (read_unique_id student))
                                     (py_format (read_first_name student))
                                     (py_format (read_last_name student))) w))) in
  read_full_time student = None ->
  make_request "/ed-fi/students" "POST" (Some (create_student_payload_read student)) wb
  = (Ok v, wp) ->
  load_student_read student w =
  (Raise TypeError,
   mkWorld (client wp) (remote wp)
     ((trace wp ++ [Log INFO (MsgStudentCreated (py_format (read_unique_id student)))])
      ++ [Log ERROR (MsgFailedToLoad (py_format (read_unique_id student)) TypeError)])).
Proof.
  intros wb Hnone Hp.
  unfold load_student_read, try_except, any_exception, bind, log, emit, lift,
    get_client, raise.
  unfold wb, log, emit in Hp. cbn [fst snd client remote trace] in Hp |- *.
  rewrite Hp. cbn [fst snd client remote trace].
  unfold create_student_school_association_payload_read. rewrite Hnone.
  reflexivity.
Qed.

End ShortRows.

(** ** [load_student] and [load_all_students] *)

Section LoaderEdges.

Context {platform : Platform}.

(** X15: once the primary POST has returned, the student has been sent,
    and a failure after that still fails the record: when the association
    payload cannot be built (a full-time flag that is no number, a school
    id that is no integer) [load_student] raises [ValueError] after the
    student was posted and with no association call; when the association
    POST raises, [load_student] raises the same error. *)
Theorem late_failure_leaves_student_posted (w : World) student v wp :
  let wb := snd (before_primary student w) in
  let sent := data_requests (emitted_by (load_student student) w) in
  let wd := snd (log DEBUG MsgCreatingAssociation
                   (snd (log INFO (MsgStudentCreated (unique_id student)) wp))) in
  primary_post student wb = (Ok v, wp) ->
  (exists call, In call sent /\
                json_of_call call = Some (create_student_payload student)) /\
  (create_student_school_association_payload (client wp) student = Raise ValueError ->
   fst (load_student student w) = Raise ValueError /\
   Forall (fun call => json_of_call call = Some (create_student_payload student)) sent) /\
  (forall payload e,
      create_student_school_association_payload (client wp) student = Ok payload ->
      fst (make_request "/ed-fi/studentSchoolAssociations" "POST" (Some payload) wd)
      = Raise e ->
      fst (load_student student w) = Raise e).
Proof.
  intros wb sent wd Hp.
  pose proof (load_student_unfold student w) as Hls. cbv zeta in Hls.
  fold wb in Hls. rewrite Hp in Hls. cbn [client snd log emit] in Hls.
  destruct (load_student_sent student w) as [rest [Hs [Hpc [_ Hrest]]]].
  cbv zeta in Hs, Hpc, Hrest. fold wb sent in Hs, Hpc, Hrest.
  rewrite Hp in Hrest. cbn [snd] in Hrest.
  assert (Hne : data_requests (emitted_by (primary_post student) wb) <> []).
  { unfold primary_post. eapply make_request_ok_sends.
    fold (primary_post student). rewrite Hp. reflexivity. }
  split; [|split].
  - destruct (data_requests (emitted_by (primary_post student) wb)) as [|call calls];
      [now destruct Hne|].
    exists call. split; [rewrite Hs; simpl; auto|].
    inversion Hpc; subst. assumption.
  - intros Hpay. rewrite Hpay in Hls. split; [now rewrite Hls|].
    destruct rest as [|call calls].
    + rewrite Hs, app_nil_r. exact Hpc.
    + inversion Hrest as [|? ? [payload [Hpay' _]] _]; subst. congruence.
  - intros payload e Hpay Hreq. rewrite Hpay in Hls. rewrite Hls.
    unfold wd, log, emit in Hreq. cbn [snd] in Hreq.
    destruct (make_request "/ed-fi/studentSchoolAssociations" "POST" (Some payload) _)
      as [[v'|e'] wa]; simpl in Hreq |- *; congruence.
Qed.

(** X16: a file that yields no row (no line at all, a header only, blank
    lines after the header): nothing is requested, not even the endpoints
    or a token; the tallies logged are 0 and 0 and no warning follows. *)
Theorem empty_file_loads_nothing (w : World) filename rows :
  csv_open filename = Rows rows ->
  dict_rows rows = [] ->
  load_all_students filename w =
  (Ok tt,
   mkWorld (client w) (remote w)
     (trace w ++ [ Log INFO (MsgReadRecords 0 filename);
                   Log INFO (MsgLoadComplete 0 0) ])).
Proof.
  intros Hopen Hrows.
  unfold load_all_students, read_csv_file, students_of_rows, bind, log, emit, ret.
  rewrite Hopen, Hrows. simpl. now rewrite <- app_assoc.
Qed.

(** X17: a file that cannot be read stops [load_all_students] at once: it
    raises the error of [read_csv_file] with the world as it was, no record
    attempted and no request made. *)
Theorem unreadable_file_stops_the_load (w : World) filename e :
  fst (read_csv_file filename w) = Raise e ->
  load_all_students filename w = (Raise e, w).
Proof.
  unfold load_all_students. unfold bind at 1. unfold read_csv_file.
  destruct (csv_open filename) as [|e'|rows|rows e']; simpl.
  - intros H. inversion H. reflexivity.
  - intros H. inversion H. reflexivity.
  - destruct (students_of_rows rows) as [students|e']; simpl.
    + discriminate.
    + intros H. inversion H. reflexivity.
  - destruct (students_of_rows rows) as [students|e'']; simpl;
      intros H; inversion H; reflexivity.
Qed.

End LoaderEdges.

(** ** [load_environment_variables] and [main] *)

(** The required variables that are unset or empty, in the order asked. *)
Lemma collect_vars_missing getenv vars :
  forall env_vars missing_vars,
    snd (collect_vars getenv vars env_vars missing_vars) =
    missing_vars ++ filter (fun var => negb (truthy_opt (getenv var))) vars.
Proof.
  induction vars as [|var rest IH]; intros env_vars missing_vars; simpl.
  - now rewrite app_nil_r.
  - destruct (getenv var) as [v|] eqn:E; simpl.
    + destruct (v =? ""); simpl; rewrite IH; [now rewrite <- app_assoc | reflexivity].
    + rewrite IH. now rewrite <- app_assoc.
Qed.

Lemma collect_vars_kept getenv vars :
  forall env_vars missing_vars var,
    dict_get (fst (collect_vars getenv vars env_vars missing_vars)) var =
    if existsb (String.eqb var) vars && truthy_opt (getenv var)
    then option_map JStr (getenv var)
    else dict_get env_vars var.
Proof.
  induction vars as [|var0 rest IH]; intros env_vars missing_vars var; simpl.
  - reflexivity.
  - destruct (getenv var0) as [v0|] eqn:E0; simpl.
    + destruct (v0 =? "") eqn:Ev0; simpl; rewrite IH.
      * destruct (var =? var0) eqn:Ev; simpl; [|reflexivity].
        apply String.eqb_eq in Ev. subst var0. rewrite E0. simpl. rewrite Ev0.
        simpl. now rewrite andb_false_r.
      * destruct (existsb (String.eqb var) rest && truthy_opt (getenv var)) eqn:Er.
        -- apply andb_true_iff in Er. destruct Er as [Er1 Er2]. rewrite Er1, Er2, orb_true_r. reflexivity.
        -- destruct (var =? var0) eqn:Ev; simpl.
           ++ apply String.eqb_eq in Ev. subst var0. rewrite E0. simpl. rewrite Ev0.
              simpl. apply dict_get_set_same.
           ++ rewrite Er. apply dict_get_set_other.
              intros ->. now rewrite String.eqb_refl in Ev.
    + rewrite IH. destruct (var =? var0) eqn:Ev; simpl; [|reflexivity].
      apply String.eqb_eq in Ev. subst var0. rewrite E0. simpl.
      now rewrite andb_false_r.
Qed.

Lemma filter_nil_false {A} (f : A -> bool) l x :
  filter f l = [] -> In x l -> f x = false.
Proof.
  intros Hnil Hin. destruct (f x) eqn:E; [|reflexivity].
  assert (H : In x (filter f l)) by (apply filter_In; auto).
  rewrite Hnil in H. contradiction.
Qed.

Section Environment.

Context {platform : Platform}.

(** What [load_environment_variables] hands over once nothing is missing
    and the timeout is a number. *)
Lemma load_environment_variables_returns getenv n :
  filter (fun var => negb (truthy_opt (getenv var))) required_vars = [] ->
  py_int (getenv_default getenv "EDFI_TIMEOUT" "30") = Some n ->
  exists env_vars,
    load_environment_variables getenv = ([], Returned env_vars) /\
    (forall var, In var required_vars ->
                 exists v, getenv var = Some v /\ v <> "" /\
                           dict_get env_vars var = Some (JStr v)) /\
    dict_get env_vars "EDFI_TIMEOUT" = Some (JInt n).
Proof.
  intros Hmissing Hint. unfold load_environment_variables.
  pose proof (collect_vars_missing getenv required_vars [] []) as Hm.
  pose proof (collect_vars_kept getenv required_vars [] []) as Hk.
  destruct (collect_vars getenv required_vars [] []) as [env_vars missing_vars].
  cbn [fst snd app] in Hm, Hk. rewrite Hmissing in Hm. subst missing_vars.
  rewrite Hint.
  eexists. split; [reflexivity|]. split.
  - intros var Hin.
    pose proof (filter_nil_false _ _ var Hmissing Hin) as Ht.
    apply negb_false_iff in Ht.
    destruct (getenv var) as [v|] eqn:Ev; [|discriminate].
    exists v. split; [reflexivity|]. split.
    + simpl in Ht. apply negb_true_iff, String.eqb_neq in Ht. exact Ht.
    + rewrite dict_get_set_other.
      * rewrite Hk, Ev. simpl in Ht |- *. rewrite Ht.
        simpl in Hin.
        destruct Hin as [<-|[<-|[<-|[<-|[]]]]]; reflexivity.
      * intros <-. simpl in Hin.
        destruct Hin as [H|[H|[H|[H|[]]]]]; discriminate.
  - apply dict_get_set_same.
Qed.

Lemma load_environment_variables_exits getenv :
  filter (fun var => negb (truthy_opt (getenv var))) required_vars <> [] ->
  load_environment_variables getenv =
  ([ MainLog ERROR
       (MsgMissingVariables
          (filter (fun var => negb (truthy_opt (getenv var))) required_vars));
     MainLog ERROR MsgCopyEnvExample ],
   Exited 1).
Proof.
  intros Hne. unfold load_environment_variables.
  pose proof (collect_vars_missing getenv required_vars [] []) as Hm.
  destruct (collect_vars getenv required_vars [] []) as [env_vars missing_vars].
  cbn [fst snd app] in Hm. subst missing_vars.
  destruct (filter _ required_vars); [now destruct Hne | reflexivity].
Qed.

(** X18: [load_environment_variables] leaves with exit code 1 exactly when
    a required variable is unset or empty, naming those variables in the
    order it asks for them, and then does not look at the timeout. With all
    four set, the timeout is the integer of EDFI_TIMEOUT, or of "30" when
    that is unset, and a value that is no integer (the empty string too)
    raises [ValueError]. *)
Theorem load_environment_variables_outcome getenv :
  let missing := filter (fun var => negb (truthy_opt (getenv var))) required_vars in
  (missing <> [] ->
   load_environment_variables getenv =
   ([ MainLog ERROR (MsgMissingVariables missing); MainLog ERROR MsgCopyEnvExample ],
    Exited 1)) /\
  (missing = [] ->
   (py_int (getenv_default getenv "EDFI_TIMEOUT" "30") = None ->
    load_environment_variables getenv = ([], Raised ValueError)) /\
   (forall n,
       py_int (getenv_default getenv "EDFI_TIMEOUT" "30") = Some n ->
       exists env_vars,
         load_environment_variables getenv = ([], Returned env_vars) /\
         (forall var, In var required_vars ->
                      exists v, getenv var = Some v /\ v <> "" /\
                                dict_get env_vars var = Some (JStr v)) /\
         dict_get env_vars "EDFI_TIMEOUT" = Some (JInt n))).
Proof.
  intros missing. split.
  - apply load_environment_variables_exits.
  - intros Hnil. split.
    + intros Hint. unfold load_environment_variables.
      pose proof (collect_vars_missing getenv required_vars [] []) as Hm.
      destruct (collect_vars getenv required_vars [] []) as [env_vars missing_vars].
      cbn [fst snd app] in Hm. fold missing in Hm. rewrite Hnil in Hm.
      subst missing_vars. now rewrite Hint.
    + intros n Hint. now apply load_environment_variables_returns.
Qed.

(** The client [main] builds from what [load_environment_variables]
    returned. *)
Lemma client_of_env_returns getenv n :
  filter (fun var => negb (truthy_opt (getenv var))) required_vars = [] ->
  py_int (getenv_default getenv "EDFI_TIMEOUT" "30") = Some n ->
  exists env_vars base id secret school,
    load_environment_variables getenv = ([], Returned env_vars) /\
    getenv "EDFI_BASE_URL" = Some base /\ getenv "EDFI_CLIENT_ID" = Some id /\
    getenv "EDFI_CLIENT_SECRET" = Some secret /\ getenv "EDFI_SCHOOL_ID" = Some school /\
    client_of_env env_vars = Ok (new_client base id secret school n).
Proof.
  intros Hmissing Hint.
  destruct (load_environment_variables_returns getenv n Hmissing Hint)
    as [env_vars [Hload [Hvars Htimeout]]].
  destruct (Hvars "EDFI_BASE_URL") as [base [Hb [_ Hdb]]]; [simpl; auto|].
  destruct (Hvars "EDFI_CLIENT_ID") as [id [Hi [_ Hdi]]]; [simpl; auto|].
  destruct (Hvars "EDFI_CLIENT_SECRET") as [secret [Hs [_ Hds]]]; [simpl; auto|].
  destruct (Hvars "EDFI_SCHOOL_ID") as [school [Hsc [_ Hdsc]]]; [simpl; auto 6|].
  exists env_vars, base, id, secret, school.
  repeat (split; [assumption|]).
  unfold client_of_env, env_str, env_int.
  rewrite Hdb, Hdi, Hds, Hdsc, Htimeout. reflexivity.
Qed.

(** The tallies a readable file leaves in the trace. *)
Lemma load_all_students_run (w : World) filename rows students :
  csv_open filename = Rows rows ->
  students_of_rows rows = Ok students ->
  let results := outcomes_read students (snd (read_csv_file filename w)) in
  fst (load_all_students filename w) = Ok tt /\
  tallies (trace (snd (load_all_students filename w))) =
  tallies (trace w) ++ [(successes results, failures results)].
Proof.
  intros Hopen Hrows results.
  destruct (load_all_students_unfold w filename rows students Hopen Hrows)
    as [Hread [seg [_ [Htallies Hrun]]]].
  unfold results. rewrite Hread, Hrun. cbn [fst snd trace].
  split; [reflexivity|].
  rewrite !tallies_app, Htallies. simpl.
  destruct (0 <? _)%nat; simpl; now rewrite ?app_nil_r.
Qed.

Lemma core_events_map_core t : core_events (map Core t) = t.
Proof. induction t as [|e t IH]; simpl; [reflexivity | now rewrite IH]. Qed.

Lemma core_events_app t1 t2 : core_events (t1 ++ t2) = core_events t1 ++ core_events t2.
Proof.
  induction t1 as [|e t1 IH]; simpl; auto. destruct e; simpl; now rewrite ?IH.
Qed.

(** X19: [main] ends at start-up, with exit code 1 and before anything is
    asked of the network, when a required variable is unset or empty, and
    when all is set but students.csv does not exist. *)
Theorem main_stops_before_any_request getenv path_exists remote0 :
  let missing := filter (fun var => negb (truthy_opt (getenv var))) required_vars in
  (missing <> [] ->
   main getenv path_exists remote0 =
   ([ MainLog INFO MsgStarting;
      MainLog ERROR (MsgMissingVariables missing);
      MainLog ERROR MsgCopyEnvExample ],
    Exited 1)) /\
  (forall n,
      missing = [] ->
      py_int (getenv_default getenv "EDFI_TIMEOUT" "30") = Some n ->
      path_exists "students.csv" = false ->
      main getenv path_exists remote0 =
      ([ MainLog INFO MsgStarting;
         MainLog ERROR (MsgCsvFileNotFound "students.csv");
         MainLog ERROR MsgMakeSureCsvExists ],
       Exited 1)).
Proof.
  intros missing. split.
  - intros Hne. unfold main.
    rewrite (load_environment_variables_exits getenv Hne). reflexivity.
  - intros n Hnil Hint Hpath. unfold main.
    destruct (client_of_env_returns getenv n Hnil Hint)
      as [env_vars [base [id [secret [school [Hload [_ [_ [_ [_ Hclient]]]]]]]]]].
    rewrite Hload, Hclient, Hpath. reflexivity.
Qed.

(** X20: with the variables set, the file there and readable, [main]
    returns (exit status 0) and logs its success line last, whatever the
    tallies of the load were: records that failed do not change how the
    process ends. *)
Theorem main_returns_whatever_the_tallies getenv path_exists remote0
    n base id secret school rows students :
  filter (fun var => negb (truthy_opt (getenv var))) required_vars = [] ->
  py_int (getenv_default getenv "EDFI_TIMEOUT" "30") = Some n ->
  getenv "EDFI_BASE_URL" = Some base ->
  getenv "EDFI_CLIENT_ID" = Some id ->
  getenv "EDFI_CLIENT_SECRET" = Some secret ->
  getenv "EDFI_SCHOOL_ID" = Some school ->
  path_exists "students.csv" = true ->
  csv_open "students.csv" = Rows rows ->
  students_of_rows rows = Ok students ->
  let w := mkWorld (new_client base id secret school n) remote0 [] in
  let results := outcomes_read students (snd (read_csv_file "students.csv" w)) in
  let emitted := fst (main getenv path_exists remote0) in
  snd (main getenv path_exists remote0) = Returned tt /\
  core_events emitted = trace (snd (load_all_students "students.csv" w)) /\
  tallies (core_events emitted) = [(successes results, failures results)] /\
  exists before, emitted = before ++ [MainLog INFO MsgCompleted].
Proof.
  intros Hmissing Hint Hb Hi Hs Hsc Hpath Hopen Hrows w results emitted.
  destruct (client_of_env_returns getenv n Hmissing Hint)
    as [env_vars [base' [id' [secret' [school'
         [Hload [Hb' [Hi' [Hs' [Hsc' Hclient]]]]]]]]]].
  assert (base' = base) by congruence. assert (id' = id) by congruence.
  assert (secret' = secret) by congruence. assert (school' = school) by congruence.
  subst base' id' secret' school'.
  destruct (load_all_students_run w "students.csv" rows students Hopen Hrows)
    as [Hok Htallies].
  fold results in Htallies.
  unfold emitted, main. rewrite Hload, Hclient, Hpath. cbn [negb].
  fold w. destruct (load_all_students "students.csv" w) as [[[]|e] wf];
    cbn [fst snd] in *; [|discriminate].
  split; [reflexivity|].
  assert (Hcore : core_events
                    ([MainLog INFO MsgStarting] ++ [] ++ map Core (trace wf)
                     ++ [MainLog INFO MsgCompleted]) = trace wf).
  { rewrite !core_events_app, core_events_map_core. simpl. now rewrite app_nil_r. }
  split; [exact Hcore|]. split; [rewrite Hcore; exact Htallies|].
  exists ([MainLog INFO MsgStarting] ++ map Core (trace wf)). reflexivity.
Qed.

Lemma load_environment_variables_exit_code getenv logs code :
  load_environment_variables getenv = (logs, Exited code) -> code = 1%Z.
Proof.
  unfold load_environment_variables.
  destruct (collect_vars getenv required_vars [] []) as [env_vars [|var missing_vars]].
  - destruct (py_int _); discriminate.
  - intros H. inversion H. reflexivity.
Qed.

(** X21: [main] never lets an exception out: whatever the environment, the
    file system and the remote side, it returns or it leaves with exit
    code 1. *)
Theorem main_returns_or_exits_with_1 getenv path_exists remote0 :
  snd (main getenv path_exists remote0) = Returned tt \/
  snd (main getenv path_exists remote0) = Exited 1.
Proof.
  unfold main.
  destruct (load_environment_variables getenv) as [logs [env_vars|e|code]] eqn:Hload;
    cbn [snd]; auto.
  - destruct (client_of_env env_vars); cbn [snd]; auto.
    destruct (negb (path_exists "students.csv")); cbn [snd]; auto.
    destruct (load_all_students "students.csv" _) as [[[]|e] wf]; cbn [snd]; auto.
  - right. now rewrite (load_environment_variables_exit_code _ _ _ Hload).
Qed.

End Environment.

(** ** Concrete runs *)

(** The token request is refused: the client still holds "tok-1". *)
Lemma failed_authenticate_keeps_token_witness :
  access_token
    (client (snd (authenticate
                    (start no_files ready_client [Responded (empty_response 401)])))) =
  JStr "tok-1".
Proof.
  exact (failed_authenticate_keeps_token
           (start no_files ready_client [Responded (empty_response 401)])
           (AuthenticateFailed (RequestException HTTPError (Some (empty_response 401))))
           eq_refl).
Defined.

(** A refused token request, and an answer without access_token. *)
Lemma authenticate_failures_witness :
  fst (authenticate (start no_files ready_client [Responded (empty_response 401)])) =
  Raise (AuthenticateFailed (RequestException HTTPError (Some (empty_response 401)))) /\
  fst (authenticate
         (start no_files ready_client
            [Responded (json_response 200 (JObj [("token_type", JStr "bearer")]))])) =
  Raise (KeyError "access_token").
Proof.
  split.
  - apply (authenticate_failures
             (start no_files ready_client [Responded (empty_response 401)])
             (start no_files ready_client [Responded (empty_response 401)]) eq_refl).
    reflexivity.
  - eapply (authenticate_failures
              (start no_files ready_client
                 [Responded (json_response 200 (JObj [("token_type", JStr "bearer")]))])
              (start no_files ready_client
                 [Responded (json_response 200 (JObj [("token_type", JStr "bearer")]))])
              eq_refl); reflexivity.
Defined.

(** A new token replaces "tok-1". *)
Lemma authenticate_stores_token_witness :
  let w := start no_files ready_client [Responded (token_response "tok-2")] in
  fst (authenticate w) = Ok tt /\
  client (snd (authenticate w)) = set_access_token ready_client (JStr "tok-2") /\
  remote (snd (authenticate w)) = [] /\
  http_calls (trace (snd (authenticate w))) = [token_call ready_client].
Proof.
  intros w.
  apply (authenticate_stores_token w w (token_response "tok-2") []
           [("access_token", JStr "tok-2"); ("expires_in", JInt 3600)] (JStr "tok-2"));
    reflexivity.
Defined.

(** One discovery, and the second call asks nothing. *)
Lemma discovery_is_cached_witness :
  let w := start no_files test_client
             [Responded (json_response 200 discovery_document)] in
  http_calls (trace (snd (discover_endpoints w))) = [Get "https://test.example.com" 30] /\
  discover_endpoints (snd (discover_endpoints w)) = (Ok tt, snd (discover_endpoints w)).
Proof.
  intros w.
  apply (discovery_is_cached w (json_response 200 discovery_document) []
           [("urls", JObj [("oauth", JStr "https://test.example.com/oauth/token");
                           ("dataManagementApi", JStr "https://test.example.com/data/v3")])]
           [("oauth", JStr "https://test.example.com/oauth/token");
            ("dataManagementApi", JStr "https://test.example.com/data/v3")]
           (JStr "https://test.example.com/oauth/token")
           (JStr "https://test.example.com/data/v3"));
    reflexivity.
Defined.

(** A new client and a discovery that times out. *)
Lemma no_session_no_request_witness :
  let w := start no_files test_client [Failed Timeout] in
  let payload := Some (create_student_payload diana) in
  fst (make_request "/ed-fi/students" "POST" payload w) =
  Raise (DiscoverFailed (RequestException Timeout None)) /\
  snd (make_request "/ed-fi/students" "POST" payload w) = snd (authenticate w) /\
  data_requests (emitted_by (make_request "/ed-fi/students" "POST" payload) w) = [].
Proof.
  intros w payload.
  apply (no_session_no_request w "/ed-fi/students" "POST" payload
           (DiscoverFailed (RequestException Timeout None))); reflexivity.
Defined.

(** A 500: raised with the response after one call. *)
Lemma answer_other_than_401_is_final_witness :
  let w := start no_files ready_client [refused; created] in
  let payload := Some (create_student_payload diana) in
  fst (make_request "/ed-fi/students" "POST" payload w) =
  Raise (RequestException HTTPError (Some (mkResponse 500 "server error" None))) /\
  length (data_requests (trace (snd (make_request "/ed-fi/students" "POST" payload w)))) =
  1%nat.
Proof.
  intros w payload.
  destruct (answer_other_than_401_is_final w w "/ed-fi/students" "POST" payload
              "https://test.example.com/data/v3" (mkResponse 500 "server error" None)
              [created] eq_refl eq_refl eq_refl)
    as [Hsent [_ [_ [Herr _]]]]; [discriminate|].
  destruct (Herr eq_refl) as [Hres _].
  split; [exact Hres|]. now rewrite Hsent.
Defined.

(** The sample file: a header and two rows. *)
Lemma records_read_have_no_empty_optional_witness :
  length [as_read diana; as_read plain_student] = 2%nat /\
  map (fun student => Some (read_unique_id student))
    [as_read diana; as_read plain_student] =
  [Some (Some "604835"); Some (Some "1001")] /\
  Forall (fun student =>
            Forall (fun kf => snd kf <> Some "") (optional_fields_read student))
    [as_read diana; as_read plain_student].
Proof.
  exact (records_read_have_no_empty_optional sample_rows
           [as_read diana; as_read plain_student] eq_refl).
Defined.

(** The row of the record of [test_loader.py]: a middle name, an empty
    preferred first name; and the same row cut after the first name: the
    last name goes out as [null]. *)
Lemma csv_cell_to_payload_witness :
  dict_get (create_student_payload_read (as_read diana)) "middleName" =
  Some (JStr "Emily") /\
  dict_get (create_student_payload_read (as_read diana)) "preferredFirstName" = None /\
  dict_get (create_student_payload_read
              (record_of_cells ["604835"; "2016-09-29"; "Diana"])) "lastSurName" =
  Some JNull.
Proof.
  destruct (csv_cell_to_payload (dict_of_row csv_columns diana_row) (as_read diana)
              eq_refl) as [_ Hopt].
  destruct (csv_cell_to_payload
              (dict_of_row csv_columns ["604835"; "2016-09-29"; "Diana"])
              (record_of_cells ["604835"; "2016-09-29"; "Diana"]) eq_refl)
    as [Hreq _].
  destruct (Hopt "middleName" "middleName") as [cell [Hcell Hpay]]; [simpl; auto|].
  destruct (Hopt "preferredFirstName" "preferredFirstName")
    as [cell' [Hcell' Hpay']]; [simpl; auto|].
  destruct (Hreq "lastName" "lastSurName") as [cell'' [Hcell'' Hpay'']]; [simpl; auto 6|].
  inversion Hcell; subst cell. inversion Hcell'; subst cell'.
  inversion Hcell''; subst cell''.
  split; [exact Hpay|]. split; [exact Hpay' | exact Hpay''].
Defined.

(** A file whose only row stops after the first name: the student is
    posted with a [null] last name, then the load fails. *)
Lemma short_row_record_fails_after_post_witness :
  let w := start no_files ready_client [created; created] in
  let student := record_of_cells ["604835"; "2016-09-29"; "Diana"] in
  fst (load_student_read student w) = Raise TypeError /\
  map json_of_call (data_requests (trace (snd (load_student_read student w)))) =
  [ Some [ ("studentUniqueId", JStr "604835"); ("birthDate", JStr "2016-09-29");
           ("firstName", JStr "Diana"); ("lastSurName", JNull) ] ].
Proof.
  intros w student.
  rewrite (short_row_record_fails_after_post w student (JObj [])
             (@mkWorld (scripted no_files) ready_client [created]
                [ Log INFO (MsgLoadingStudent "604835" "Diana" "None");
                  Log DEBUG MsgCreatingStudent;
                  Http (Request "POST" "https://test.example.com/data/v3/ed-fi/students"
                          [("Authorization", "Bearer tok-1");
                           ("Content-Type", "application/json")]
                          (Some (create_student_payload_read student)) 30) ])
             eq_refl eq_refl).
  split; reflexivity.
Defined.

(** The student is created, then the flag "yes" turns out to be no number. *)
Lemma late_failure_leaves_student_posted_witness :
  let w := start no_files ready_client [created; created] in
  fst (load_student bad_flag_student w) = Raise ValueError /\
  Forall (fun call => json_of_call call = Some (create_student_payload bad_flag_student))
    (data_requests (emitted_by (load_student bad_flag_student) w)) /\
  exists call,
    In call (data_requests (emitted_by (load_student bad_flag_student) w)) /\
    json_of_call call = Some (create_student_payload bad_flag_student).
Proof.
  intros w.
  destruct (late_failure_leaves_student_posted w bad_flag_student (JObj [])
              (snd (primary_post bad_flag_student
                      (snd (before_primary bad_flag_student w)))) eq_refl)
    as [Hposted [Hbuild _]].
  destruct (Hbuild eq_refl) as [Hraise Hsent].
  split; [exact Hraise|]. split; [exact Hsent | exact Hposted].
Defined.

(** A file with a header only. *)
Lemma empty_file_loads_nothing_witness :
  load_all_students "students.csv" (start header_only test_client [created]) =
  (Ok tt,
   @mkWorld (scripted header_only) test_client [created]
     [ Log INFO (MsgReadRecords 0 "students.csv"); Log INFO (MsgLoadComplete 0 0) ]).
Proof.
  exact (empty_file_loads_nothing (start header_only test_client [created])
           "students.csv" [csv_columns] eq_refl eq_refl).
Defined.

(** No file at all. *)
Lemma unreadable_file_stops_the_load_witness :
  load_all_students "students.csv" (start no_files ready_client [created]) =
  (Raise (CsvNotFound "students.csv"), start no_files ready_client [created]).
Proof.
  exact (unreadable_file_stops_the_load (start no_files ready_client [created])
           "students.csv" (CsvNotFound "students.csv") eq_refl).
Defined.

(** The whole process: discovery, token, a record that loads and one that
    is refused; [main] returns all the same. *)
Lemma main_returns_whatever_the_tallies_witness :
  let remote0 := [ Responded (json_response 200 discovery_document);
                   Responded (token_response "tok-1");
                   created; created; refused ] in
  snd (@main (scripted sample_files) sample_env every_path remote0) = Returned tt /\
  tallies (core_events (fst (@main (scripted sample_files) sample_env every_path remote0)))
  = [(1, 1)%nat].
Proof.
  intros remote0.
  destruct (@main_returns_whatever_the_tallies (scripted sample_files) sample_env
              every_path remote0 30 "https://test.example.com/" "test" "secret"
              "255901001" sample_rows [as_read diana; as_read plain_student]
              eq_refl eq_refl eq_refl eq_refl eq_refl eq_refl eq_refl eq_refl eq_refl)
    as [Hreturned [_ [Htallies _]]].
  split; [exact Hreturned | exact Htallies].
Defined.

(** A secret that is set and empty, and a file that is not there. *)
Lemma main_stops_before_any_request_witness :
  @main (scripted sample_files) env_without_secret every_path [created] =
  ([ MainLog INFO MsgStarting;
     MainLog ERROR (MsgMissingVariables ["EDFI_CLIENT_SECRET"]);
     MainLog ERROR MsgCopyEnvExample ],
   Exited 1) /\
  @main (scripted sample_files) sample_env no_path [created] =
  ([ MainLog INFO MsgStarting;
     MainLog ERROR (MsgCsvFileNotFound "students.csv");
     MainLog ERROR MsgMakeSureCsvExists ],
   Exited 1).
Proof.
  destruct (@main_stops_before_any_request (scripted sample_files)
              env_without_secret every_path [created]) as [Hmissing _].
  destruct (@main_stops_before_any_request (scripted sample_files)
              sample_env no_path [created]) as [_ Hfile].
  split.
  - apply Hmissing. discriminate.
  - apply (Hfile 30%Z); reflexivity.
Defined.
